(** * super_productivity_cli: the document client, embedded and verified

    A shallow embedding of [super_productivity_cli/client.py].  The client
    downloads one JSON document, mutates the parsed value in memory and
    uploads the whole value again.  The embedding keeps that shape:

    - the parsed document is a [value] (what [json.loads] yields: [None],
      booleans, integers, floats, strings, lists and insertion-ordered
      dictionaries with string keys);
    - the Python operations the client applies to such values (subscript,
      [append], [remove], [pop], [in], [int], [str.strip], [str.lower],
      truth testing, [==], true division) are functions returning [res],
      which is either a result or the exception Python raises;
    - the remote file, the uploads and the wall clock form the [world] that
      the methods of [SupProd] thread through.

    Strings are sequences of code points below 256 (ASCII and Latin-1); JSON
    text is identified with the value it denotes, so that uploading a value
    and downloading it again gives the same value.  The file store always
    answers: a download returns the document, an upload replaces it.

    Embedded are the methods of [SupProd] that read or change the document,
    the members of [Task] and [Project], [Attachment], and the two commands
    [list] and [urls] of [__main__.py].  The configuration loader, the
    connection set-up and the parsing of the command line are not. *)

From Stdlib Require Import ZArith Ascii String.
From Stdlib Require Import Floats.SpecFloat.
From stdpp Require Import base list strings pretty.

Local Set Warnings "-register-all".
Local Open Scope Z_scope.

(** ** Values and exceptions *)

Inductive value : Type :=
| VNone
| VBool (b : bool)
| VInt (n : Z)
| VFloat (f : spec_float)
| VStr (s : string)
| VList (l : list value)
| VDict (d : list (string * value)).

(** A dictionary keeps its keys in insertion order, as Python's [dict] does;
    [json.dumps] writes them in that order. *)
Definition dict : Type := list (string * value).

Inductive exn : Type :=
| KeyError
| ValueError
| TypeError
| AttributeError
| IndexError
| OverflowError.

Inductive res (A : Type) : Type :=
| Ok (a : A)
| Raise (e : exn).
Arguments Ok {A} a.
Arguments Raise {A} e.

Definition res_bind {A B : Type} (c : res A) (k : A -> res B) : res B :=
  match c with
  | Ok a => k a
  | Raise e => Raise e
  end.

Declare Scope py_scope.
Delimit Scope py_scope with py.
Notation "'let?' x ':=' c 'in' k" := (res_bind c (fun x => k))
  (at level 10, x name, c at level 100, k at level 200) : py_scope.
Local Open Scope py_scope.

(** ** Floats: IEEE 754 binary64, as CPython's [float] *)

Definition prec : Z := 53.
Definition emax : Z := 1024.

(** [float(n)] for an integer [n]: round to nearest, ties to even;
    [OverflowError] when [n] is too large for a double. *)
Definition float_of_int (n : Z) : res spec_float :=
  match binary_normalize prec emax n 0 false with
  | S754_infinity _ => Raise OverflowError
  | f => Ok f
  end.

(** The float literal [1000.0]. *)
Definition f1000 : spec_float := S754_finite false 8796093022208000 (-43).

Definition float_div (x y : spec_float) : spec_float := SFdiv prec emax x y.
Definition float_mul (x y : spec_float) : spec_float := SFmul prec emax x y.

(** [int(f)] for a float: truncation towards zero. *)
Definition int_of_float (f : spec_float) : res Z :=
  match f with
  | S754_zero _ => Ok 0
  | S754_infinity _ => Raise OverflowError
  | S754_nan => Raise ValueError
  | S754_finite s m e =>
      let a := if 0 <=? e then Z.pos m * 2 ^ e else Z.pos m / 2 ^ (- e) in
      Ok (if s then - a else a)
  end.

(** [f == n] for a float and an integer compares the exact values. *)
Definition float_eq_int (f : spec_float) (n : Z) : bool :=
  match f with
  | S754_zero _ => n =? 0
  | S754_finite s m e =>
      let mz := if s then Z.neg m else Z.pos m in
      if 0 <=? e then n =? mz * 2 ^ e else n * 2 ^ (- e) =? mz
  | _ => false
  end.

(** ** Strings *)

Definition code (a : ascii) : N := N_of_ascii a.

(** [str.isspace] on one character, for code points below 256. *)
Definition isspace (a : ascii) : bool :=
  let c := code a in
  ((9 <=? c) && (c <=? 13) || (28 <=? c) && (c <=? 32)
   || (c =? 133) || (c =? 160))%N.

Fixpoint lstrip (s : string) : string :=
  match s with
  | EmptyString => EmptyString
  | String a s' => if isspace a then lstrip s' else s
  end.

Fixpoint rstrip (s : string) : string :=
  match s with
  | EmptyString => EmptyString
  | String a s' =>
      match rstrip s' with
      | EmptyString => if isspace a then EmptyString else String a EmptyString
      | r => String a r
      end
  end.

(** [s.strip()] *)
Definition strip (s : string) : string := lstrip (rstrip s).

(** [str.lower] on one character, for code points below 256: [A]-[Z] and the
    Latin-1 capitals (0xC0-0xDE without the multiplication sign 0xD7). *)
Definition lower_char (a : ascii) : ascii :=
  let c := code a in
  if ((65 <=? c) && (c <=? 90)
      || (192 <=? c) && (c <=? 222) && negb (c =? 215))%N
  then ascii_of_N (c + 32) else a.

(** [s.lower()] *)
Fixpoint lower (s : string) : string :=
  match s with
  | EmptyString => EmptyString
  | String a s' => String (lower_char a) (lower s')
  end.

Definition digit (a : ascii) : option Z :=
  let c := code a in
  if ((48 <=? c) && (c <=? 57))%N then Some (Z.of_N c - 48) else None.

(** Digits after a first digit; one underscore may stand between two
    digits. *)
Fixpoint int_digits (acc : Z) (s : string) : option Z :=
  match s with
  | EmptyString => Some acc
  | String a r =>
      match digit a with
      | Some d => int_digits (10 * acc + d) r
      | None =>
          if Ascii.eqb a "_" then
            match r with
            | String b r' =>
                match digit b with
                | Some d => int_digits (10 * acc + d) r'
                | None => None
                end
            | EmptyString => None
            end
          else None
      end
  end.

Definition int_body (s : string) : option Z :=
  match s with
  | String a r =>
      match digit a with
      | Some d => int_digits d r
      | None => None
      end
  | EmptyString => None
  end.

(** The blanks that [int] passes over around a number, for code points
    below 256: tab to carriage return, the space and the two blanks of
    Latin-1.  The separators 0x1C-0x1F, which [str.strip] drops, are not
    among them. *)
Definition int_space (a : ascii) : bool :=
  let c := code a in
  ((9 <=? c) && (c <=? 13) || (c =? 32) || (c =? 133) || (c =? 160))%N.

Fixpoint int_lstrip (s : string) : string :=
  match s with
  | EmptyString => EmptyString
  | String a s' => if int_space a then int_lstrip s' else s
  end.

Fixpoint int_rstrip (s : string) : string :=
  match s with
  | EmptyString => EmptyString
  | String a s' =>
      match int_rstrip s' with
      | EmptyString =>
          if int_space a then EmptyString else String a EmptyString
      | r => String a r
      end
  end.

(** The number of decimal digits in [s]. *)
Fixpoint count_digits (s : string) : N :=
  match s with
  | EmptyString => 0%N
  | String a r =>
      match digit a with
      | Some _ => N.succ (count_digits r)
      | None => count_digits r
      end
  end.

(** [sys.int_max_str_digits] as the interpreter sets it: a text with more
    digits is not converted. *)
Definition int_max_str_digits : N := 4300.

(** [int(s)] for a string: the blanks around the number are passed over,
    then come an optional sign and decimal digits, of which there are at
    most [int_max_str_digits]; anything else is a [ValueError]. *)
Definition int_of_str (s : string) : res Z :=
  let t := int_lstrip (int_rstrip s) in
  let '(neg, body) :=
    match t with
    | String a r =>
        if Ascii.eqb a "-" then (true, r)
        else if Ascii.eqb a "+" then (false, r)
        else (false, t)
    | EmptyString => (false, t)
    end in
  match int_body body with
  | Some n =>
      if (count_digits body <=? int_max_str_digits)%N
      then Ok (if neg then - n else n)
      else Raise ValueError
  | None => Raise ValueError
  end.

(** [needle in hay] for two strings: substring test. *)
Fixpoint str_contains (needle hay : string) : bool :=
  String.prefix needle hay
  || match hay with
     | EmptyString => false
     | String _ hay' => str_contains needle hay'
     end.

(** ** Operations on values *)

(** Truth value of an object, as [if], [not], [and] and [or] test it. *)
Definition truthy (v : value) : bool :=
  match v with
  | VNone => false
  | VBool b => b
  | VInt n => negb (n =? 0)
  | VFloat (S754_zero _) => false
  | VFloat _ => true
  | VStr s => negb (String.eqb s "")
  | VList l => negb (Nat.eqb (length l) 0)
  | VDict d => negb (Nat.eqb (length d) 0)
  end.

Fixpoint dict_get (k : string) (d : dict) : option value :=
  match d with
  | [] => None
  | (k', v) :: d' => if String.eqb k k' then Some v else dict_get k d'
  end.

(** [d[k] = v]: an existing key keeps its place, a new key goes last. *)
Fixpoint dict_set (k : string) (v : value) (d : dict) : dict :=
  match d with
  | [] => [(k, v)]
  | (k', v') :: d' =>
      if String.eqb k k' then (k', v) :: d' else (k', v') :: dict_set k v d'
  end.

Fixpoint dict_del (k : string) (d : dict) : dict :=
  match d with
  | [] => []
  | (k', v') :: d' =>
      if String.eqb k k' then dict_del k d' else (k', v') :: dict_del k d'
  end.

(** [a == b].  Booleans are integers, integers and floats compare by exact
    value, lists element by element, dictionaries without regard to
    order. *)
Fixpoint py_eq (a b : value) {struct a} : bool :=
  match a, b with
  | VNone, VNone => true
  | VStr s, VStr t => String.eqb s t
  | VBool x, VBool y => Bool.eqb x y
  | VBool x, VInt n => Z.b2z x =? n
  | VInt n, VBool x => n =? Z.b2z x
  | VInt m, VInt n => m =? n
  | VBool x, VFloat f => float_eq_int f (Z.b2z x)
  | VFloat f, VBool x => float_eq_int f (Z.b2z x)
  | VInt n, VFloat f => float_eq_int f n
  | VFloat f, VInt n => float_eq_int f n
  | VFloat f, VFloat g => SFeqb f g
  | VList l, VList m =>
      (fix go (l m : list value) {struct l} : bool :=
         match l, m with
         | [], [] => true
         | x :: l', y :: m' => py_eq x y && go l' m'
         | _, _ => false
         end) l m
  | VDict d, VDict e =>
      Nat.eqb (length d) (length e)
      && (fix all (d : dict) {struct d} : bool :=
            match d with
            | [] => true
            | (k, v) :: d' =>
                match dict_get k e with
                | Some w => py_eq v w
                | None => false
                end && all d'
            end) d
  | _, _ => false
  end.

(** Position [i] of a sequence of length [n]; a negative index counts from
    the end. *)
Definition norm_index (n : nat) (i : Z) : option nat :=
  let j := if i <? 0 then i + Z.of_nat n else i in
  if (0 <=? j) && (j <? Z.of_nat n) then Some (Z.to_nat j) else None.

Definition chars (s : string) : list value :=
  map (fun a => VStr (String a EmptyString)) (list_ascii_of_string s).

Definition seq_index (l : list value) (i : Z) : res value :=
  match norm_index (length l) i with
  | Some j =>
      match l !! j with
      | Some v => Ok v
      | None => Raise IndexError
      end
  | None => Raise IndexError
  end.

(** [c[k]] *)
Definition subscript (c k : value) : res value :=
  match c with
  | VDict d =>
      match k with
      | VStr s =>
          match dict_get s d with
          | Some v => Ok v
          | None => Raise KeyError
          end
      | VList _ | VDict _ => Raise TypeError
      | _ => Raise KeyError
      end
  | VList l =>
      match k with
      | VInt i => seq_index l i
      | VBool b => seq_index l (Z.b2z b)
      | _ => Raise TypeError
      end
  | VStr s =>
      match k with
      | VInt i => seq_index (chars s) i
      | VBool b => seq_index (chars s) (Z.b2z b)
      | _ => Raise TypeError
      end
  | _ => Raise TypeError
  end.

(** [c["k"]], a subscript with a string key. *)
Definition getitem (c : value) (k : string) : res value := subscript c (VStr k).

(** The container [c] once its item [k], found by [subscript], has become
    [v]: how a change made in place to [c[k]] shows in [c]. *)
Definition store (c k v : value) : value :=
  match c, k with
  | VDict d, VStr s => VDict (dict_set s v d)
  | VList l, VInt i =>
      match norm_index (length l) i with
      | Some j => VList (<[j:=v]> l)
      | None => c
      end
  | VList l, VBool b =>
      match norm_index (length l) (Z.b2z b) with
      | Some j => VList (<[j:=v]> l)
      | None => c
      end
  | _, _ => c
  end.

(** [c[k] = v] for a string [k]: the container after the assignment. *)
Definition setitem (k : string) (v : value) (c : value) : res value :=
  match c with
  | VDict d => Ok (VDict (dict_set k v d))
  | _ => Raise TypeError
  end.

(** [c.append(x)]: the list after the call. *)
Definition append (x : value) (c : value) : res value :=
  match c with
  | VList l => Ok (VList (l ++ [x]))
  | _ => Raise AttributeError
  end.

Fixpoint remove_first (x : value) (l : list value) : option (list value) :=
  match l with
  | [] => None
  | y :: l' =>
      if py_eq y x then Some l'
      else match remove_first x l' with
           | Some r => Some (y :: r)
           | None => None
           end
  end.

(** [c.remove(x)]: the list after the call; [ValueError] when [x] is not in
    it, [AttributeError] when [c] is no list. *)
Definition remove (x : value) (c : value) : res value :=
  match c with
  | VList l =>
      match remove_first x l with
      | Some l' => Ok (VList l')
      | None => Raise ValueError
      end
  | _ => Raise AttributeError
  end.

Definition delete_at (l : list value) (i : Z) : res value :=
  match norm_index (length l) i with
  | Some j => Ok (VList (take j l ++ drop (S j) l))
  | None => Raise IndexError
  end.

(** [c.pop(x)]: the container after the call. *)
Definition pop (x : value) (c : value) : res value :=
  match c with
  | VDict d =>
      match x with
      | VStr s =>
          match dict_get s d with
          | Some _ => Ok (VDict (dict_del s d))
          | None => Raise KeyError
          end
      | VList _ | VDict _ => Raise TypeError
      | _ => Raise KeyError
      end
  | VList l =>
      match x with
      | VInt i => delete_at l i
      | VBool b => delete_at l (Z.b2z b)
      | _ => Raise TypeError
      end
  | _ => Raise AttributeError
  end.

(** The items a [for] loop or a comprehension draws from [c]. *)
Definition iter (c : value) : res (list value) :=
  match c with
  | VList l => Ok l
  | VDict d => Ok (map (fun kv => VStr (fst kv)) d)
  | VStr s => Ok (chars s)
  | _ => Raise TypeError
  end.

(** [s in c] for a string [s]. *)
Definition str_in (s : string) (c : value) : res bool :=
  match c with
  | VList l => Ok (existsb (fun e => py_eq e (VStr s)) l)
  | VDict d => Ok (bool_decide (is_Some (dict_get s d)))
  | VStr h => Ok (str_contains s h)
  | _ => Raise TypeError
  end.

(** [int(x)] *)
Definition py_int (x : value) : res Z :=
  match x with
  | VStr s => int_of_str s
  | VInt n => Ok n
  | VBool b => Ok (Z.b2z b)
  | VFloat f => int_of_float f
  | _ => Raise TypeError
  end.

(** [x / 1000.0] *)
Definition div1000 (x : value) : res value :=
  match x with
  | VInt n => let? f := float_of_int n in Ok (VFloat (float_div f f1000))
  | VBool b => let? f := float_of_int (Z.b2z b) in Ok (VFloat (float_div f f1000))
  | VFloat f => Ok (VFloat (float_div f f1000))
  | _ => Raise TypeError
  end.

(** The object reached from [c] by the keys of [p]: [c[k1][k2]...]. *)
Fixpoint get_path (p : list value) (c : value) : res value :=
  match p with
  | [] => Ok c
  | k :: p' => let? x := subscript c k in get_path p' x
  end.

(** [c[k1][k2]....m(...)] for a method [m] that changes its object in place:
    the object reached by [p] is replaced by what [m] makes of it, and [c]
    is otherwise as before.  When a subscript or [m] raises, nothing has
    been changed. *)
Fixpoint with_path (p : list value) (m : value -> res value) (c : value)
  : res value :=
  match p with
  | [] => m c
  | k :: p' =>
      let? x := subscript c k in
      let? x' := with_path p' m x in
      Ok (store c k x')
  end.

(** ** State and exceptions *)

(** A computation over a state [S] that returns an [A] or raises; the state
    it leaves behind is kept in both cases. *)
Definition ST (S A : Type) : Type := S -> res A * S.

Definition ret {S A : Type} (a : A) : ST S A := fun s => (Ok a, s).

Definition bind {S A B : Type} (c : ST S A) (k : A -> ST S B) : ST S B :=
  fun s =>
    match c s with
    | (Ok a, s') => k a s'
    | (Raise e, s') => (Raise e, s')
    end.

Definition lift {S A : Type} (r : res A) : ST S A := fun s => (r, s).

Notation "x <- c ;; k" := (bind c (fun x => k))
  (at level 100, c at next level, right associativity) : py_scope.
Notation "c ;; k" := (bind c (fun _ => k))
  (at level 100, right associativity) : py_scope.

Definition exn_eqb (a b : exn) : bool :=
  match a, b with
  | KeyError, KeyError | ValueError, ValueError | TypeError, TypeError
  | AttributeError, AttributeError | IndexError, IndexError
  | OverflowError, OverflowError => true
  | _, _ => false
  end.

(** [try: c / except e: h] *)
Definition try_except {S A : Type} (c : ST S A) (e : exn) (h : ST S A)
  : ST S A :=
  fun s =>
    match c s with
    | (Raise e', s') => if exn_eqb e' e then h s' else (Raise e', s')
    | r => r
    end.

Fixpoint map_st {S A B : Type} (f : A -> ST S B) (l : list A) : ST S (list B) :=
  match l with
  | [] => ret []
  | x :: l' => y <- f x ;; ys <- map_st f l' ;; ret (y :: ys)
  end.

(** [[f(x) for x in l]] and [[x for x in l if p(x)]] without state. *)
Fixpoint res_map {A B : Type} (f : A -> res B) (l : list A) : res (list B) :=
  match l with
  | [] => Ok []
  | x :: l' => let? y := f x in let? ys := res_map f l' in Ok (y :: ys)
  end.

Fixpoint res_filter {A : Type} (p : A -> res bool) (l : list A)
  : res (list A) :=
  match l with
  | [] => Ok []
  | x :: l' =>
      let? b := p x in
      let? ys := res_filter p l' in
      Ok (if b then x :: ys else ys)
  end.

(** ** The world of a [SupProd] object *)

Record world : Type := World {
  (** the file at [_file_path] of the file store, parsed *)
  remote : value;
  (** the documents handed to [files_upload] so far, oldest first *)
  uploads : list value;
  (** what the [n]-th call of [time.time()] returns *)
  clock : nat -> spec_float;
  (** the number of calls of [time.time()] so far *)
  ticks : nat
}.

(** [time.time()] *)
Definition time_time : ST world spec_float :=
  fun w =>
    (Ok (clock w (ticks w)),
     {| remote := remote w; uploads := uploads w; clock := clock w;
        ticks := S (ticks w) |}).

(** [dropbox.files_download(_file_path)[1].json()] *)
Definition files_download : ST world value := fun w => (Ok (remote w), w).

(** [dropbox.files_upload(json.dumps(doc).encode(), _file_path,
    mode=WriteMode('overwrite'))] *)
Definition files_upload (doc : value) : ST world unit :=
  fun w =>
    (Ok tt,
     {| remote := doc; uploads := uploads w ++ [doc]; clock := clock w;
        ticks := ticks w |}).

(** [str(f)] for a float [f] is left to the Python runtime. *)
Class FloatRepr : Type := float_repr : spec_float -> string.

(** ** class Task: a view of one task record

    The constructor keeps the record it is given; the module reference and
    the task id it also receives are not read by any property. *)
Module Task.

Record t : Type := New { _task_details : value }.

(** [self._task_details["title"].strip()] *)
Definition title (self : t) : res string :=
  let? v := getitem (_task_details self) "title" in
  match v with
  | VStr s => Ok (strip s)
  | _ => Raise AttributeError
  end.

(** [self._task_details["isDone"]] *)
Definition done (self : t) : res value :=
  getitem (_task_details self) "isDone".

(** [self._task_details["doneOn"] / 1000.0
    if self._task_details["doneOn"] is not None else 0] *)
Definition done_at (self : t) : res value :=
  let? c := getitem (_task_details self) "doneOn" in
  match c with
  | VNone => Ok (VInt 0)
  | _ => let? x := getitem (_task_details self) "doneOn" in div1000 x
  end.

(** [self._task_details["projectId"]] *)
Definition project_id (self : t) : res value :=
  getitem (_task_details self) "projectId".

(** [self._task_details["tagIds"]] *)
Definition tags (self : t) : res value :=
  getitem (_task_details self) "tagIds".

End Task.

(** ** class Project: a view of one project record *)
Module Project.

Record t : Type := New { _project_id : value; _project_details : value }.

Definition id (self : t) : value := _project_id self.

(** [self._project_details["title"]] *)
Definition title (self : t) : res value :=
  getitem (_project_details self) "title".

End Project.

(** ** class Attachment: a link attached to a task *)
Module Attachment.

Record t : Type := New {
  path : value;
  title : value;
  attachment_type : value
}.

(** [Attachment(attachment["path"], attachment["title"],
    attachment["type"])] *)
Definition from_attachment (attachment : value) : res t :=
  let? p := getitem attachment "path" in
  let? ti := getitem attachment "title" in
  let? ty := getitem attachment "type" in
  Ok (New p ti ty).

(** The storage form; its id is [str(time.time())]. *)
Definition attachment `{FloatRepr} (self : t) : ST world value :=
  now <- time_time ;;
  ret (VDict [("type", attachment_type self);
              ("path", path self);
              ("title", title self);
              ("id", VStr (float_repr now))]).

End Attachment.

(** ** class SupProd *)

(** Every prefix of [s], the empty one and [s] itself included. *)
Fixpoint prefixes (s : string) : list string :=
  EmptyString ::
  match s with
  | EmptyString => []
  | String a s' => map (String a) (prefixes s')
  end.

(** Every string that occurs in [s]. *)
Fixpoint substrings (s : string) : list string :=
  prefixes s ++
  match s with
  | EmptyString => []
  | String _ s' => substrings s'
  end.

(** A number of candidates that cannot all occur in [contents]. *)
Definition scan_bound (contents : value) : nat :=
  match contents with
  | VList l => length l
  | VDict d => length d
  | VStr h => length (substrings h)
  | _ => O
  end.

(** The [while True] loop of [new_task_id], run for at most [fuel] tests of
    [str(i) in contents]; [None] when the fuel does not reach the end. *)
Fixpoint new_task_id_loop (fuel : nat) (i : Z) (contents : value)
  : option (res string) :=
  match fuel with
  | O => None
  | S fuel' =>
      match str_in (pretty i) contents with
      | Raise e => Some (Raise e)
      | Ok true => new_task_id_loop fuel' (i + 1) contents
      | Ok false => Some (Ok (pretty i))
      end
  end.

(** The [for x in c[p]] loop over a list that [body] may shorten while the
    loop runs: the list iterator keeps a position [i] and reads the list as
    it is when the next item is asked for.  [fuel] bounds the number of
    rounds; the length of the list at the start is enough, since the
    position grows and the list does not. *)
Fixpoint for_live (fuel i : nat) (p : list value)
  (body : value -> ST value unit) : ST value unit :=
  fun c =>
    match fuel with
    | O => (Ok tt, c)
    | S fuel' =>
        match get_path p c with
        | Ok (VList l) =>
            match l !! i with
            | Some x =>
                match body x c with
                | (Ok _, c') => for_live fuel' (S i) p body c'
                | (Raise e, c') => (Raise e, c')
                end
            | None => (Ok tt, c)
            end
        | _ => (Ok tt, c)
        end
    end.

(** [for x in xs: body], over items that the body cannot change. *)
Fixpoint for_each (xs : list value) (body : value -> ST value unit)
  : ST value unit :=
  match xs with
  | [] => ret tt
  | x :: xs' => body x ;; for_each xs' body
  end.

(** [for x in c[k1][k2]...: body] *)
Definition for_in (p : list value) (body : value -> ST value unit)
  : ST value unit :=
  fun c =>
    match get_path p c with
    | Raise e => (Raise e, c)
    | Ok (VList l) => for_live (length l) 0 p body c
    | Ok v =>
        match iter v with
        | Ok xs => for_each xs body c
        | Raise e => (Raise e, c)
        end
    end.

(** A statement [c[k1][k2]....m(...)] on the local document. *)
Definition mutate (p : list value) (m : value -> res value) : ST value unit :=
  fun c =>
    match with_path p m c with
    | Ok c' => (Ok tt, c')
    | Raise e => (Raise e, c)
    end.

(** Statements on a local document [c], run inside a method: the document
    they leave is handed on; when they raise, the method raises. *)
Definition on_local (c : value) (body : ST value unit) : ST world value :=
  fun w =>
    match body c with
    | (Ok _, c') => (Ok c', w)
    | (Raise e, _) => (Raise e, w)
    end.

Definition is_none (v : value) : bool :=
  match v with
  | VNone => true
  | _ => false
  end.

Module SupProd.
Section Methods.

Context `{FloatRepr}.

(** The property [contents]: every read downloads and parses the file. *)
Definition contents : ST world value := files_download.

Definition update_contents (contents : value) : ST world unit :=
  now <- time_time ;;
  stamp <- lift (int_of_float (float_mul now f1000)) ;;
  contents <- lift (setitem "lastLocalSyncModelChange" (VInt stamp) contents) ;;
  files_upload contents.

Definition set_color (color : value) : ST world unit :=
  content <- contents ;;
  content <- on_local content
    (mutate [VStr "tag"; VStr "entities"; VStr "TODAY"; VStr "theme"]
       (setitem "primary" color) ;;
     mutate [VStr "tag"; VStr "entities"; VStr "TODAY"; VStr "theme"]
       (setitem "accent" color)) ;;
  update_contents content.

(** The scan ends within the fuel it is given here
  ([new_task_id_loop_total] below), so the last case is never taken. *)
Definition new_task_id : ST world string :=
  c <- contents ;;
  contents <- lift (get_path [VStr "task"; VStr "ids"] c) ;;
  match new_task_id_loop (S (scan_bound contents)) 1 contents with
  | Some r => lift r
  | None => lift (Raise OverflowError)
  end.

Definition all_tasks : ST world (list Task.t) :=
  c <- contents ;;
  contents <- lift (getitem c "task") ;;
  ids <- lift (getitem contents "ids") ;;
  xs <- lift (iter ids) ;;
  lift (res_map
          (fun x =>
             let? entities := getitem contents "entities" in
             let? details := subscript entities x in
             Ok (Task.New details))
          xs).

Definition tasks : ST world (list Task.t) :=
  xs <- all_tasks ;;
  lift (res_filter
          (fun x => let? d := Task.done x in Ok (negb (truthy d))) xs).

Definition default_project_id : ST world value :=
  try_except
    (c <- contents ;;
     v <- lift (get_path [VStr "globalConfig"; VStr "misc";
                          VStr "defaultProjectId"] c) ;;
     ret (if truthy v then v else VNone))
    KeyError
    (ret VNone).

Definition get_task_by_title (title : string) : ST world (option Task.t) :=
  xs <- tasks ;;
  candidates <- lift (res_filter
                        (fun x =>
                           let? t := Task.title x in
                           Ok (String.eqb t title))
                        xs) ;;
  ret (match candidates with
       | x :: _ => Some x
       | [] => None
       end).

(** The record [create_task] stores for a new task. *)
Definition new_task_record (task_title : string) (project_id : value)
  (task_id : string) (time_estimate : value) (attachments : list value)
  : value :=
  VDict [("title", VStr task_title);
         ("projectId", project_id);
         ("id", VStr task_id);
         ("isDone", VBool false);
         ("subTaskIds", VList []);
         ("timeSpentOnDay", VDict []);
         ("timeSpent", VInt 0);
         ("timeEstimate", time_estimate);
         ("doneOn", VNone);
         ("reminderId", VNone);
         ("notes", VStr "");
         ("tagIds", VList []);
         ("parentId", VNone);
         ("plannedAt", VNone);
         ("_showSubtasksMode", VInt 2);
         ("attachments", VList attachments);
         ("issueId", VNone);
         ("issuePoints", VNone);
         ("issueType", VNone);
         ("issueAttachmentNr", VNone);
         ("issueLastUpdated", VNone);
         ("issueWasUpdated", VNone)].

Definition create_task (task_title : string) (project_id : value)
  (is_today is_unique : bool) (time_estimate : value)
  (attachments : list Attachment.t) : ST world unit :=
  project_id <- (if truthy project_id then ret project_id
                 else default_project_id) ;;
  let urls := attachments in
  found <- (if is_unique
            then x <- get_task_by_title task_title ;; ret (bool_decide (is_Some x))
            else ret false) ;;
  if (found : bool) then ret tt
  else
    task_id <- new_task_id ;;
    contents <- contents ;;
    contents <- on_local contents
      (mutate [VStr "task"; VStr "ids"] (append (VStr task_id))) ;;
    stored <- map_st Attachment.attachment urls ;;
    contents <- on_local contents
      (mutate [VStr "task"; VStr "entities"]
         (setitem task_id
            (new_task_record task_title project_id task_id time_estimate
               stored)) ;;
       (if negb (is_none project_id)
        then mutate [VStr "project"; VStr "entities"; project_id;
                     VStr "taskIds"]
               (append (VStr task_id))
        else ret tt) ;;
       (if is_today || is_none project_id
        then mutate [VStr "task"; VStr "entities"; VStr task_id;
                     VStr "tagIds"]
               (append (VStr "TODAY")) ;;
             mutate [VStr "tag"; VStr "entities"; VStr "TODAY"; VStr "taskIds"]
               (append (VStr task_id))
        else ret tt)) ;;
    update_contents contents.

Fixpoint create_tasks (titles : list string) : ST world unit :=
  match titles with
  | [] => ret tt
  | task :: titles' =>
      create_task task VNone true false (VInt 0) [] ;; create_tasks titles'
  end.

(** The body of the loop of [cleanup_manual], on the local document. *)
Definition cleanup_body (x : value) : ST value unit :=
  try_except
    (_ <- lift (py_int x) ;;
     mutate [VStr "task"; VStr "entities"] (pop x) ;;
     mutate [VStr "task"; VStr "ids"] (remove x) ;;
     mutate [VStr "project"; VStr "entities"; VStr "DEFAULT"; VStr "taskIds"]
       (remove x) ;;
     mutate [VStr "tag"; VStr "entities"; VStr "TODAY"; VStr "taskIds"]
       (remove x))
    AttributeError
    (ret tt).

Definition cleanup_manual : ST world unit :=
  contents <- contents ;;
  contents <- on_local contents
    (for_in [VStr "task"; VStr "ids"] cleanup_body) ;;
  update_contents contents.

Definition projects : ST world (list Project.t) :=
  c <- contents ;;
  contents <- lift (getitem c "project") ;;
  ids <- lift (getitem contents "ids") ;;
  xs <- lift (iter ids) ;;
  lift (res_map
          (fun x =>
             let? entities := getitem contents "entities" in
             let? details := subscript entities x in
             Ok (Project.New x details))
          xs).

(** The [for] loop of [get_project_by_name]; [name] is already in lower
  case when [case_insensitive] is set. *)
Fixpoint find_project (name : string) (case_insensitive : bool)
  (xs : list Project.t) : res Project.t :=
  match xs with
  | [] => Raise ValueError
  | x :: xs' =>
      let? t := Project.title x in
      let? key := (if case_insensitive
                   then match t with
                        | VStr s => Ok (VStr (lower s))
                        | _ => Raise AttributeError
                        end
                   else Ok t) in
      if py_eq key (VStr name) then Ok x
      else find_project name case_insensitive xs'
  end.

Definition get_project_by_name (name : string) (case_insensitive : bool)
  : ST world Project.t :=
  let name := if case_insensitive then lower name else name in
  xs <- projects ;;
  lift (find_project name case_insensitive xs).

Definition get_tasks_with_tag (tag : string) : ST world (list Task.t) :=
  xs <- tasks ;;
  lift (res_filter (fun x => let? ts := Task.tags x in str_in tag ts) xs).

Definition todays_tasks : ST world (list Task.t) :=
  get_tasks_with_tag "TODAY".

End Methods.
End SupProd.

(** ** Vocabulary of the statements *)

(** The record that the document keeps for task [x]. *)
Definition task_record (doc x : value) : res value :=
  let? entities := get_path [VStr "task"; VStr "entities"] doc in
  subscript entities x.

(** The record that the document keeps for project [x]. *)
Definition project_record (doc x : value) : res value :=
  let? entities := get_path [VStr "project"; VStr "entities"] doc in
  subscript entities x.

(** The title of project [x], when it has a record with a string title. *)
Definition project_title (doc x : value) : option string :=
  match project_record doc x with
  | Ok r =>
      match getitem r "title" with
      | Ok (VStr t) => Some t
      | _ => None
      end
  | Raise _ => None
  end.

(** Project [x] has a title, and it is not [name] up to case. *)
Definition other_project (doc : value) (name : string) (x : value) : Prop :=
  exists t, project_title doc x = Some t /\ lower t <> lower name.

(** Task [x] can be listed by [tasks] and searched by title: it has a
    record with an [isDone] entry and, unless that entry is true, a string
    title. *)
Definition listable_task (doc x : value) : bool :=
  match task_record doc x with
  | Ok r =>
      match getitem r "isDone" with
      | Ok d =>
          truthy d
          || match getitem r "title" with
             | Ok (VStr _) => true
             | _ => false
             end
      | Raise _ => false
      end
  | Raise _ => false
  end.

(** Task [x] is not done and has exactly the title [title], where the title
    of a task is what [Task.title] shows. *)
Definition open_task_titled (doc : value) (title : string) (x : value)
  : bool :=
  match task_record doc x with
  | Ok r =>
      match getitem r "isDone", Task.title (Task.New r) with
      | Ok d, Ok t => negb (truthy d) && String.eqb t title
      | _, _ => false
      end
  | Raise _ => false
  end.

(** The path of the configured default project. *)
Definition default_project_path : list value :=
  [VStr "globalConfig"; VStr "misc"; VStr "defaultProjectId"].

(** The configuration can be read: what lies on the way to the default
    project id is made of dictionaries, with or without the keys. *)
Definition config_readable (doc : value) : bool :=
  match get_path default_project_path doc with
  | Ok _ | Raise KeyError => true
  | Raise _ => false
  end.

(** The document [c] with the object under the keys [ks] replaced by [v];
    [c] itself when the keys lead nowhere. *)
Fixpoint set_path (ks : list string) (v : value) (c : value) : value :=
  match ks with
  | [] => v
  | k :: ks' =>
      match c with
      | VDict d =>
          match dict_get k d with
          | Some x => VDict (dict_set k (set_path ks' v x) d)
          | None => c
          end
      | _ => c
      end
  end.

(** The document that [create_task] is expected to upload: [doc] with the
    id [nid] appended to the task ids [ids], the new record stored among the
    task records [ents], [nid] appended to the task ids [ptids] of the
    project [p] when one was resolved, the task tagged and [nid] appended to
    the task ids [ttids] of the TODAY tag when [tagged], and the time stamp
    [ms]. *)
Definition created_doc (doc : value) (task_title : string) (r : value)
  (tagged : bool) (nid : string) (time_estimate : value)
  (stored : list value) (ids : list value) (ents : dict)
  (ptids ttids : list value) (ms : Z) : value :=
  let c1 := set_path ["task"; "ids"] (VList (ids ++ [VStr nid])) doc in
  let c2 :=
    set_path ["task"; "entities"]
      (VDict (dict_set nid
                (SupProd.new_task_record task_title r nid time_estimate stored)
                ents)) c1 in
  let c3 :=
    match r with
    | VStr p =>
        set_path ["project"; "entities"; p; "taskIds"]
          (VList (ptids ++ [VStr nid])) c2
    | _ => c2
    end in
  let c4 :=
    if tagged
    then set_path ["tag"; "entities"; "TODAY"; "taskIds"]
           (VList (ttids ++ [VStr nid]))
           (set_path ["task"; "entities"; nid; "tagIds"]
              (VList [VStr "TODAY"]) c3)
    else c3 in
  match c4 with
  | VDict d => VDict (dict_set "lastLocalSyncModelChange" (VInt ms) d)
  | _ => c4
  end.

(** The project [r] that [create_task] resolved is none, or a project whose
    record in [doc] lists the task ids [ptids]. *)
Definition resolved_project (doc r : value) (ptids : list value) : Prop :=
  match r with
  | VNone => True
  | VStr p =>
      get_path [VStr "project"; VStr "entities"; VStr p; VStr "taskIds"] doc
      = Ok (VList ptids)
  | _ => False
  end.

(** The task ids of the document are a list of at most [n] items. *)
Definition ids_within (n : nat) (c : value) : Prop :=
  exists l, get_path [VStr "task"; VStr "ids"] c = Ok (VList l)
            /\ (length l <= n)%nat.

(** The statement [m] leaves a document with the property [P] in a document
    with that property, whether it returns or raises. *)
Definition keeps {A : Type} (P : value -> Prop) (m : ST value A) : Prop :=
  forall c r c', P c -> m c = (r, c') -> P c'.

(** ** Sample data *)

(** A float formatter to run examples with. *)
Definition sample_repr : FloatRepr := fun _ => "1700000000.25".

(** A clock that stands at 1700000000.25 seconds. *)
Definition sample_clock : nat -> spec_float :=
  fun _ => S754_finite false 7130316801048576 (-22).

Definition sample_world (doc : value) : world :=
  {| remote := doc; uploads := []; clock := sample_clock; ticks := O |}.

(** Three task records, the third one done. *)
Definition sample_tasks : dict :=
  [("1", VDict [("title", VStr "Buy milk"); ("isDone", VBool false);
                ("doneOn", VNone); ("projectId", VStr "P1");
                ("tagIds", VList [VStr "TODAY"])]);
   ("2", VDict [("title", VStr " Call Bob "); ("isDone", VBool false);
                ("doneOn", VNone); ("projectId", VStr "P1");
                ("tagIds", VList [])]);
   ("4", VDict [("title", VStr "Old"); ("isDone", VBool true);
                ("doneOn", VInt 1700000000000);
                ("projectId", VStr "P0"); ("tagIds", VList [])])].

(** The document around them: two projects, the [TODAY] tag, and the
    configuration [config]. *)
Definition sample_doc_with (config : value) : value :=
  VDict
    [("task",
      VDict [("ids", VList [VStr "1"; VStr "2"; VStr "4"]);
             ("entities", VDict sample_tasks)]);
     ("project",
      VDict
        [("ids", VList [VStr "P0"; VStr "P1"]);
         ("entities",
          VDict
            [("P0", VDict [("title", VStr "Home");
                           ("taskIds", VList [VStr "4"])]);
             ("P1", VDict [("title", VStr "Work");
                           ("taskIds", VList [VStr "1"; VStr "2"])])])]);
     ("tag",
      VDict
        [("ids", VList [VStr "TODAY"]);
         ("entities",
          VDict [("TODAY", VDict [("taskIds", VList [VStr "1"])])])]);
     ("globalConfig", config);
     ("lastLocalSyncModelChange", VInt 1)].

(** A document with ["P1"] as the default project. *)
Definition sample_doc : value :=
  sample_doc_with (VDict [("misc", VDict [("defaultProjectId", VStr "P1")])]).

(** A document without a default project. *)
Definition sample_doc_no_default : value :=
  sample_doc_with (VDict [("misc", VDict [])]).

(** A document whose tasks are [ids], all of them filed under the project
    ["DEFAULT"] and tagged ["TODAY"]. *)
Definition filed_doc (ids : list string) : value :=
  VDict
    [("task",
      VDict [("ids", VList (VStr <$> ids));
             ("entities",
              VDict ((fun i => (i, VDict [("title", VStr i);
                                          ("isDone", VBool false)]))
                       <$> ids))]);
     ("project",
      VDict [("ids", VList [VStr "DEFAULT"]);
             ("entities",
              VDict [("DEFAULT", VDict [("title", VStr "Inbox");
                                        ("taskIds", VList (VStr <$> ids))])])]);
     ("tag",
      VDict [("ids", VList [VStr "TODAY"]);
             ("entities",
              VDict [("TODAY", VDict [("taskIds", VList (VStr <$> ids))])])])].

(** * The rest of the client and the command line *)

(** ** Task and Project, the members that need [Attachment] and [SupProd] *)

Module TaskMethods.

(** [map(Attachment.from_attachment, self._task_details["attachments"])]:
    the stored sequence is looked up and asked for its items at once; each
    item is converted when the consumer reaches it. *)
Definition attachments (self : Task.t) : res (list value) :=
  let? stored := getitem (Task._task_details self) "attachments" in
  iter stored.

End TaskMethods.

Module ProjectMethods.
Section Methods.

Context `{FloatRepr}.

(** [[x for x in self._module.tasks if x.project_id == self._project_id]] *)
Definition tasks (self : Project.t) : ST world (list Task.t) :=
  xs <- SupProd.tasks ;;
  lift (res_filter
          (fun x => let? p := Task.project_id x in
                    Ok (py_eq p (Project._project_id self))) xs).

(** [[x for x in self._module.all_tasks
      if x.project_id == self._project_id]] *)
Definition all_tasks (self : Project.t) : ST world (list Task.t) :=
  xs <- SupProd.all_tasks ;;
  lift (res_filter
          (fun x => let? p := Task.project_id x in
                    Ok (py_eq p (Project._project_id self))) xs).

(** [create_task] of the module, called with
    [project_id=self._project_id]. *)
Definition create_task (self : Project.t) (task_title : string)
  (is_today is_unique : bool) (time_estimate : value)
  (attachments : list Attachment.t) : ST world unit :=
  SupProd.create_task task_title (Project._project_id self) is_today is_unique
    time_estimate attachments.

Fixpoint create_tasks (self : Project.t) (titles : list string)
  (is_today is_unique : bool) (time_estimate : value)
  (attachments : list Attachment.t) : ST world unit :=
  match titles with
  | [] => ret tt
  | task :: titles' =>
      create_task self task is_today is_unique time_estimate attachments ;;
      create_tasks self titles' is_today is_unique time_estimate attachments
  end.

End Methods.
End ProjectMethods.

(** ** The command line ([__main__.py]) *)

(** The process: the world of the client and the lines printed so far. *)
Record console : Type := Console {
  con_world : world;
  stdout : list string
}.

(** A method of the client, run by the process. *)
Definition in_world {A : Type} (m : ST world A) : ST console A :=
  fun c =>
    match m (con_world c) with
    | (r, w') => (r, {| con_world := w'; stdout := stdout c |})
    end.

(** [print(s)] for a string [s] *)
Definition print (s : string) : ST console unit :=
  fun c => (Ok tt, {| con_world := con_world c; stdout := stdout c ++ [s] |}).

(** [str(v)] for an object that is not a string is left to the Python
    runtime. *)
Class ValueStr : Type := value_str : value -> string.

(** [str(v)] *)
Definition py_str `{ValueStr} (v : value) : string :=
  match v with
  | VStr s => s
  | _ => value_str v
  end.

Module Main.

(** The parsed arguments of [list] and [urls]: [--project-title] (absent by
    default) and [--today]. *)
Record args : Type := Args {
  project_title : option string;
  today : bool
}.

(** [get_list_tasks].  A [Project] has [tasks] but no [todays_tasks]: asking
    it for the latter is an [AttributeError]. *)
Definition get_list_tasks (a : args) : ST world (list Task.t) :=
  match project_title a with
  | Some name =>
      if negb (String.eqb name "") then
        gen <- SupProd.get_project_by_name name true ;;
        xs <- (if today a then lift (Raise AttributeError)
               else ProjectMethods.tasks gen) ;;
        ret (reverse xs)
      else
        xs <- (if today a then SupProd.todays_tasks else SupProd.tasks) ;;
        ret (reverse xs)
  | None =>
      xs <- (if today a then SupProd.todays_tasks else SupProd.tasks) ;;
      ret (reverse xs)
  end.

(** [[print(x.title) for x in xs]] *)
Fixpoint print_titles (xs : list Task.t) : ST console unit :=
  match xs with
  | [] => ret tt
  | x :: xs' =>
      t <- lift (Task.title x) ;;
      print t ;;
      print_titles xs'
  end.

(** The command [list] *)
Definition list_f (a : args) : ST console unit :=
  xs <- in_world (get_list_tasks a) ;;
  print_titles xs.

Section Urls.

Context `{ValueStr}.

(** The inner loop of [urls_list_f], over the stored attachments of one
    task. *)
Fixpoint print_links (task : Task.t) (stored : list value)
  : ST console unit :=
  match stored with
  | [] => ret tt
  | s :: stored' =>
      attachment <- lift (Attachment.from_attachment s) ;;
      (if py_eq (Attachment.attachment_type attachment) (VStr "LINK")
       then t <- lift (Task.title task) ;;
            print (py_str (Attachment.path attachment)
                   +:+ String "009"%char EmptyString +:+ t)
       else ret tt) ;;
      print_links task stored'
  end.

(** The outer loop of [urls_list_f] *)
Fixpoint print_urls (xs : list Task.t) : ST console unit :=
  match xs with
  | [] => ret tt
  | task :: xs' =>
      stored <- lift (TaskMethods.attachments task) ;;
      print_links task stored ;;
      print_urls xs'
  end.

(** The command [urls] *)
Definition urls_list_f (a : args) : ST console unit :=
  xs <- in_world (get_list_tasks a) ;;
  print_urls xs.

End Urls.

End Main.

(** ** Vocabulary of the further statements *)

(** Between [w] and [w'] nothing was uploaded, or one document was and it is
    the remote document of [w']; a call that raised uploaded nothing. *)
Definition wrote_at_most_once {A : Type} (w : world) (r : res A) (w' : world)
  : Prop :=
  (remote w' = remote w /\ uploads w' = uploads w)
  \/ (exists a, r = Ok a /\ uploads w' = uploads w ++ [remote w']).

(** The method [m] reads: it leaves the remote document and the uploads as
    they are. *)
Definition quiet {A : Type} (m : ST world A) : Prop :=
  forall w r w', m w = (r, w') -> remote w' = remote w /\ uploads w' = uploads w.

(** The method [m] uploads at most once, and not when it raises. *)
Definition writes_once {A : Type} (m : ST world A) : Prop :=
  forall w r w', m w = (r, w') -> wrote_at_most_once w r w'.

(** The record [r] of a task says that the task is not done. *)
Definition is_open (r : value) : bool :=
  match getitem r "isDone" with
  | Ok d => negb (truthy d)
  | Raise _ => false
  end.

(** The tag ids of the record [r] contain [tag]. *)
Definition has_tag (tag : string) (r : value) : bool :=
  match getitem r "tagIds" with
  | Ok ts =>
      match str_in tag ts with
      | Ok b => b
      | Raise _ => false
      end
  | Raise _ => false
  end.

(** The record [r] names [p] as its project. *)
Definition in_project (p r : value) : bool :=
  match getitem r "projectId" with
  | Ok q => py_eq q p
  | Raise _ => false
  end.

(** The record [r] has a string title that is [title] once stripped. *)
Definition titled (title : string) (r : value) : bool :=
  match getitem r "title" with
  | Ok (VStr t) => String.eqb (strip t) title
  | _ => false
  end.

(** The paths of the stored attachments of type ["LINK"], in their order. *)
Definition link_paths (stored : list value) : list value :=
  omap (fun a =>
          match getitem a "type", getitem a "path" with
          | Ok ty, Ok p => if py_eq ty (VStr "LINK") then Some p else None
          | _, _ => None
          end) stored.

(** The line that [urls] prints for a link: path, tab, title. *)
Definition link_line `{ValueStr} (title : string) (path : value) : string :=
  py_str path +:+ String "009"%char EmptyString +:+ title.

(** A stored attachment that [from_attachment] can read. *)
Definition readable_attachment (a : value) : Prop :=
  exists p ti ty,
    getitem a "path" = Ok p /\ getitem a "title" = Ok ti
    /\ getitem a "type" = Ok ty.

(** A formatter to run examples with. *)
Definition sample_str : ValueStr := fun _ => "?".

(** Two open tasks, the first with two links and a file attached. *)
Definition linked_tasks : dict :=
  [("1", VDict [("title", VStr "Read paper "); ("isDone", VBool false);
                ("attachments",
                 VList [VDict [("type", VStr "LINK"); ("path", VStr "http://x");
                               ("title", VStr "x"); ("id", VStr "1.5")];
                        VDict [("type", VStr "FILE"); ("path", VStr "/tmp/a");
                               ("title", VStr "a"); ("id", VStr "2.5")];
                        VDict [("type", VStr "LINK"); ("path", VStr "http://y");
                               ("title", VStr "y"); ("id", VStr "3.5")]])]);
   ("2", VDict [("title", VStr "Call Bob"); ("isDone", VBool false);
                ("attachments",
                 VList [VDict [("type", VStr "LINK"); ("path", VStr "http://z");
                               ("title", VStr "z"); ("id", VStr "4.5")]])])].

Definition linked_doc : value :=
  VDict [("task", VDict [("ids", VList [VStr "1"; VStr "2"]);
                         ("entities", VDict linked_tasks)])].

(** The string consists of decimal digits. *)
Fixpoint all_digits (s : string) : bool :=
  match s with
  | EmptyString => true
  | String a s' => bool_decide (is_Some (digit a)) && all_digits s'
  end.

(** The task ids are pairwise different, and they are the strings that have
    a record: the first invariant of the document. *)
Definition ids_consistent (ids : list value) (ents : dict) : Prop :=
  NoDup ids
  /\ forall x, x ∈ ids <-> exists s, x = VStr s /\ is_Some (dict_get s ents).

(** The items of a list at every second place: the first, the third, ...
    when [b], the second, the fourth, ... otherwise. *)
Fixpoint alternate {A : Type} (b : bool) (l : list A) : list A :=
  match l with
  | [] => []
  | x :: l' => if b then x :: alternate false l' else alternate true l'
  end.

(** [l] after [l.remove(x)] for each [x] of [xs] in turn. *)
Fixpoint remove_each (xs l : list value) : list value :=
  match xs with
  | [] => l
  | x :: xs' =>
      match remove_first x l with
      | Some l' => remove_each xs' l'
      | None => l
      end
  end.

(** [d] after [d.pop(x)] for each [x] of [xs] in turn. *)
Fixpoint pop_each (xs : list value) (d : dict) : dict :=
  match xs with
  | [] => d
  | VStr s :: xs' => pop_each xs' (dict_del s d)
  | _ :: xs' => pop_each xs' d
  end.

(** The four places of the document that [cleanup_manual] works on. *)
Definition filed (c : value) (ids : list value) (ents : dict)
  (dtids ttids : list value) : Prop :=
  get_path [VStr "task"; VStr "ids"] c = Ok (VList ids)
  /\ get_path [VStr "task"; VStr "entities"] c = Ok (VDict ents)
  /\ get_path [VStr "project"; VStr "entities"; VStr "DEFAULT"; VStr "taskIds"]
       c = Ok (VList dtids)
  /\ get_path [VStr "tag"; VStr "entities"; VStr "TODAY"; VStr "taskIds"] c
     = Ok (VList ttids).

(** A task that [cleanup_manual] can remove: its id is a string that [int]
    reads, it has a record, and it is filed under the project ["DEFAULT"]
    and the tag ["TODAY"]. *)
Definition removable (ents : dict) (dtids ttids : list value) (x : value)
  : Prop :=
  (exists s n, x = VStr s /\ int_of_str s = Ok n /\ is_Some (dict_get s ents))
  /\ x ∈ dtids /\ x ∈ ttids.

(** Project [x] has a title, and it is not [name]. *)
Definition differently_titled (doc : value) (name : string) (x : value)
  : Prop :=
  exists t, project_title doc x = Some t /\ t <> name.

(** * Properties *)

(** ** Dictionaries *)

Lemma dict_get_set_eq k v d : dict_get k (dict_set k v d) = Some v.
Proof.
  induction d as [|[k' v'] d IH]; simpl.
  - by rewrite String.eqb_refl.
  - destruct (String.eqb k k') eqn:E; simpl; rewrite E; [done | exact IH].
Qed.

Lemma dict_get_set_ne k k' v d :
  k <> k' -> dict_get k' (dict_set k v d) = dict_get k' d.
Proof.
  intros Hne. induction d as [|[k0 v0] d IH]; simpl.
  - destruct (String.eqb_spec k' k); congruence.
  - destruct (String.eqb_spec k k0) as [->|]; simpl.
    + destruct (String.eqb_spec k' k0); congruence.
    + by rewrite IH.
Qed.

Lemma dict_del_set k v d : dict_del k (dict_set k v d) = dict_del k d.
Proof.
  induction d as [|[k' v'] d IH]; simpl.
  - by rewrite String.eqb_refl.
  - destruct (String.eqb k k') eqn:E; simpl; rewrite E; [done | by rewrite IH].
Qed.

Lemma getitem_dict d k :
  getitem (VDict d) k
  = match dict_get k d with Some v => Ok v | None => Raise KeyError end.
Proof. reflexivity. Qed.

Lemma getitem_Ok_inv c k v :
  getitem c k = Ok v -> exists d, c = VDict d /\ dict_get k d = Some v.
Proof.
  destruct c as [| | | | | |d]; try discriminate.
  intros E. exists d. split; [done|].
  rewrite getitem_dict in E. destruct (dict_get k d); congruence.
Qed.

Lemma py_eq_str_r e s : py_eq e (VStr s) = true <-> e = VStr s.
Proof.
  destruct e; simpl; try (split; [discriminate | congruence]).
  rewrite String.eqb_eq. split; congruence.
Qed.

Lemma existsb_py_eq_str s l :
  existsb (fun e => py_eq e (VStr s)) l = true <-> VStr s ∈ l.
Proof.
  rewrite existsb_exists, list_elem_of_In. split.
  - intros (e & Hin & He). apply py_eq_str_r in He. by subst.
  - intros Hin. exists (VStr s). split; [done|]. by apply py_eq_str_r.
Qed.

(** ** Task.done_at *)

(** C7: [done_at] is [0] when the stored [doneOn] is null; for a stored
    number it is that number, as a float, divided by [1000.0]; and
    [doneOn = 1700000000000] gives the float [1700000000.0]. *)
Theorem done_at_spec :
  (forall x : Task.t,
      getitem (Task._task_details x) "doneOn" = Ok VNone ->
      Task.done_at x = Ok (VInt 0))
  /\ (forall (x : Task.t) (n : Z) (f : spec_float),
         getitem (Task._task_details x) "doneOn" = Ok (VInt n) ->
         float_of_int n = Ok f ->
         Task.done_at x = Ok (VFloat (float_div f f1000)))
  /\ (forall (x : Task.t) (g : spec_float),
         getitem (Task._task_details x) "doneOn" = Ok (VFloat g) ->
         Task.done_at x = Ok (VFloat (float_div g f1000)))
  /\ (forall (x : Task.t) (f : spec_float),
         getitem (Task._task_details x) "doneOn" = Ok (VInt 1700000000000) ->
         float_of_int 1700000000 = Ok f ->
         Task.done_at x = Ok (VFloat f)).
Proof.
  split; [|split; [|split]].
  - intros x E. unfold Task.done_at. by rewrite E.
  - intros x n f E Hf. unfold Task.done_at. rewrite E. simpl.
    by rewrite Hf.
  - intros x g E. unfold Task.done_at. by rewrite E.
  - intros x f E Hf. unfold Task.done_at. rewrite E.
    vm_compute in Hf. injection Hf as <-. reflexivity.
Qed.

Lemma done_at_spec_witness :
  Task.done_at (Task.New (VDict [("doneOn", VNone)])) = Ok (VInt 0)
  /\ Task.done_at (Task.New (VDict [("doneOn", VInt 1500)]))
     = Ok (VFloat (float_div (S754_finite false 6597069766656000 (-42)) f1000))
  /\ Task.done_at (Task.New (VDict [("doneOn", VFloat f1000)]))
     = Ok (VFloat (float_div f1000 f1000))
  /\ Task.done_at (Task.New (VDict [("doneOn", VInt 1700000000000)]))
     = Ok (VFloat (S754_finite false 7130316800000000 (-22))).
Proof.
  destruct done_at_spec as (H0 & H1 & H2 & H3).
  split; [|split; [|split]].
  - apply H0. reflexivity.
  - apply (H1 _ 1500); reflexivity.
  - apply H2. reflexivity.
  - apply H3; reflexivity.
Defined.

(** ** Attachment *)

(** C8: a storage-form attachment read by [from_attachment] and converted
    back by [attachment] has the type, path and title it had; the result has
    those three fields and an id, and the id is the text of the clock
    reading taken at the conversion. *)
Theorem attachment_round_trip `{FloatRepr} (a ty p ti : value) (w : world) :
  getitem a "type" = Ok ty ->
  getitem a "path" = Ok p ->
  getitem a "title" = Ok ti ->
  exists (x : Attachment.t) (w' : world),
    Attachment.from_attachment a = Ok x
    /\ Attachment.attachment x w
       = (Ok (VDict [("type", ty); ("path", p); ("title", ti);
                     ("id", VStr (float_repr (clock w (ticks w))))]), w')
    /\ remote w' = remote w /\ uploads w' = uploads w.
Proof.
  intros Hty Hp Hti. unfold Attachment.from_attachment.
  rewrite Hp, Hti, Hty. simpl.
  eexists _, _. split; [reflexivity|]. split; [reflexivity|]. done.
Qed.

Lemma attachment_round_trip_witness :
  let a := VDict [("type", VStr "LINK"); ("path", VStr "http://x");
                  ("title", VStr "t"); ("id", VStr "17.5")] in
  exists (x : Attachment.t) (w' : world),
    Attachment.from_attachment a = Ok x
    /\ @Attachment.attachment sample_repr x (sample_world VNone)
       = (Ok (VDict [("type", VStr "LINK"); ("path", VStr "http://x");
                     ("title", VStr "t"); ("id", VStr "1700000000.25")]), w')
    /\ remote w' = VNone /\ uploads w' = [].
Proof.
  intros a.
  apply (@attachment_round_trip sample_repr a (VStr "LINK") (VStr "http://x")
           (VStr "t") (sample_world VNone)); reflexivity.
Defined.

(** ** update_contents *)

(** C6: [update_contents] uploads the document it is given with
    [lastLocalSyncModelChange] set to the clock reading in milliseconds
    ([int(time.time() * 1000)]); every other entry of the document is
    uploaded as it was, in the same order. *)
Theorem update_contents_stamps (d : dict) (w : world) (ms : Z) :
  int_of_float (float_mul (clock w (ticks w)) f1000) = Ok ms ->
  exists (d' : dict) (w' : world),
    SupProd.update_contents (VDict d) w = (Ok tt, w')
    /\ remote w' = VDict d'
    /\ uploads w' = uploads w ++ [VDict d']
    /\ dict_get "lastLocalSyncModelChange" d' = Some (VInt ms)
    /\ (forall k, k <> "lastLocalSyncModelChange" ->
                  dict_get k d' = dict_get k d)
    /\ dict_del "lastLocalSyncModelChange" d'
       = dict_del "lastLocalSyncModelChange" d.
Proof.
  intros Hms.
  exists (dict_set "lastLocalSyncModelChange" (VInt ms) d). eexists.
  split.
  - unfold SupProd.update_contents, bind, time_time, lift; simpl.
    rewrite Hms. simpl. reflexivity.
  - simpl. split; [done|]. split; [done|]. split.
    + apply dict_get_set_eq.
    + split; [|apply dict_del_set].
      intros k Hk. apply dict_get_set_ne. congruence.
Qed.

Lemma update_contents_stamps_witness :
  exists (d' : dict) (w' : world),
    SupProd.update_contents
      (VDict [("task", VDict []); ("lastLocalSyncModelChange", VInt 5);
              ("tag", VDict [])])
      (sample_world VNone) = (Ok tt, w')
    /\ remote w' = VDict d'
    /\ uploads w' = [] ++ [VDict d']
    /\ dict_get "lastLocalSyncModelChange" d' = Some (VInt 1700000000250)
    /\ (forall k, k <> "lastLocalSyncModelChange" ->
                  dict_get k d'
                  = dict_get k [("task", VDict []);
                                ("lastLocalSyncModelChange", VInt 5);
                                ("tag", VDict [])])
    /\ dict_del "lastLocalSyncModelChange" d'
       = dict_del "lastLocalSyncModelChange"
           [("task", VDict []); ("lastLocalSyncModelChange", VInt 5);
            ("tag", VDict [])].
Proof.
  apply (update_contents_stamps _ (sample_world VNone) 1700000000250).
  reflexivity.
Defined.

(** ** new_task_id *)

Section Scan.

(** A container [c] in which [present] tells what [str_in] finds, and a
    list [U] that holds every string found in [c]. *)
Variable c : value.
Variable present : string -> bool.
Hypothesis str_in_present : forall s, str_in s c = Ok (present s).

(** The loop steps over [k] candidates that occur in [c] and returns the
    next one, which does not. *)
Lemma new_task_id_loop_run (k : nat) :
  forall (fuel : nat) (i : Z),
    (forall j, i <= j < i + Z.of_nat k -> present (pretty j) = true) ->
    present (pretty (i + Z.of_nat k)) = false ->
    (k < fuel)%nat ->
    new_task_id_loop fuel i c = Some (Ok (pretty (i + Z.of_nat k))).
Proof.
  induction k as [|k IH]; intros fuel i Hall Hout Hfuel.
  - destruct fuel as [|fuel]; [lia|]. simpl.
    rewrite str_in_present. rewrite Z.add_0_r in Hout. rewrite Hout.
    by rewrite Z.add_0_r.
  - destruct fuel as [|fuel]; [lia|]. simpl.
    rewrite str_in_present, (Hall i) by lia.
    replace (i + Z.of_nat (S k)) with ((i + 1) + Z.of_nat k) in * by lia.
    apply IH; [|done|lia]. intros j Hj. apply Hall. lia.
Qed.

Variable U : list string.
Hypothesis present_in_U : forall s, present s = true -> s ∈ U.

Lemma first_absent_or_all (i : Z) (b : nat) :
  (exists k : nat, (k <= b)%nat
     /\ (forall j, i <= j < i + Z.of_nat k -> present (pretty j) = true)
     /\ present (pretty (i + Z.of_nat k)) = false)
  \/ (forall j, i <= j <= i + Z.of_nat b -> present (pretty j) = true).
Proof.
  induction b as [|b [(k & Hk & Hall & Hout)|Hall]].
  - destruct (present (pretty i)) eqn:E.
    + right. intros j Hj. by replace j with i by lia.
    + left. exists O. split; [done|]. split; [intros; lia|].
      by rewrite Z.add_0_r.
  - left. exists k. split; [lia|done].
  - destruct (present (pretty (i + Z.of_nat (S b)))) eqn:E.
    + right. intros j Hj.
      destruct (decide (j = i + Z.of_nat (S b))) as [->|]; [done|].
      apply Hall. lia.
    + left. exists (S b). split; [done|]. split; [|done].
      intros j Hj. apply Hall. lia.
Qed.

(** Pigeonhole: the candidates [i], [i+1], ... have pairwise different
    texts, so at most [length U] of them in a row occur in [c]. *)
Lemma first_absent (i : Z) :
  exists k : nat, (k <= length U)%nat
    /\ (forall j, i <= j < i + Z.of_nat k -> present (pretty j) = true)
    /\ present (pretty (i + Z.of_nat k)) = false.
Proof.
  destruct (first_absent_or_all i (length U)) as [?|Hall]; [done|].
  exfalso.
  set (L := (fun n : nat => pretty (i + Z.of_nat n)) <$> seq 0 (S (length U))).
  assert (HL : NoDup L).
  { apply NoDup_fmap_2; [|apply NoDup_seq].
    intros n m E. apply (inj pretty) in E. lia. }
  assert (Hincl : forall s, s ∈ L -> s ∈ U).
  { intros s Hs. apply list_elem_of_fmap in Hs as (n & -> & Hn).
    apply elem_of_seq in Hn. apply present_in_U, Hall. lia. }
  pose proof (submseteq_length _ _ (NoDup_submseteq _ _ HL Hincl)) as Hlen.
  unfold L in Hlen. rewrite length_fmap, length_seq in Hlen. lia.
Qed.

Lemma new_task_id_loop_found (fuel : nat) (i : Z) :
  (length U < fuel)%nat ->
  exists k : nat, (k <= length U)%nat
    /\ (forall j, i <= j < i + Z.of_nat k -> present (pretty j) = true)
    /\ present (pretty (i + Z.of_nat k)) = false
    /\ new_task_id_loop fuel i c = Some (Ok (pretty (i + Z.of_nat k))).
Proof.
  intros Hfuel. destruct (first_absent i) as (k & Hk & Hall & Hout).
  exists k. repeat split; try done.
  apply new_task_id_loop_run; [done|done|lia].
Qed.

End Scan.

Lemma prefix_in_prefixes t h : String.prefix t h = true -> t ∈ prefixes h.
Proof.
  revert t. induction h as [|b h IH]; intros [|a t]; simpl; intros E.
  - apply list_elem_of_here.
  - discriminate.
  - apply list_elem_of_here.
  - destruct (ascii_dec a b) as [->|]; [|discriminate].
    apply list_elem_of_further, list_elem_of_fmap. exists t. split; [done|auto].
Qed.

Lemma str_contains_in_substrings t h :
  str_contains t h = true -> t ∈ substrings h.
Proof.
  induction h as [|b h IH]; cbn [str_contains substrings]; intros E.
  - apply orb_true_iff in E as [E|E]; [|discriminate].
    apply prefix_in_prefixes in E. apply elem_of_app. by left.
  - apply orb_true_iff in E as [E|E].
    + apply prefix_in_prefixes in E. apply elem_of_app. by left.
    + apply elem_of_app. right. auto.
Qed.

Lemma dict_get_in_keys s d : is_Some (dict_get s d) -> s ∈ d.*1.
Proof.
  induction d as [|[k v] d IH]; simpl; intros Hs.
  - by destruct Hs.
  - destruct (String.eqb_spec s k) as [->|].
    + apply list_elem_of_here.
    + apply list_elem_of_further. auto.
Qed.

(** What [str_in] answers on a container, and a list of [scan_bound] strings
    that holds whatever it finds there. *)
Lemma str_in_universe (c : value) :
  (exists e, forall s, str_in s c = Raise e)
  \/ (exists (present : string -> bool) (U : list string),
        (forall s, str_in s c = Ok (present s))
        /\ (forall s, present s = true -> s ∈ U)
        /\ length U = scan_bound c).
Proof.
  destruct c as [| | | |h|l|d];
    try (left; exists TypeError; reflexivity); right.
  - exists (fun s => str_contains s h), (substrings h).
    split; [done|]. split; [|done]. intros s. apply str_contains_in_substrings.
  - exists (fun s => existsb (fun e => py_eq e (VStr s)) l),
      ((fun e => match e with VStr s => s | _ => "" end) <$> l).
    split; [done|]. split; [|by rewrite length_fmap].
    intros s Hs. apply existsb_py_eq_str in Hs.
    apply list_elem_of_fmap. by exists (VStr s).
  - exists (fun s => bool_decide (is_Some (dict_get s d))), (d.*1).
    split; [done|]. split; [|by rewrite length_fmap].
    intros s Hs. apply bool_decide_eq_true in Hs. by apply dict_get_in_keys.
Qed.

(** The fuel that [new_task_id] gives its loop always reaches the end. *)
Lemma new_task_id_loop_total (c : value) (fuel : nat) (i : Z) :
  (scan_bound c < fuel)%nat -> is_Some (new_task_id_loop fuel i c).
Proof.
  intros Hfuel.
  destruct (str_in_universe c) as [[e He]|(present & U & Hin & HU & Hlen)].
  - destruct fuel as [|fuel]; [lia|]. simpl. rewrite He. eauto.
  - rewrite <- Hlen in Hfuel.
    destruct (new_task_id_loop_found c present Hin U HU fuel i Hfuel)
      as (k & _ & _ & _ & ->).
    eauto.
Qed.

(** The loop on a list of ids: it returns the text of the first candidate
    from [i] on that is not in the list. *)
Lemma new_task_id_loop_list (ids : list value) (fuel : nat) (i : Z) :
  (length ids < fuel)%nat ->
  exists n : Z,
    i <= n <= i + Z.of_nat (length ids)
    /\ new_task_id_loop fuel i (VList ids) = Some (Ok (pretty n))
    /\ (VStr (pretty n) ∉ ids)
    /\ (forall m, i <= m < n -> VStr (pretty m) ∈ ids).
Proof.
  intros Hfuel.
  set (present := fun s => existsb (fun e => py_eq e (VStr s)) ids).
  set (U := (fun e => match e with VStr s => s | _ => "" end) <$> ids).
  assert (HU : forall s, present s = true -> s ∈ U).
  { intros s Hs. apply existsb_py_eq_str in Hs.
    apply list_elem_of_fmap. by exists (VStr s). }
  assert (Hlen : length U = length ids) by apply length_fmap.
  rewrite <- Hlen in Hfuel.
  destruct (new_task_id_loop_found (VList ids) present (fun _ => eq_refl)
              U HU fuel i Hfuel) as (k & Hk & Hall & Hout & Hrun).
  exists (i + Z.of_nat k). split; [lia|]. split; [done|]. split.
  - intros Hin. apply existsb_py_eq_str in Hin. unfold present in Hout.
    congruence.
  - intros m Hm. apply existsb_py_eq_str, Hall. lia.
Qed.

(** C10: on a list of ids the scanning loop of [new_task_id] ends: given
    more rounds than the list has items, it returns a candidate whose text
    is not in the list, found after at most as many increments as the list
    has items. *)
Theorem new_task_id_loop_terminates (ids : list value) (fuel : nat) :
  (length ids < fuel)%nat ->
  exists n : Z,
    1 <= n <= 1 + Z.of_nat (length ids)
    /\ new_task_id_loop fuel 1 (VList ids) = Some (Ok (pretty n))
    /\ (VStr (pretty n) ∉ ids).
Proof.
  intros Hfuel.
  destruct (new_task_id_loop_list ids fuel 1 Hfuel)
    as (n & Hn & Hrun & Hout & _).
  by exists n.
Qed.

Lemma new_task_id_loop_terminates_witness :
  exists n : Z,
    1 <= n <= 1 + Z.of_nat (length [VStr "1"; VStr "2"; VStr "4"])
    /\ new_task_id_loop 4 1 (VList [VStr "1"; VStr "2"; VStr "4"])
       = Some (Ok (pretty n))
    /\ (VStr (pretty n) ∉ [VStr "1"; VStr "2"; VStr "4"]).
Proof.
  apply (new_task_id_loop_terminates [VStr "1"; VStr "2"; VStr "4"] 4).
  simpl. lia.
Defined.

Lemma new_task_id_eq (w : world) (c : value) :
  get_path [VStr "task"; VStr "ids"] (remote w) = Ok c ->
  SupProd.new_task_id w
  = (match new_task_id_loop (S (scan_bound c)) 1 c with
     | Some r => r
     | None => Raise OverflowError
     end, w).
Proof.
  intros E. unfold SupProd.new_task_id, SupProd.contents, files_download, bind.
  unfold lift at 1. rewrite E.
  by destruct (new_task_id_loop _ _ _).
Qed.

Lemma new_task_id_list (w : world) (ids : list value) :
  get_path [VStr "task"; VStr "ids"] (remote w) = Ok (VList ids) ->
  exists n : Z,
    1 <= n
    /\ SupProd.new_task_id w = (Ok (pretty n), w)
    /\ (VStr (pretty n) ∉ ids)
    /\ (forall m, 1 <= m < n -> VStr (pretty m) ∈ ids).
Proof.
  intros E. rewrite (new_task_id_eq w _ E). simpl scan_bound.
  destruct (new_task_id_loop_list ids (S (length ids)) 1)
    as (n & Hn & -> & Hout & Hall); [lia|].
  exists n. split; [lia|done].
Qed.

(** C4: when the task ids are the list [ids], [new_task_id] returns the text
    of the smallest positive integer whose text is not in [ids]; for
    [["1", "2", "4"]] that is ["3"], for the empty list ["1"]. *)
Theorem new_task_id_smallest :
  (forall (w : world) (ids : list value),
      get_path [VStr "task"; VStr "ids"] (remote w) = Ok (VList ids) ->
      exists n : Z,
        1 <= n
        /\ SupProd.new_task_id w = (Ok (pretty n), w)
        /\ (VStr (pretty n) ∉ ids)
        /\ (forall m, 1 <= m < n -> VStr (pretty m) ∈ ids))
  /\ (forall w : world,
         get_path [VStr "task"; VStr "ids"] (remote w)
         = Ok (VList [VStr "1"; VStr "2"; VStr "4"]) ->
         SupProd.new_task_id w = (Ok "3", w))
  /\ (forall w : world,
         get_path [VStr "task"; VStr "ids"] (remote w) = Ok (VList []) ->
         SupProd.new_task_id w = (Ok "1", w)).
Proof.
  split; [|split].
  - exact new_task_id_list.
  - intros w E. by rewrite (new_task_id_eq w _ E).
  - intros w E. by rewrite (new_task_id_eq w _ E).
Qed.

Lemma new_task_id_smallest_witness :
  let w := sample_world
             (VDict [("task", VDict [("ids", VList [VStr "1"; VStr "2";
                                                    VStr "4"])])]) in
  (exists n : Z,
      1 <= n
      /\ SupProd.new_task_id w = (Ok (pretty n), w)
      /\ (VStr (pretty n) ∉ [VStr "1"; VStr "2"; VStr "4"])
      /\ (forall m, 1 <= m < n ->
                    VStr (pretty m) ∈ [VStr "1"; VStr "2"; VStr "4"]))
  /\ SupProd.new_task_id w = (Ok "3", w)
  /\ SupProd.new_task_id
       (sample_world (VDict [("task", VDict [("ids", VList [])])]))
     = (Ok "1", sample_world (VDict [("task", VDict [("ids", VList [])])])).
Proof.
  intros w. destruct new_task_id_smallest as (H1 & H2 & H3).
  split; [|split].
  - apply H1. reflexivity.
  - apply H2. reflexivity.
  - apply H3. reflexivity.
Defined.

(** ** Reading the document *)

Lemma get_path_cons_dict k p d :
  get_path (VStr k :: p) (VDict d)
  = match dict_get k d with
    | Some x => get_path p x
    | None => Raise KeyError
    end.
Proof. simpl. by destruct (dict_get k d). Qed.

Lemma get_path_cons_inv k p c v :
  get_path (VStr k :: p) c = Ok v ->
  exists d x, c = VDict d /\ dict_get k d = Some x /\ get_path p x = Ok v.
Proof.
  destruct c as [| | | | | |d]; try discriminate.
  rewrite get_path_cons_dict. destruct (dict_get k d) as [x|] eqn:E;
    [|discriminate].
  intros Hp. by exists d, x.
Qed.

(** ** get_project_by_name *)

Lemma projects_unfold (w : world) (ids : list value) :
  get_path [VStr "project"; VStr "ids"] (remote w) = Ok (VList ids) ->
  SupProd.projects w
  = (res_map (fun x => let? r := project_record (remote w) x in
                       Ok (Project.New x r)) ids, w).
Proof.
  intros E. unfold SupProd.projects, SupProd.contents, files_download, bind.
  unfold lift; simpl. unfold project_record.
  destruct (remote w) as [| | | | | |top]; try discriminate.
  rewrite get_path_cons_dict in E. rewrite !get_path_cons_dict.
  rewrite getitem_dict.
  destruct (dict_get "project" top) as [pc|]; [|discriminate].
  destruct pc as [| | | | | |pc]; try discriminate.
  rewrite get_path_cons_dict in E. rewrite !get_path_cons_dict.
  rewrite !getitem_dict.
  destruct (dict_get "ids" pc) as [l|]; [|discriminate].
  injection E as ->. simpl.
  f_equal. clear. induction ids as [|x ids IH]; [done|]. simpl.
  rewrite IH. by destruct (dict_get "entities" pc).
Qed.

Lemma res_map_ext {A B : Type} (f g : A -> res B) (l : list A) :
  (forall x, f x = g x) -> res_map f l = res_map g l.
Proof.
  intros Hfg. induction l as [|x l IH]; [done|]. simpl.
  by rewrite Hfg, IH.
Qed.

Lemma res_map_app {A B : Type} (f : A -> res B) (l1 l2 : list A) :
  res_map f (l1 ++ l2)
  = (let? ys1 := res_map f l1 in let? ys2 := res_map f l2 in Ok (ys1 ++ ys2)).
Proof.
  induction l1 as [|x l1 IH]; simpl.
  - by destruct (res_map f l2).
  - destruct (f x); [|done]. simpl. rewrite IH.
    destruct (res_map f l1); [|done]. simpl.
    by destruct (res_map f l2).
Qed.

(** The projects that come before the match are stepped over. *)
Lemma find_project_skip (doc : value) (name : string) (pre : list value)
  (rest : list Project.t) :
  Forall (other_project doc name) pre ->
  exists ps,
    res_map (fun x => let? r := project_record doc x in
                      Ok (Project.New x r)) pre = Ok ps
    /\ SupProd.find_project (lower name) true (ps ++ rest)
       = SupProd.find_project (lower name) true rest.
Proof.
  induction 1 as [|x pre (t & Ht & Hne) _ (ps & Hps & Hfind)].
  - by exists [].
  - unfold project_title in Ht.
    destruct (project_record doc x) as [r|] eqn:Er; [|discriminate].
    destruct (getitem r "title") as [[| | | |t'| |]|] eqn:Et; try discriminate.
    injection Ht as ->.
    exists (Project.New x r :: ps). split.
    + simpl. rewrite Er. simpl. by rewrite Hps.
    + simpl. unfold Project.title; simpl. rewrite Et. simpl.
      destruct (String.eqb_spec (lower t) (lower name)); [done|exact Hfind].
Qed.

(** C3: with [case_insensitive] set, as it is by default,
    [get_project_by_name] returns the first project whose title equals the
    name up to case, so a project titled "Work" is returned for "work"; when
    no title matches it raises [ValueError], the client's not-found
    error. *)
Theorem get_project_by_name_spec :
  (forall (w : world) (name : string) (pre post : list value)
          (x r : value) (t : string),
      get_path [VStr "project"; VStr "ids"] (remote w)
      = Ok (VList (pre ++ x :: post)) ->
      Forall (other_project (remote w) name) pre ->
      project_record (remote w) x = Ok r ->
      getitem r "title" = Ok (VStr t) ->
      lower t = lower name ->
      Forall (fun y => exists r', project_record (remote w) y = Ok r') post ->
      SupProd.get_project_by_name name true w = (Ok (Project.New x r), w))
  /\ (forall (w : world) (x r : value),
         get_path [VStr "project"; VStr "ids"] (remote w) = Ok (VList [x]) ->
         project_record (remote w) x = Ok r ->
         getitem r "title" = Ok (VStr "Work") ->
         SupProd.get_project_by_name "work" true w
         = (Ok (Project.New x r), w))
  /\ (forall (w : world) (name : string) (ids : list value),
         get_path [VStr "project"; VStr "ids"] (remote w) = Ok (VList ids) ->
         Forall (other_project (remote w) name) ids ->
         SupProd.get_project_by_name name true w = (Raise ValueError, w)).
Proof.
  assert (Hfound : forall (w : world) (name : string) (pre post : list value)
                          (x r : value) (t : string),
      get_path [VStr "project"; VStr "ids"] (remote w)
      = Ok (VList (pre ++ x :: post)) ->
      Forall (other_project (remote w) name) pre ->
      project_record (remote w) x = Ok r ->
      getitem r "title" = Ok (VStr t) ->
      lower t = lower name ->
      Forall (fun y => exists r', project_record (remote w) y = Ok r') post ->
      SupProd.get_project_by_name name true w = (Ok (Project.New x r), w)).
  { intros w name pre post x r t Hids Hpre Hr Ht Hmatch Hpost.
    unfold SupProd.get_project_by_name, bind.
    rewrite (projects_unfold w _ Hids), res_map_app.
    assert (exists qs,
               res_map (fun y => let? r' := project_record (remote w) y in
                                 Ok (Project.New y r')) post = Ok qs)
      as (qs & Hqs).
    { clear -Hpost. induction Hpost as [|y post (r' & Hr') _ (qs & Hqs)].
      - by exists [].
      - exists (Project.New y r' :: qs). simpl. rewrite Hr'. simpl.
        by rewrite Hqs. }
    destruct (find_project_skip (remote w) name pre (Project.New x r :: qs)
                Hpre) as (ps & Hps & Hfind).
    rewrite Hps. simpl. rewrite Hr. simpl. rewrite Hqs. simpl.
    unfold lift. rewrite Hfind. simpl. unfold Project.title; simpl.
    rewrite Ht. simpl. rewrite Hmatch. by rewrite String.eqb_refl. }
  split; [exact Hfound|]. split.
  - intros w x r Hids Hr Ht.
    by apply (Hfound w "work" [] [] x r "Work").
  - intros w name ids Hids Hall.
    unfold SupProd.get_project_by_name, bind.
    rewrite (projects_unfold w _ Hids).
    destruct (find_project_skip (remote w) name ids [] Hall)
      as (ps & Hps & Hfind).
    rewrite Hps. unfold lift. rewrite app_nil_r in Hfind. by rewrite Hfind.
Qed.

Lemma get_project_by_name_spec_witness :
  let w := sample_world sample_doc in
  let work := VDict [("title", VStr "Work");
                     ("taskIds", VList [VStr "1"; VStr "2"])] in
  SupProd.get_project_by_name "work" true w
  = (Ok (Project.New (VStr "P1") work), w)
  /\ SupProd.get_project_by_name "work" true
       (sample_world
          (VDict [("project",
                   VDict [("ids", VList [VStr "P1"]);
                          ("entities", VDict [("P1", work)])])]))
     = (Ok (Project.New (VStr "P1") work),
        sample_world
          (VDict [("project",
                   VDict [("ids", VList [VStr "P1"]);
                          ("entities", VDict [("P1", work)])])]))
  /\ SupProd.get_project_by_name "nonexistent" true w = (Raise ValueError, w).
Proof.
  intros w work. destruct get_project_by_name_spec as (H1 & H2 & H3).
  split; [|split].
  - apply (H1 w "work" [VStr "P0"] [] (VStr "P1") work "Work");
      try reflexivity; [|constructor].
    constructor; [|constructor]. exists "Home". split; [reflexivity|].
    discriminate.
  - apply H2; reflexivity.
  - apply (H3 w "nonexistent" [VStr "P0"; VStr "P1"]); [reflexivity|].
    constructor; [|constructor; [|constructor]].
    + exists "Home". split; [reflexivity|discriminate].
    + exists "Work". split; [reflexivity|discriminate].
Defined.

(** ** default_project_id *)

Lemma default_project_id_eq (w : world) :
  SupProd.default_project_id w
  = (match get_path default_project_path (remote w) with
     | Ok v => Ok (if truthy v then v else VNone)
     | Raise KeyError => Ok VNone
     | Raise e => Raise e
     end, w).
Proof.
  unfold SupProd.default_project_id, try_except, bind, SupProd.contents,
    files_download, lift, default_project_path.
  destruct (get_path _ (remote w)) as [v|[]]; reflexivity.
Qed.

(** The project that [create_task] works with: the argument when it is
    true, else the configured default. *)
Lemma resolve_project (w : world) (project_id : value) :
  truthy project_id = true \/ config_readable (remote w) = true ->
  exists r,
    (if truthy project_id then ret project_id else SupProd.default_project_id)
      w = (Ok r, w)
    /\ (truthy project_id = true -> r = project_id)
    /\ (truthy project_id = false ->
        SupProd.default_project_id w = (Ok r, w)).
Proof.
  intros Hres. destruct (truthy project_id) eqn:Et.
  - exists project_id. by repeat split.
  - destruct Hres as [?|Hcfg]; [done|].
    rewrite default_project_id_eq. unfold config_readable in Hcfg.
    destruct (get_path _ (remote w)) as [v|[]]; try discriminate;
      eexists; (split; [reflexivity|]); by split.
Qed.

(** ** tasks and get_task_by_title *)

Lemma tasks_unfold (w : world) (ids : list value) :
  get_path [VStr "task"; VStr "ids"] (remote w) = Ok (VList ids) ->
  SupProd.tasks w
  = ((let? xs := res_map (fun x => let? r := task_record (remote w) x in
                                   Ok (Task.New r)) ids in
      res_filter (fun x => let? d := Task.done x in Ok (negb (truthy d))) xs),
     w).
Proof.
  intros E. unfold SupProd.tasks, SupProd.all_tasks, SupProd.contents,
    files_download, bind.
  unfold lift; simpl. unfold task_record.
  destruct (remote w) as [| | | | | |top]; try discriminate.
  rewrite get_path_cons_dict in E. rewrite !get_path_cons_dict.
  rewrite getitem_dict.
  destruct (dict_get "task" top) as [tc|]; [|discriminate].
  destruct tc as [| | | | | |tc]; try discriminate.
  rewrite get_path_cons_dict in E. rewrite !get_path_cons_dict.
  rewrite !getitem_dict.
  destruct (dict_get "ids" tc) as [l|]; [|discriminate].
  injection E as ->. simpl.
  rewrite (res_map_ext _
             (fun x => let? r := (let? entities :=
                                    match dict_get "entities" tc with
                                    | Some x0 => Ok x0
                                    | None => Raise KeyError
                                    end in subscript entities x) in
                       Ok (Task.New r))).
  - by destruct (res_map _ ids).
  - intros x. by destruct (dict_get "entities" tc).
Qed.

(** The candidates that [get_task_by_title] collects from listable tasks:
    there is one exactly when some open task has the title. *)
Lemma candidates_spec (doc : value) (title : string) (ids : list value) :
  forallb (listable_task doc) ids = true ->
  exists xs ys cs,
    res_map (fun x => let? r := task_record doc x in Ok (Task.New r)) ids
    = Ok xs
    /\ res_filter (fun x => let? d := Task.done x in Ok (negb (truthy d))) xs
       = Ok ys
    /\ res_filter (fun x => let? t := Task.title x in
                            Ok (String.eqb t title)) ys
       = Ok cs
    /\ existsb (open_task_titled doc title) ids
       = match cs with [] => false | _ :: _ => true end.
Proof.
  induction ids as [|x ids IH]; cbn [forallb existsb res_map]; intros Hall.
  { by exists [], [], []. }
  apply andb_true_iff in Hall as [Hx Hall].
  destruct (IH Hall) as (xs & ys & cs & Hxs & Hys & Hcs & Hex).
  rewrite Hxs, Hex. clear IH Hall Hex Hxs.
  unfold listable_task in Hx. unfold open_task_titled.
  destruct (task_record doc x) as [r|]; [|discriminate].
  cbn [res_bind].
  assert (Hdone : Task.done (Task.New r) = getitem r "isDone") by done.
  destruct (getitem r "isDone") as [d|]; [|discriminate].
  destruct (truthy d) eqn:Etd; simpl in Hx.
  - exists (Task.New r :: xs), ys, cs. split; [done|].
    cbn [res_filter]. rewrite Hdone, Hys. cbn [res_bind]. rewrite Etd.
    split; [done|]. split; [done|]. by destruct (Task.title _).
  - assert (exists s, Task.title (Task.New r) = Ok (strip s)) as (s & Ht).
    { unfold Task.title; simpl.
      destruct (getitem r "title") as [[| | | |s| |]|]; try discriminate.
      by exists s. }
    rewrite Ht. simpl.
    destruct (String.eqb (strip s) title) eqn:Es.
    + exists (Task.New r :: xs), (Task.New r :: ys), (Task.New r :: cs).
      split; [done|].
      cbn [res_filter]. rewrite Hdone, Hys. cbn [res_bind]. rewrite Etd.
      split; [done|]. cbn [res_filter]. rewrite Ht, Hcs. cbn [res_bind].
      by rewrite Es.
    + exists (Task.New r :: xs), (Task.New r :: ys), cs.
      split; [done|].
      cbn [res_filter]. rewrite Hdone, Hys. cbn [res_bind]. rewrite Etd.
      split; [done|]. cbn [res_filter]. rewrite Ht, Hcs. cbn [res_bind].
      by rewrite Es.
Qed.

Lemma get_task_by_title_spec (w : world) (title : string)
  (ids : list value) :
  get_path [VStr "task"; VStr "ids"] (remote w) = Ok (VList ids) ->
  forallb (listable_task (remote w)) ids = true ->
  exists x,
    SupProd.get_task_by_title title w = (Ok x, w)
    /\ bool_decide (is_Some x)
       = existsb (open_task_titled (remote w) title) ids.
Proof.
  intros Hids Hall.
  destruct (candidates_spec (remote w) title ids Hall)
    as (xs & ys & cs & Hxs & Hys & Hcs & Hex).
  unfold SupProd.get_task_by_title, bind.
  rewrite (tasks_unfold w ids Hids), Hxs. simpl. rewrite Hys.
  unfold lift. rewrite Hcs. unfold ret.
  eexists. split; [reflexivity|]. rewrite Hex. by destruct cs.
Qed.

(** ** create_task *)




(** ** Changing the document in place *)

Lemma dict_set_set k v v' d : dict_set k v (dict_set k v' d) = dict_set k v d.
Proof.
  induction d as [|[k' v0] d IH]; simpl.
  - by rewrite String.eqb_refl.
  - destruct (String.eqb k k') eqn:E; simpl; rewrite E; [done|by rewrite IH].
Qed.

Lemma get_path_app p q c :
  get_path (p ++ q) c = (let? x := get_path p c in get_path q x).
Proof.
  revert c. induction p as [|k p IH]; intros c; simpl; [done|].
  destruct (subscript c k); simpl; [apply IH|done].
Qed.

(** A method applied under string keys replaces the object it is applied
    to. *)
Lemma with_path_set (ks : list string) (m : value -> res value) :
  forall c x x',
    get_path (VStr <$> ks) c = Ok x ->
    m x = Ok x' ->
    with_path (VStr <$> ks) m c = Ok (set_path ks x' c).
Proof.
  induction ks as [|k ks IH]; intros c x x' Hget Hm.
  - simpl in *. congruence.
  - rewrite fmap_cons in *.
    apply get_path_cons_inv in Hget as (d & y & -> & Hd & Hget).
    cbn [with_path set_path subscript]. rewrite Hd. cbn [res_bind].
    by rewrite (IH y x x' Hget Hm).
Qed.

Lemma get_set_same (ks : list string) (v : value) :
  forall c x,
    get_path (VStr <$> ks) c = Ok x ->
    get_path (VStr <$> ks) (set_path ks v c) = Ok v.
Proof.
  induction ks as [|k ks IH]; intros c x Hget; [done|].
  rewrite fmap_cons in *.
  apply get_path_cons_inv in Hget as (d & y & -> & Hd & Hget).
  cbn [set_path]. rewrite Hd, get_path_cons_dict, dict_get_set_eq. eauto.
Qed.

(** Reading under a first key that the change does not go through. *)
Lemma get_set_other (k k' : string) (ks : list string) (q : list value)
  (v c : value) :
  k <> k' ->
  get_path (VStr k' :: q) (set_path (k :: ks) v c) = get_path (VStr k' :: q) c.
Proof.
  intros Hne. destruct c as [| | | | | |d]; try done.
  cbn [set_path]. destruct (dict_get k d) as [x|]; [|done].
  by rewrite !get_path_cons_dict, dict_get_set_ne.
Qed.

(** Reading below a first key that the change goes through as well. *)
Lemma get_set_under (k : string) (ks : list string) (q : list value)
  (v c x : value) :
  getitem c k = Ok x ->
  get_path (VStr k :: q) (set_path (k :: ks) v c) = get_path q (set_path ks v x).
Proof.
  intros Hget. apply getitem_Ok_inv in Hget as (d & -> & Hd).
  cbn [set_path]. rewrite Hd. by rewrite get_path_cons_dict, dict_get_set_eq.
Qed.

Lemma getitem_set_other (k k' : string) (ks : list string) (v c : value) :
  k <> k' -> getitem (set_path (k :: ks) v c) k' = getitem c k'.
Proof.
  intros Hne. destruct c as [| | | | | |d]; try done.
  cbn [set_path]. destruct (dict_get k d) as [x|]; [|done].
  by rewrite !getitem_dict, dict_get_set_ne.
Qed.

Lemma mutate_set (ks : list string) (m : value -> res value) (c x x' : value) :
  get_path (VStr <$> ks) c = Ok x ->
  m x = Ok x' ->
  mutate (VStr <$> ks) m c = (Ok tt, set_path ks x' c).
Proof.
  intros Hget Hm. unfold mutate. by rewrite (with_path_set ks m c x x').
Qed.

(** The comparison is with the title as [Task.title] shows it.  An open task
    whose stored title is [title] itself is found when [title] has no blanks
    around it; a stored title with blanks around it is matched by its
    stripped form. *)
Lemma open_task_titled_stored (doc x r d : value) (title : string) :
  task_record doc x = Ok r ->
  getitem r "isDone" = Ok d ->
  truthy d = false ->
  getitem r "title" = Ok (VStr title) ->
  strip title = title ->
  open_task_titled doc title x = true.
Proof.
  intros Hr Hd Ht Htitle Hstrip. unfold open_task_titled, Task.title.
  rewrite Hr, Hd. cbn [Task._task_details]. rewrite Htitle, Ht.
  cbn [res_bind negb andb]. rewrite Hstrip. apply String.eqb_refl.
Qed.

Example open_task_titled_padded :
  open_task_titled sample_doc "Call Bob" (VStr "2") = true
  /\ open_task_titled sample_doc " Call Bob " (VStr "2") = false.
Proof. split; reflexivity. Qed.

(** ** The run of create_task *)

Lemma bind_Ok {S A B : Type} (c : ST S A) (k : A -> ST S B) (s s' : S) (a : A) :
  c s = (Ok a, s') -> bind c k s = k a s'.
Proof. intros E. unfold bind. by rewrite E. Qed.

Lemma on_local_Ok (c c' : value) (body : ST value unit) (w : world) :
  body c = (Ok tt, c') -> on_local c body w = (Ok c', w).
Proof. intros E. unfold on_local. by rewrite E. Qed.

Lemma set_path_dict (k : string) (ks : list string) (v c : value) :
  (exists d, c = VDict d) -> exists d', set_path (k :: ks) v c = VDict d'.
Proof. intros [d ->]. cbn [set_path]. destruct (dict_get k d); eauto. Qed.

Lemma map_st_attachment `{FloatRepr} (atts : list Attachment.t) :
  forall w : world,
    exists stored,
      map_st Attachment.attachment atts w
      = (Ok stored,
         {| remote := remote w; uploads := uploads w; clock := clock w;
            ticks := (length atts + ticks w)%nat |})
      /\ Forall2 (fun a s =>
                    exists i, s = VDict [("type", Attachment.attachment_type a);
                                         ("path", Attachment.path a);
                                         ("title", Attachment.title a);
                                         ("id", VStr i)])
           atts stored.
Proof.
  induction atts as [|a atts IH]; intros w.
  - exists []. split; [by destruct w|constructor].
  - destruct (IH {| remote := remote w; uploads := uploads w;
                    clock := clock w; ticks := S (ticks w) |})
      as (stored & Hrun & Hall).
    eexists (_ :: stored). split.
    + cbn [map_st]. unfold bind at 1. unfold Attachment.attachment at 1.
      unfold bind at 1. unfold time_time at 1. unfold ret at 1.
      unfold bind at 1. rewrite Hrun. unfold ret. simpl.
      by rewrite Nat.add_succ_r.
    + constructor; [eauto|done].
Qed.

(** The statements of [create_task] on the local document. *)
Lemma create_task_local (doc : value) (task_title : string) (r : value)
  (is_today : bool) (nid : string) (time_estimate : value)
  (stored : list value) (ids : list value) (ents : dict)
  (ptids ttids : list value) :
  get_path [VStr "task"; VStr "ids"] doc = Ok (VList ids) ->
  get_path [VStr "task"; VStr "entities"] doc = Ok (VDict ents) ->
  resolved_project doc r ptids ->
  (is_today || is_none r = true ->
   get_path [VStr "tag"; VStr "entities"; VStr "TODAY"; VStr "taskIds"] doc
   = Ok (VList ttids)) ->
  exists d4,
    mutate [VStr "task"; VStr "ids"] (append (VStr nid)) doc
    = (Ok tt, set_path ["task"; "ids"] (VList (ids ++ [VStr nid])) doc)
    /\ (mutate [VStr "task"; VStr "entities"]
          (setitem nid
             (SupProd.new_task_record task_title r nid time_estimate stored)) ;;
        (if negb (is_none r)
         then mutate [VStr "project"; VStr "entities"; r; VStr "taskIds"]
                (append (VStr nid))
         else ret tt) ;;
        (if is_today || is_none r
         then mutate [VStr "task"; VStr "entities"; VStr nid; VStr "tagIds"]
                (append (VStr "TODAY")) ;;
              mutate [VStr "tag"; VStr "entities"; VStr "TODAY"; VStr "taskIds"]
                (append (VStr nid))
         else ret tt))
         (set_path ["task"; "ids"] (VList (ids ++ [VStr nid])) doc)
       = (Ok tt, VDict d4)
    /\ forall ms,
        created_doc doc task_title r (is_today || is_none r) nid time_estimate
          stored ids ents ptids ttids ms
        = VDict (dict_set "lastLocalSyncModelChange" (VInt ms) d4).
Proof.
  intros Hids Hents Hproj Htag.
  set (c1 := set_path ["task"; "ids"] (VList (ids ++ [VStr nid])) doc).
  set (rec := SupProd.new_task_record task_title r nid time_estimate stored).
  assert (Htask : exists tc, getitem doc "task" = Ok tc
                             /\ get_path [VStr "ids"] tc = Ok (VList ids)
                             /\ get_path [VStr "entities"] tc = Ok (VDict ents)).
  { pose proof Hids as H1. pose proof Hents as H2.
    apply get_path_cons_inv in H1 as (d & tc & -> & Hd & H1).
    rewrite get_path_cons_dict, Hd in H2.
    exists tc. by rewrite getitem_dict, Hd. }
  destruct Htask as (tc & Htc & Hids' & Hents').
  assert (E1 : mutate [VStr "task"; VStr "ids"] (append (VStr nid)) doc
               = (Ok tt, c1)).
  { by apply (mutate_set ["task"; "ids"] _ doc (VList ids)). }
  assert (G1 : get_path [VStr "task"; VStr "entities"] c1 = Ok (VDict ents)).
  { unfold c1. rewrite (get_set_under _ _ _ _ _ _ Htc).
    by rewrite get_set_other. }
  set (c2 := set_path ["task"; "entities"] (VDict (dict_set nid rec ents)) c1).
  assert (E2 : mutate [VStr "task"; VStr "entities"] (setitem nid rec) c1
               = (Ok tt, c2)).
  { by apply (mutate_set ["task"; "entities"] _ c1 (VDict ents)). }
  assert (D2 : exists d2, c2 = VDict d2).
  { apply set_path_dict, set_path_dict.
    apply getitem_Ok_inv in Htc as (d & -> & _). eauto. }
  set (c3 := match r with
             | VStr p => set_path ["project"; "entities"; p; "taskIds"]
                           (VList (ptids ++ [VStr nid])) c2
             | _ => c2
             end).
  assert (E3 : (if negb (is_none r)
                then mutate [VStr "project"; VStr "entities"; r; VStr "taskIds"]
                       (append (VStr nid))
                else ret tt) c2 = (Ok tt, c3)).
  { destruct r as [| | | |p| |]; try done. simpl in Hproj.
    apply (mutate_set ["project"; "entities"; p; "taskIds"] _ c2 (VList ptids));
      [|done].
    cbn [fmap list_fmap]. unfold c2, c1. by rewrite !get_set_other. }
  assert (D3 : exists d3, c3 = VDict d3).
  { unfold c3. destruct r; try done. by apply set_path_dict. }
  assert (G3 : get_path [VStr "task"; VStr "entities"; VStr nid; VStr "tagIds"]
                 c3 = Ok (VList [])).
  { assert (get_path [VStr "task"; VStr "entities"; VStr nid; VStr "tagIds"]
              c2 = Ok (VList [])) as G2.
    { change [VStr "task"; VStr "entities"; VStr nid; VStr "tagIds"]
        with ((VStr <$> ["task"; "entities"]) ++ [VStr nid; VStr "tagIds"]).
      rewrite get_path_app. unfold c2.
      rewrite (get_set_same ["task"; "entities"] _ c1 _ G1). cbn [res_bind].
      by rewrite get_path_cons_dict, dict_get_set_eq. }
    unfold c3. destruct r; try done. by rewrite get_set_other. }
  assert (T3 : forall q, get_path (VStr "tag" :: q) c3
                         = get_path (VStr "tag" :: q) doc).
  { intros q. transitivity (get_path (VStr "tag" :: q) c2).
    - unfold c3. destruct r; try done. by rewrite get_set_other.
    - unfold c2, c1. by rewrite !get_set_other. }
  destruct (is_today || is_none r) eqn:Etag.
  - set (c4a := set_path ["task"; "entities"; nid; "tagIds"]
                  (VList [VStr "TODAY"]) c3).
    set (c4 := set_path ["tag"; "entities"; "TODAY"; "taskIds"]
                 (VList (ttids ++ [VStr nid])) c4a).
    assert (D4 : exists d4, c4 = VDict d4).
    { by apply set_path_dict, set_path_dict. }
    destruct D4 as (d4 & D4). exists d4. split; [done|]. split.
    + rewrite <- D4.
      rewrite (bind_Ok _ _ _ _ _ E2), (bind_Ok _ _ _ _ _ E3).
      assert (E4a : mutate [VStr "task"; VStr "entities"; VStr nid;
                            VStr "tagIds"] (append (VStr "TODAY")) c3
                    = (Ok tt, c4a)).
      { by apply (mutate_set ["task"; "entities"; nid; "tagIds"] _ c3
                    (VList [])). }
      rewrite (bind_Ok _ _ _ _ _ E4a).
      apply (mutate_set ["tag"; "entities"; "TODAY"; "taskIds"] _ c4a
               (VList ttids)); [|done].
      cbn [fmap list_fmap]. unfold c4a. rewrite get_set_other by done. rewrite T3. by apply Htag.
    + intros ms. unfold created_doc. fold rec. fold c1. fold c2. fold c3.
      fold c4a. fold c4. by rewrite D4.
  - destruct D3 as (d3 & D3). exists d3. split; [done|]. split.
    + rewrite <- D3.
      rewrite (bind_Ok _ _ _ _ _ E2), (bind_Ok _ _ _ _ _ E3). done.
    + intros ms. unfold created_doc. fold rec. fold c1. fold c2. fold c3.
      by rewrite D3.
Qed.

Lemma update_contents_dict (d : dict) (w : world) (ms : Z) :
  int_of_float (float_mul (clock w (ticks w)) f1000) = Ok ms ->
  SupProd.update_contents (VDict d) w
  = (Ok tt,
     {| remote := VDict (dict_set "lastLocalSyncModelChange" (VInt ms) d);
        uploads := uploads w
                   ++ [VDict (dict_set "lastLocalSyncModelChange" (VInt ms) d)];
        clock := clock w;
        ticks := S (ticks w) |}).
Proof.
  intros Hms. unfold SupProd.update_contents, bind, time_time, lift; simpl.
  by rewrite Hms.
Qed.

(** What a call of [create_task] that creates a task uploads. *)
Lemma create_task_uploads `{FloatRepr} (w : world) (task_title : string)
  (project_id : value) (is_today is_unique : bool) (time_estimate : value)
  (attachments : list Attachment.t) (r : value) (nid : string)
  (ids : list value) (ents : dict) (ptids ttids : list value) (ms : Z) :
  (if truthy project_id then ret project_id else SupProd.default_project_id) w
  = (Ok r, w) ->
  (is_unique = true -> SupProd.get_task_by_title task_title w = (Ok None, w)) ->
  SupProd.new_task_id w = (Ok nid, w) ->
  get_path [VStr "task"; VStr "ids"] (remote w) = Ok (VList ids) ->
  get_path [VStr "task"; VStr "entities"] (remote w) = Ok (VDict ents) ->
  resolved_project (remote w) r ptids ->
  (is_today || is_none r = true ->
   get_path [VStr "tag"; VStr "entities"; VStr "TODAY"; VStr "taskIds"]
     (remote w) = Ok (VList ttids)) ->
  int_of_float (float_mul (clock w (length attachments + ticks w)%nat) f1000)
  = Ok ms ->
  exists stored doc',
    Forall2 (fun a s =>
               exists i, s = VDict [("type", Attachment.attachment_type a);
                                    ("path", Attachment.path a);
                                    ("title", Attachment.title a);
                                    ("id", VStr i)])
      attachments stored
    /\ doc' = created_doc (remote w) task_title r (is_today || is_none r) nid
                time_estimate stored ids ents ptids ttids ms
    /\ SupProd.create_task task_title project_id is_today is_unique
         time_estimate attachments w
       = (Ok tt,
          {| remote := doc'; uploads := uploads w ++ [doc']; clock := clock w;
             ticks := S (length attachments + ticks w) |}).
Proof.
  intros Hres Huniq Hnid Hids Hents Hproj Htag Hms.
  destruct (map_st_attachment attachments w) as (stored & Hstored & Hforms).
  destruct (create_task_local (remote w) task_title r is_today nid
              time_estimate stored ids ents ptids ttids Hids Hents Hproj Htag)
    as (d4 & E1 & E2 & Hdoc).
  exists stored. eexists. split; [exact Hforms|]. split; [reflexivity|].
  unfold SupProd.create_task. rewrite (bind_Ok _ _ _ _ _ Hres).
  assert (Hfound : (if is_unique
                    then x <- SupProd.get_task_by_title task_title ;;
                         ret (bool_decide (is_Some x))
                    else ret false) w = (Ok false, w)).
  { destruct is_unique; [|done].
    by rewrite (bind_Ok _ _ _ _ _ (Huniq eq_refl)). }
  rewrite (bind_Ok _ _ _ _ _ Hfound). cbv iota.
  rewrite (bind_Ok _ _ _ _ _ Hnid).
  rewrite (bind_Ok SupProd.contents _ w w (remote w) eq_refl).
  rewrite (bind_Ok _ _ _ _ _ (on_local_Ok _ _ _ w E1)).
  rewrite (bind_Ok _ _ _ _ _ Hstored).
  rewrite (bind_Ok _ _ _ _ _ (on_local_Ok _ _ _ _ E2)).
  rewrite Hdoc. by rewrite (update_contents_dict d4 _ ms).
Qed.

Lemma get_set_second (a k k' : string) (ks : list string) (q : list value)
  (v c : value) :
  k <> k' ->
  get_path (VStr a :: VStr k' :: q) (set_path (a :: k :: ks) v c)
  = get_path (VStr a :: VStr k' :: q) c.
Proof.
  intros Hne. destruct c as [| | | | | |d]; try done.
  cbn [set_path]. destruct (dict_get a d) as [x|] eqn:Hd; [|done].
  rewrite !get_path_cons_dict, dict_get_set_eq, Hd.
  by apply get_set_other.
Qed.

Lemma get_set_prefix (pre ks : list string) (v : value) :
  forall c x,
    get_path (VStr <$> pre) c = Ok x ->
    get_path (VStr <$> pre) (set_path (pre ++ ks) v c) = Ok (set_path ks v x).
Proof.
  induction pre as [|k pre IH]; intros c x Hget.
  - simpl in *. congruence.
  - rewrite fmap_cons in *.
    apply get_path_cons_inv in Hget as (d & y & -> & Hd & Hget).
    cbn [app set_path]. rewrite Hd, get_path_cons_dict, dict_get_set_eq. eauto.
Qed.

Lemma get_path_stamp (k k' : string) (q : list value) (v : value) (d : dict) :
  k <> k' ->
  get_path (VStr k' :: q) (VDict (dict_set k v d))
  = get_path (VStr k' :: q) (VDict d).
Proof. intros Hne. by rewrite !get_path_cons_dict, dict_get_set_ne. Qed.

(** What can be read from the document that [create_task] uploads. *)
Lemma created_doc_reads (doc : value) (task_title : string) (r : value)
  (tagged : bool) (nid : string) (time_estimate : value)
  (stored : list value) (ids : list value) (ents : dict)
  (ptids ttids : list value) (ms : Z) :
  get_path [VStr "task"; VStr "ids"] doc = Ok (VList ids) ->
  get_path [VStr "task"; VStr "entities"] doc = Ok (VDict ents) ->
  resolved_project doc r ptids ->
  (tagged = true ->
   get_path [VStr "tag"; VStr "entities"; VStr "TODAY"; VStr "taskIds"] doc
   = Ok (VList ttids)) ->
  let doc' := created_doc doc task_title r tagged nid time_estimate stored
                ids ents ptids ttids ms in
  get_path [VStr "task"; VStr "ids"] doc' = Ok (VList (ids ++ [VStr nid]))
  /\ (exists rec,
         get_path [VStr "task"; VStr "entities"] doc'
         = Ok (VDict (dict_set nid rec ents))
         /\ getitem rec "title" = Ok (VStr task_title)
         /\ getitem rec "id" = Ok (VStr nid)
         /\ getitem rec "isDone" = Ok (VBool false)
         /\ getitem rec "projectId" = Ok r
         /\ getitem rec "timeEstimate" = Ok time_estimate
         /\ getitem rec "attachments" = Ok (VList stored)
         /\ getitem rec "tagIds"
            = Ok (VList (if tagged then [VStr "TODAY"] else [])))
  /\ match r with
     | VStr p =>
         get_path [VStr "project"; VStr "entities"; VStr p; VStr "taskIds"]
           doc' = Ok (VList (ptids ++ [VStr nid]))
     | _ => get_path [VStr "project"] doc' = get_path [VStr "project"] doc
     end
  /\ (if tagged
      then get_path [VStr "tag"; VStr "entities"; VStr "TODAY"; VStr "taskIds"]
             doc' = Ok (VList (ttids ++ [VStr nid]))
      else get_path [VStr "tag"] doc' = get_path [VStr "tag"] doc)
  /\ getitem doc' "lastLocalSyncModelChange" = Ok (VInt ms)
  /\ (forall k, k <> "task" -> k <> "project" -> k <> "tag" ->
                k <> "lastLocalSyncModelChange" ->
                getitem doc' k = getitem doc k).
Proof.
  intros Hids Hents Hproj Htag doc'.
  set (rec := SupProd.new_task_record task_title r nid time_estimate stored).
  set (c1 := set_path ["task"; "ids"] (VList (ids ++ [VStr nid])) doc).
  set (c2 := set_path ["task"; "entities"] (VDict (dict_set nid rec ents)) c1).
  set (c3 := match r with
             | VStr p => set_path ["project"; "entities"; p; "taskIds"]
                           (VList (ptids ++ [VStr nid])) c2
             | _ => c2
             end).
  set (c4 := if tagged
             then set_path ["tag"; "entities"; "TODAY"; "taskIds"]
                    (VList (ttids ++ [VStr nid]))
                    (set_path ["task"; "entities"; nid; "tagIds"]
                       (VList [VStr "TODAY"]) c3)
             else c3).
  assert (D0 : exists d, doc = VDict d).
  { apply get_path_cons_inv in Hids as (d & _ & -> & _). eauto. }
  assert (D3 : exists d, c3 = VDict d).
  { unfold c3. destruct r; try by apply set_path_dict, set_path_dict.
    by do 3 apply set_path_dict. }
  assert (D4 : exists d, c4 = VDict d).
  { unfold c4. destruct tagged; [|done]. by do 2 apply set_path_dict. }
  destruct D4 as (d4 & D4).
  assert (Hdoc' : doc' = VDict (dict_set "lastLocalSyncModelChange" (VInt ms) d4)).
  { unfold doc', created_doc. fold rec. fold c1. fold c2. fold c3. fold c4.
    by rewrite D4. }
  (* reads of the document before the tagging *)
  assert (I3 : get_path [VStr "task"; VStr "ids"] c3
               = Ok (VList (ids ++ [VStr nid]))).
  { transitivity (get_path [VStr "task"; VStr "ids"] c2).
    { unfold c3. destruct r; try done. by rewrite get_set_other. }
    unfold c2. rewrite get_set_second by done.
    by apply (get_set_same ["task"; "ids"] _ doc (VList ids)). }
  assert (G1 : get_path [VStr "task"; VStr "entities"] c1 = Ok (VDict ents)).
  { unfold c1. by rewrite get_set_second. }
  assert (E3 : get_path [VStr "task"; VStr "entities"] c3
               = Ok (VDict (dict_set nid rec ents))).
  { transitivity (get_path [VStr "task"; VStr "entities"] c2).
    { unfold c3. destruct r; try done. by rewrite get_set_other. }
    by apply (get_set_same ["task"; "entities"] _ c1 (VDict ents)). }
  assert (P3 : match r with
               | VStr p =>
                   get_path [VStr "project"; VStr "entities"; VStr p;
                             VStr "taskIds"] c3
                   = Ok (VList (ptids ++ [VStr nid]))
               | _ => get_path [VStr "project"] c3 = get_path [VStr "project"] doc
               end).
  { unfold c3. destruct r as [| | | |p| |];
      try (unfold c2, c1; by rewrite !get_set_other).
    simpl in Hproj.
    apply (get_set_same ["project"; "entities"; p; "taskIds"] _ c2
             (VList ptids)).
    cbn [fmap list_fmap]. unfold c2, c1. by rewrite !get_set_other. }
  assert (T3 : forall q, get_path (VStr "tag" :: q) c3
                         = get_path (VStr "tag" :: q) doc).
  { intros q. transitivity (get_path (VStr "tag" :: q) c2).
    - unfold c3. destruct r; try done. by rewrite get_set_other.
    - unfold c2, c1. by rewrite !get_set_other. }
  assert (F3 : forall k, k <> "task" -> k <> "project" ->
                         getitem c3 k = getitem doc k).
  { intros k Hk1 Hk2. transitivity (getitem c2 k).
    - unfold c3. destruct r; try done. by rewrite getitem_set_other.
    - unfold c2, c1. by rewrite !getitem_set_other. }
  clearbody doc'. subst doc'.
  split; [|split; [|split; [|split; [|split]]]].
  - rewrite get_path_stamp by done. rewrite <- D4.
    unfold c4. destruct tagged; [|done].
    rewrite get_set_other by done. by rewrite get_set_second.
  - rewrite get_path_stamp by done. rewrite <- D4.
    unfold c4. destruct tagged.
    + exists (set_path ["tagIds"] (VList [VStr "TODAY"]) rec).
      split; [|by repeat split].
      rewrite get_set_other by done.
      rewrite (get_set_prefix ["task"; "entities"] [nid; "tagIds"] _ c3 _ E3).
      cbn [set_path]. rewrite dict_get_set_eq. by rewrite dict_set_set.
    + exists rec. split; [done|]. by repeat split.
  - destruct r as [| | | |p| |]; rewrite get_path_stamp by done;
      rewrite <- D4; unfold c4; (destruct tagged; [|exact P3]);
      by rewrite !get_set_other.
  - destruct tagged; rewrite get_path_stamp by done; rewrite <- D4; unfold c4.
    + apply (get_set_same ["tag"; "entities"; "TODAY"; "taskIds"] _ _
               (VList ttids)).
      cbn [fmap list_fmap]. rewrite get_set_other by done. rewrite T3. auto.
    + apply T3.
  - rewrite getitem_dict. by rewrite dict_get_set_eq.
  - intros k Hk1 Hk2 Hk3 Hk4. rewrite getitem_dict, dict_get_set_ne by done.
    rewrite <- getitem_dict, <- D4. unfold c4.
    destruct tagged; [|by apply F3].
    rewrite !getitem_set_other by done. by apply F3.
Qed.

(** What [create_task] does when it creates a task: the project [r] is the
    argument or the default, the new id is the one [new_task_id] finds, and
    the uploaded document has the id, the record and the registrations. *)
Lemma create_task_creates `{FloatRepr} (w : world) (task_title : string)
  (project_id : value) (is_today is_unique : bool) (time_estimate : value)
  (attachments : list Attachment.t) (r : value)
  (ids : list value) (ents : dict) (ptids ttids : list value) (ms : Z) :
  (truthy project_id = true /\ r = project_id
   \/ truthy project_id = false
      /\ SupProd.default_project_id w = (Ok r, w)) ->
  (is_unique = true ->
   forallb (listable_task (remote w)) ids = true
   /\ existsb (open_task_titled (remote w) task_title) ids = false) ->
  get_path [VStr "task"; VStr "ids"] (remote w) = Ok (VList ids) ->
  get_path [VStr "task"; VStr "entities"] (remote w) = Ok (VDict ents) ->
  resolved_project (remote w) r ptids ->
  (is_today || is_none r = true ->
   get_path [VStr "tag"; VStr "entities"; VStr "TODAY"; VStr "taskIds"]
     (remote w) = Ok (VList ttids)) ->
  int_of_float (float_mul (clock w (length attachments + ticks w)%nat) f1000)
  = Ok ms ->
  exists (n : Z) (rec doc' : value) (w' : world),
    SupProd.create_task task_title project_id is_today is_unique
      time_estimate attachments w = (Ok tt, w')
    /\ remote w' = doc'
    /\ uploads w' = uploads w ++ [doc']
    /\ 1 <= n
    /\ (VStr (pretty n) ∉ ids)
    /\ get_path [VStr "task"; VStr "ids"] doc'
       = Ok (VList (ids ++ [VStr (pretty n)]))
    /\ get_path [VStr "task"; VStr "entities"] doc'
       = Ok (VDict (dict_set (pretty n) rec ents))
    /\ getitem rec "title" = Ok (VStr task_title)
    /\ getitem rec "isDone" = Ok (VBool false)
    /\ getitem rec "projectId" = Ok r
    /\ getitem rec "tagIds"
       = Ok (VList (if is_today || is_none r then [VStr "TODAY"] else []))
    /\ match r with
       | VStr p =>
           get_path [VStr "project"; VStr "entities"; VStr p; VStr "taskIds"]
             doc' = Ok (VList (ptids ++ [VStr (pretty n)]))
       | _ =>
           get_path [VStr "project"] doc' = get_path [VStr "project"] (remote w)
       end
    /\ (if is_today || is_none r
        then get_path [VStr "tag"; VStr "entities"; VStr "TODAY";
                       VStr "taskIds"] doc'
             = Ok (VList (ttids ++ [VStr (pretty n)]))
        else get_path [VStr "tag"] doc' = get_path [VStr "tag"] (remote w)).
Proof.
  intros Hres Huniq Hids Hents Hproj Htag Hms.
  assert (Hres' : (if truthy project_id then ret project_id
                   else SupProd.default_project_id) w = (Ok r, w)).
  { destruct Hres as [[-> ->]|[-> ->]]; done. }
  assert (Huniq' : is_unique = true ->
                   SupProd.get_task_by_title task_title w = (Ok None, w)).
  { intros Hu. destruct (Huniq Hu) as [Hall Hex].
    destruct (get_task_by_title_spec w task_title ids Hids Hall)
      as (x & -> & Hsome).
    rewrite Hex in Hsome. apply bool_decide_eq_false in Hsome.
    destruct x; [|done]. destruct Hsome. eauto. }
  destruct (new_task_id_list w ids Hids) as (n & Hn & Hnid & Hfresh & _).
  destruct (create_task_uploads w task_title project_id is_today is_unique
              time_estimate attachments r (pretty n) ids ents ptids ttids ms
              Hres' Huniq' Hnid Hids Hents Hproj Htag Hms)
    as (stored & doc' & _ & Hdoc' & Hrun).
  destruct (created_doc_reads (remote w) task_title r (is_today || is_none r)
              (pretty n) time_estimate stored ids ents ptids ttids ms
              Hids Hents Hproj Htag)
    as (R1 & (rec & R2 & Rt & _ & Rd & Rp & _ & _ & Rg) & R3 & R4 & _).
  rewrite <- Hdoc' in *.
  exists n, rec, doc'. eexists. split; [exact Hrun|].
  simpl. by repeat split.
Qed.

(** C5: [create_task] on a document with its task ids [ids] and task records
    [ents], for the project [r] that is the one asked for or else the
    configured default, and with no open task of that title when [is_unique]
    is set, uploads a document with exactly one more task: the new id is
    appended to the task ids, the record stored under it has the title,
    [isDone = False] and [projectId = r], the id is appended to the task ids
    of the project when there is one, and the task carries the tag ["TODAY"]
    and is appended to the tag's task ids exactly when [is_today] is set or
    no project was resolved.  With the arguments left at their defaults and
    ["P1"] as the default project this gives [projectId = "P1"],
    [tagIds = ["TODAY"]] and the id in both lists. *)
Theorem create_task_appends `{FloatRepr} (w : world) (task_title : string)
  (project_id : value) (is_today is_unique : bool) (time_estimate : value)
  (attachments : list Attachment.t) (r : value)
  (ids : list value) (ents : dict) (ptids ttids : list value) (ms : Z) :
  (truthy project_id = true /\ r = project_id
   \/ truthy project_id = false
      /\ SupProd.default_project_id w = (Ok r, w)) ->
  (is_unique = true ->
   forallb (listable_task (remote w)) ids = true
   /\ existsb (open_task_titled (remote w) task_title) ids = false) ->
  get_path [VStr "task"; VStr "ids"] (remote w) = Ok (VList ids) ->
  get_path [VStr "task"; VStr "entities"] (remote w) = Ok (VDict ents) ->
  resolved_project (remote w) r ptids ->
  (is_today || is_none r = true ->
   get_path [VStr "tag"; VStr "entities"; VStr "TODAY"; VStr "taskIds"]
     (remote w) = Ok (VList ttids)) ->
  int_of_float (float_mul (clock w (length attachments + ticks w)%nat) f1000)
  = Ok ms ->
  exists (n : Z) (rec doc' : value) (w' : world),
    SupProd.create_task task_title project_id is_today is_unique
      time_estimate attachments w = (Ok tt, w')
    /\ remote w' = doc'
    /\ uploads w' = uploads w ++ [doc']
    /\ 1 <= n
    /\ (VStr (pretty n) ∉ ids)
    /\ get_path [VStr "task"; VStr "ids"] doc'
       = Ok (VList (ids ++ [VStr (pretty n)]))
    /\ get_path [VStr "task"; VStr "entities"] doc'
       = Ok (VDict (dict_set (pretty n) rec ents))
    /\ getitem rec "title" = Ok (VStr task_title)
    /\ getitem rec "isDone" = Ok (VBool false)
    /\ getitem rec "projectId" = Ok r
    /\ getitem rec "tagIds"
       = Ok (VList (if is_today || is_none r then [VStr "TODAY"] else []))
    /\ match r with
       | VStr p =>
           get_path [VStr "project"; VStr "entities"; VStr p; VStr "taskIds"]
             doc' = Ok (VList (ptids ++ [VStr (pretty n)]))
       | _ =>
           get_path [VStr "project"] doc' = get_path [VStr "project"] (remote w)
       end
    /\ (if is_today || is_none r
        then get_path [VStr "tag"; VStr "entities"; VStr "TODAY";
                       VStr "taskIds"] doc'
             = Ok (VList (ttids ++ [VStr (pretty n)]))
        else get_path [VStr "tag"] doc' = get_path [VStr "tag"] (remote w)).
Proof.
  intros Hres Huniq Hids Hents Hproj Htag Hms.
  destruct (create_task_creates w task_title project_id is_today is_unique
              time_estimate attachments r ids ents ptids ttids ms
              Hres Huniq Hids Hents Hproj Htag Hms)
    as (n & rec & doc' & w' & Hrun).
  by exists n, rec, doc', w'.
Qed.

Lemma create_task_appends_witness :
  exists (n : Z) (rec doc' : value) (w' : world),
    @SupProd.create_task sample_repr "Buy bread" VNone true false (VInt 0) []
      (sample_world sample_doc) = (Ok tt, w')
    /\ remote w' = doc'
    /\ uploads w' = [] ++ [doc']
    /\ 1 <= n
    /\ (VStr (pretty n) ∉ [VStr "1"; VStr "2"; VStr "4"])
    /\ get_path [VStr "task"; VStr "ids"] doc'
       = Ok (VList ([VStr "1"; VStr "2"; VStr "4"] ++ [VStr (pretty n)]))
    /\ get_path [VStr "task"; VStr "entities"] doc'
       = Ok (VDict (dict_set (pretty n) rec sample_tasks))
    /\ getitem rec "title" = Ok (VStr "Buy bread")
    /\ getitem rec "isDone" = Ok (VBool false)
    /\ getitem rec "projectId" = Ok (VStr "P1")
    /\ getitem rec "tagIds" = Ok (VList [VStr "TODAY"])
    /\ get_path [VStr "project"; VStr "entities"; VStr "P1"; VStr "taskIds"]
         doc' = Ok (VList ([VStr "1"; VStr "2"] ++ [VStr (pretty n)]))
    /\ get_path [VStr "tag"; VStr "entities"; VStr "TODAY"; VStr "taskIds"]
         doc' = Ok (VList ([VStr "1"] ++ [VStr (pretty n)])).
Proof.
  apply (@create_task_appends sample_repr (sample_world sample_doc)
           "Buy bread" VNone true false (VInt 0) [] (VStr "P1")
           [VStr "1"; VStr "2"; VStr "4"] sample_tasks
           [VStr "1"; VStr "2"] [VStr "1"] 1700000000250).
  - right. split; reflexivity.
  - discriminate.
  - reflexivity.
  - reflexivity.
  - reflexivity.
  - reflexivity.
  - reflexivity.
Defined.

(** C9: [default_project_id] returns [None] when the document has no
    [globalConfig], when that has no [misc], when that has no
    [defaultProjectId], and when the stored value is null or the empty
    string; it returns a stored non-empty string as it is.  [create_task]
    called with [None] or the empty string for the project uses that result:
    the new task gets the default project when there is one, and when there
    is none it gets no project and is tagged ["TODAY"] whatever [is_today]
    is. *)
Theorem default_project_id_fallback `{FloatRepr} :
  (forall (w : world) (top : dict),
      remote w = VDict top ->
      dict_get "globalConfig" top = None ->
      SupProd.default_project_id w = (Ok VNone, w))
  /\ (forall (w : world) (top g : dict),
         remote w = VDict top ->
         dict_get "globalConfig" top = Some (VDict g) ->
         dict_get "misc" g = None ->
         SupProd.default_project_id w = (Ok VNone, w))
  /\ (forall (w : world) (top g m : dict),
         remote w = VDict top ->
         dict_get "globalConfig" top = Some (VDict g) ->
         dict_get "misc" g = Some (VDict m) ->
         dict_get "defaultProjectId" m = None ->
         SupProd.default_project_id w = (Ok VNone, w))
  /\ (forall (w : world) (v : value),
         get_path default_project_path (remote w) = Ok v ->
         v = VNone \/ v = VStr "" ->
         SupProd.default_project_id w = (Ok VNone, w))
  /\ (forall (w : world) (s : string),
         get_path default_project_path (remote w) = Ok (VStr s) ->
         s <> "" ->
         SupProd.default_project_id w = (Ok (VStr s), w))
  /\ (forall (w : world) (task_title : string) (project_id : value)
             (is_today is_unique : bool) (time_estimate : value)
             (attachments : list Attachment.t) (p : string)
             (ids : list value) (ents : dict) (ptids ttids : list value)
             (ms : Z),
         project_id = VNone \/ project_id = VStr "" ->
         SupProd.default_project_id w = (Ok (VStr p), w) ->
         (is_unique = true ->
          forallb (listable_task (remote w)) ids = true
          /\ existsb (open_task_titled (remote w) task_title) ids = false) ->
         get_path [VStr "task"; VStr "ids"] (remote w) = Ok (VList ids) ->
         get_path [VStr "task"; VStr "entities"] (remote w)
         = Ok (VDict ents) ->
         get_path [VStr "project"; VStr "entities"; VStr p; VStr "taskIds"]
           (remote w) = Ok (VList ptids) ->
         (is_today = true ->
          get_path [VStr "tag"; VStr "entities"; VStr "TODAY"; VStr "taskIds"]
            (remote w) = Ok (VList ttids)) ->
         int_of_float
           (float_mul (clock w (length attachments + ticks w)%nat) f1000)
         = Ok ms ->
         exists (n : Z) (rec doc' : value) (w' : world),
           SupProd.create_task task_title project_id is_today is_unique
             time_estimate attachments w = (Ok tt, w')
           /\ remote w' = doc'
           /\ get_path [VStr "task"; VStr "entities"] doc'
              = Ok (VDict (dict_set (pretty n) rec ents))
           /\ getitem rec "projectId" = Ok (VStr p)
           /\ getitem rec "tagIds"
              = Ok (VList (if is_today then [VStr "TODAY"] else []))
           /\ get_path [VStr "project"; VStr "entities"; VStr p;
                        VStr "taskIds"] doc'
              = Ok (VList (ptids ++ [VStr (pretty n)])))
  /\ (forall (w : world) (task_title : string) (project_id : value)
             (is_today is_unique : bool) (time_estimate : value)
             (attachments : list Attachment.t)
             (ids : list value) (ents : dict) (ttids : list value) (ms : Z),
         project_id = VNone \/ project_id = VStr "" ->
         SupProd.default_project_id w = (Ok VNone, w) ->
         (is_unique = true ->
          forallb (listable_task (remote w)) ids = true
          /\ existsb (open_task_titled (remote w) task_title) ids = false) ->
         get_path [VStr "task"; VStr "ids"] (remote w) = Ok (VList ids) ->
         get_path [VStr "task"; VStr "entities"] (remote w)
         = Ok (VDict ents) ->
         get_path [VStr "tag"; VStr "entities"; VStr "TODAY"; VStr "taskIds"]
           (remote w) = Ok (VList ttids) ->
         int_of_float
           (float_mul (clock w (length attachments + ticks w)%nat) f1000)
         = Ok ms ->
         exists (n : Z) (rec doc' : value) (w' : world),
           SupProd.create_task task_title project_id is_today is_unique
             time_estimate attachments w = (Ok tt, w')
           /\ remote w' = doc'
           /\ get_path [VStr "task"; VStr "entities"] doc'
              = Ok (VDict (dict_set (pretty n) rec ents))
           /\ getitem rec "projectId" = Ok VNone
           /\ getitem rec "tagIds" = Ok (VList [VStr "TODAY"])
           /\ get_path [VStr "tag"; VStr "entities"; VStr "TODAY";
                        VStr "taskIds"] doc'
              = Ok (VList (ttids ++ [VStr (pretty n)]))
           /\ get_path [VStr "project"] doc'
              = get_path [VStr "project"] (remote w)).
Proof.
  assert (Hfalsy : forall project_id,
             project_id = VNone \/ project_id = VStr "" ->
             truthy project_id = false).
  { by intros ? [-> | ->]. }
  repeat split.
  - intros w top Hw Hg. rewrite default_project_id_eq, Hw.
    unfold default_project_path. by rewrite get_path_cons_dict, Hg.
  - intros w top g Hw Hg Hm. rewrite default_project_id_eq, Hw.
    unfold default_project_path.
    by rewrite get_path_cons_dict, Hg, get_path_cons_dict, Hm.
  - intros w top g m Hw Hg Hm Hd. rewrite default_project_id_eq, Hw.
    unfold default_project_path.
    by rewrite get_path_cons_dict, Hg, get_path_cons_dict, Hm,
      get_path_cons_dict, Hd.
  - intros w v Hv Hnull. rewrite default_project_id_eq, Hv.
    by destruct Hnull as [-> | ->].
  - intros w s Hs Hne. rewrite default_project_id_eq, Hs. simpl.
    destruct (String.eqb_spec s ""); [done|done].
  - intros w task_title project_id is_today is_unique time_estimate
      attachments p ids ents ptids ttids ms Hpid Hdef Huniq Hids Hents Hproj
      Htag Hms.
    destruct (create_task_creates w task_title project_id is_today is_unique
                time_estimate attachments (VStr p) ids ents ptids ttids ms)
      as (n & rec & doc' & w' & Hrun & Hdoc & _ & _ & _ & _ & Hrec & _ & _
          & Hp & Htags & Hlist & _); try done.
    + right. split; [by apply Hfalsy|done].
    + simpl. rewrite orb_false_r. exact Htag.
    + simpl in Htags. rewrite orb_false_r in Htags.
      by exists n, rec, doc', w'.
  - intros w task_title project_id is_today is_unique time_estimate
      attachments ids ents ttids ms Hpid Hdef Huniq Hids Hents Htag Hms.
    destruct (create_task_creates w task_title project_id is_today is_unique
                time_estimate attachments VNone ids ents [] ttids ms)
      as (n & rec & doc' & w' & Hrun & Hdoc & _ & _ & _ & _ & Hrec & _ & _
          & Hp & Htags & Hproj & Htagged); try done.
    + right. split; [by apply Hfalsy|done].
    + simpl in Htags, Htagged. rewrite orb_true_r in Htags, Htagged.
      by exists n, rec, doc', w'.
Qed.

Lemma default_project_id_fallback_witness :
  let none_at (doc : value) :=
    SupProd.default_project_id (sample_world doc)
    = (Ok VNone, sample_world doc) in
  none_at (VDict [])
  /\ none_at (VDict [("globalConfig", VDict [])])
  /\ none_at sample_doc_no_default
  /\ none_at (sample_doc_with
                (VDict [("misc", VDict [("defaultProjectId", VStr "")])]))
  /\ SupProd.default_project_id (sample_world sample_doc)
     = (Ok (VStr "P1"), sample_world sample_doc)
  /\ (exists (n : Z) (rec doc' : value) (w' : world),
         @SupProd.create_task sample_repr "Buy bread" (VStr "") false false
           (VInt 0) [] (sample_world sample_doc) = (Ok tt, w')
         /\ remote w' = doc'
         /\ get_path [VStr "task"; VStr "entities"] doc'
            = Ok (VDict (dict_set (pretty n) rec sample_tasks))
         /\ getitem rec "projectId" = Ok (VStr "P1")
         /\ getitem rec "tagIds" = Ok (VList [])
         /\ get_path [VStr "project"; VStr "entities"; VStr "P1";
                      VStr "taskIds"] doc'
            = Ok (VList ([VStr "1"; VStr "2"] ++ [VStr (pretty n)])))
  /\ (exists (n : Z) (rec doc' : value) (w' : world),
         @SupProd.create_task sample_repr "Buy bread" VNone false false
           (VInt 0) [] (sample_world sample_doc_no_default) = (Ok tt, w')
         /\ remote w' = doc'
         /\ get_path [VStr "task"; VStr "entities"] doc'
            = Ok (VDict (dict_set (pretty n) rec sample_tasks))
         /\ getitem rec "projectId" = Ok VNone
         /\ getitem rec "tagIds" = Ok (VList [VStr "TODAY"])
         /\ get_path [VStr "tag"; VStr "entities"; VStr "TODAY";
                      VStr "taskIds"] doc'
            = Ok (VList ([VStr "1"] ++ [VStr (pretty n)]))
         /\ get_path [VStr "project"] doc'
            = get_path [VStr "project"] sample_doc_no_default).
Proof.
  intros none_at.
  destruct (@default_project_id_fallback sample_repr)
    as (H1 & H2 & H3 & H4 & H5 & H6 & H7).
  split; [|split; [|split; [|split; [|split; [|split]]]]].
  - by apply (H1 _ []).
  - by apply (H2 _ [("globalConfig", VDict [])] []).
  - eapply H3; reflexivity.
  - apply (H4 _ (VStr "")); [reflexivity|by right].
  - apply H5; [reflexivity|discriminate].
  - apply (H6 (sample_world sample_doc) "Buy bread" (VStr "") false false
             (VInt 0) [] "P1" [VStr "1"; VStr "2"; VStr "4"] sample_tasks
             [VStr "1"; VStr "2"] [] 1700000000250);
      try reflexivity; [by right|discriminate|discriminate].
  - apply (H7 (sample_world sample_doc_no_default) "Buy bread" VNone false
             false (VInt 0) [] [VStr "1"; VStr "2"; VStr "4"] sample_tasks
             [VStr "1"] 1700000000250);
      try reflexivity; [by left|discriminate].
Defined.

(** ** cleanup_manual *)

(** The first id of the list is a string that [int] rejects: the
    [ValueError] is not the [AttributeError] that the loop catches, so the
    call ends there and nothing is uploaded. *)
Lemma cleanup_manual_manual_id_first (w : world) (s : string)
  (rest : list value) :
  get_path [VStr "task"; VStr "ids"] (remote w) = Ok (VList (VStr s :: rest)) ->
  int_of_str s = Raise ValueError ->
  SupProd.cleanup_manual w = (Raise ValueError, w).
Proof.
  intros Hids Hint.
  unfold SupProd.cleanup_manual.
  rewrite (bind_Ok SupProd.contents _ w w (remote w) eq_refl).
  unfold bind, on_local, for_in. rewrite Hids.
  cbn [length for_live]. rewrite Hids. cbn [lookup list_lookup].
  unfold SupProd.cleanup_body, try_except, bind, lift. simpl py_int.
  by rewrite Hint.
Qed.

(** C1, as the code runs: a manually made id that the loop reaches makes
    [cleanup_manual] raise [ValueError] with nothing uploaded, be it the
    first id or a later one; and of two numbered tasks filed under
    ["DEFAULT"] and ["TODAY"] only the first is removed, because the loop
    steps over the id that moves into the place of the removed one. *)
Theorem cleanup_manual_misses :
  SupProd.cleanup_manual (sample_world (filed_doc ["kf3Qx"; "1"]))
  = (Raise ValueError, sample_world (filed_doc ["kf3Qx"; "1"]))
  /\ SupProd.cleanup_manual (sample_world (filed_doc ["1"; "2"; "kf3Qx"]))
     = (Raise ValueError, sample_world (filed_doc ["1"; "2"; "kf3Qx"]))
  /\ exists w' : world,
      SupProd.cleanup_manual (sample_world (filed_doc ["1"; "2"])) = (Ok tt, w')
      /\ length (uploads w') = 1%nat
      /\ get_path [VStr "task"; VStr "ids"] (remote w') = Ok (VList [VStr "2"])
      /\ task_record (remote w') (VStr "2")
         = Ok (VDict [("title", VStr "2"); ("isDone", VBool false)])
      /\ get_path [VStr "project"; VStr "entities"; VStr "DEFAULT";
                   VStr "taskIds"] (remote w') = Ok (VList [VStr "2"])
      /\ get_path [VStr "tag"; VStr "entities"; VStr "TODAY"; VStr "taskIds"]
           (remote w') = Ok (VList [VStr "2"]).
Proof.
  split; [reflexivity|]. split; [reflexivity|].
  eexists. split; [reflexivity|]. by repeat split.
Qed.

(** *** The loop of cleanup_manual has all the rounds it can use *)

Lemma with_path_inv (ks : list string) (m : value -> res value) :
  forall c c',
    with_path (VStr <$> ks) m c = Ok c' ->
    exists x x',
      get_path (VStr <$> ks) c = Ok x /\ m x = Ok x' /\ c' = set_path ks x' c.
Proof.
  induction ks as [|k ks IH]; intros c c' Hrun.
  - by exists c, c'.
  - rewrite fmap_cons in *. cbn [with_path get_path] in *.
    destruct c as [| | | | | |d]; try discriminate.
    cbn [subscript] in *. destruct (dict_get k d) as [y|] eqn:Hd;
      [|discriminate].
    cbn [res_bind] in *.
    destruct (with_path (VStr <$> ks) m y) as [y'|] eqn:Hy; [|discriminate].
    destruct (IH y y' Hy) as (x & x' & Hget & Hm & ->).
    injection Hrun as <-. exists x, x'. repeat split; try done.
    cbn [set_path store]. by rewrite Hd.
Qed.

Lemma keeps_bind {A B : Type} (P : value -> Prop) (m : ST value A)
  (k : A -> ST value B) :
  keeps P m -> (forall a, keeps P (k a)) -> keeps P (bind m k).
Proof.
  intros Hm Hk c r c' HP. unfold bind.
  destruct (m c) as [[a|e] c1] eqn:E.
  - intros Hrun. exact (Hk a c1 r c' (Hm c _ c1 HP E) Hrun).
  - intros [= <- <-]. exact (Hm c _ c1 HP E).
Qed.

Lemma keeps_try_except {A : Type} (P : value -> Prop) (m h : ST value A)
  (e : exn) :
  keeps P m -> keeps P h -> keeps P (try_except m e h).
Proof.
  intros Hm Hh c r c' HP. unfold try_except.
  destruct (m c) as [[a|e'] c1] eqn:E.
  - intros [= <- <-]. exact (Hm c _ c1 HP E).
  - destruct (exn_eqb e' e).
    + intros Hrun. exact (Hh c1 r c' (Hm c _ c1 HP E) Hrun).
    + intros [= <- <-]. exact (Hm c _ c1 HP E).
Qed.

Lemma keeps_pure {A : Type} (P : value -> Prop) (r : res A) : keeps P (lift r).
Proof. by intros c r' c' HP [= <- <-]. Qed.

Lemma keeps_mutate (P : value -> Prop) (ks : list string)
  (m : value -> res value) :
  (forall c x x', P c -> get_path (VStr <$> ks) c = Ok x -> m x = Ok x' ->
                  P (set_path ks x' c)) ->
  keeps P (mutate (VStr <$> ks) m).
Proof.
  intros Hset c r c' HP. unfold mutate.
  destruct (with_path (VStr <$> ks) m c) as [c1|e] eqn:E.
  - intros [= <- <-].
    destruct (with_path_inv ks m c c1 E) as (x & x' & Hget & Hm & ->). eauto.
  - by intros [= <- <-].
Qed.

Lemma remove_first_length x l l' :
  remove_first x l = Some l' -> (length l' < length l)%nat.
Proof.
  revert l'. induction l as [|y l IH]; intros l'; simpl; [done|].
  destruct (py_eq y x).
  - intros [= <-]. lia.
  - destruct (remove_first x l) as [r|]; [|done].
    intros [= <-]. simpl. specialize (IH r eq_refl). lia.
Qed.

Lemma cleanup_body_keeps_ids (n : nat) (x : value) :
  keeps (ids_within n) (SupProd.cleanup_body x).
Proof.
  unfold SupProd.cleanup_body.
  apply keeps_try_except; [|by intros c r c' HP [= <- <-]].
  apply keeps_bind; [apply keeps_pure|intros _].
  apply keeps_bind; [|intros _; apply keeps_bind; [|intros _; apply keeps_bind;
                                                     intros]].
  - apply (keeps_mutate _ ["task"; "entities"]).
    intros c y y' (l & Hl & Hn) _ _. exists l. split; [|done].
    by rewrite get_set_second.
  - apply (keeps_mutate _ ["task"; "ids"]).
    intros c y y' (l & Hl & Hn) Hy Hrm. cbn [fmap list_fmap] in Hy.
    rewrite Hl in Hy. injection Hy as <-. unfold remove in Hrm.
    destruct (remove_first x l) as [l'|] eqn:El; [|discriminate].
    injection Hrm as <-. exists l'. split.
    + by apply (get_set_same ["task"; "ids"] _ c (VList l)).
    + apply remove_first_length in El. lia.
  - apply (keeps_mutate _ ["project"; "entities"; "DEFAULT"; "taskIds"]).
    intros c y y' (l & Hl & Hn) _ _. exists l. split; [|done].
    by rewrite get_set_other.
  - apply (keeps_mutate _ ["tag"; "entities"; "TODAY"; "taskIds"]).
    intros c y y' (l & Hl & Hn) _ _. exists l. split; [|done].
    by rewrite get_set_other.
Qed.

(** Rounds beyond the length of the list are never run: the loop of
    [cleanup_manual] gives the same result with any larger bound. *)
Lemma cleanup_loop_fuel (fuel extra : nat) :
  forall (i : nat) (c : value),
    ids_within (i + fuel) c ->
    for_live (fuel + extra) i [VStr "task"; VStr "ids"] SupProd.cleanup_body c
    = for_live fuel i [VStr "task"; VStr "ids"] SupProd.cleanup_body c.
Proof.
  induction fuel as [|fuel IH]; intros i c (l & Hl & Hn).
  - destruct extra as [|extra]; [done|]. cbn [Nat.add for_live].
    rewrite Hl. by rewrite lookup_ge_None_2 by lia.
  - cbn [Nat.add for_live]. rewrite Hl.
    destruct (l !! i) as [x|]; [|done].
    destruct (SupProd.cleanup_body x c) as [[[]|e] c'] eqn:E; [|done].
    apply IH.
    destruct (cleanup_body_keeps_ids (i + S fuel) x c _ c'
                (ex_intro _ l (conj Hl Hn)) E) as (l' & Hl' & Hn').
    exists l'. split; [done|lia].
Qed.

Lemma cleanup_for_in_fuel (c : value) (l : list value) (extra : nat) :
  get_path [VStr "task"; VStr "ids"] c = Ok (VList l) ->
  for_live (length l + extra) 0 [VStr "task"; VStr "ids"] SupProd.cleanup_body c
  = for_in [VStr "task"; VStr "ids"] SupProd.cleanup_body c.
Proof.
  intros Hl. unfold for_in. rewrite Hl. apply cleanup_loop_fuel.
  exists l. split; [done|lia].
Qed.

(** * Further properties *)

(** ** set_color *)

Lemma with_path_get_raise (p : list value) (m : value -> res value) (e : exn) :
  forall c, get_path p c = Raise e -> with_path p m c = Raise e.
Proof.
  induction p as [|k p IH]; intros c; simpl; [discriminate|].
  destruct (subscript c k) as [x|]; simpl; [|done].
  intros Hx. by rewrite (IH x Hx).
Qed.

(** X1: [set_color] sets the primary and the accent colour of the theme of the
    TODAY tag, keeps the other entries of the theme and the other parts of
    the document, and uploads once. *)
Theorem set_color_sets_theme (w : world) (color : value) (th : dict) (ms : Z) :
  get_path [VStr "tag"; VStr "entities"; VStr "TODAY"; VStr "theme"] (remote w)
  = Ok (VDict th) ->
  int_of_float (float_mul (clock w (ticks w)) f1000) = Ok ms ->
  exists (th' : dict) (doc' : value) (w' : world),
    SupProd.set_color color w = (Ok tt, w')
    /\ remote w' = doc'
    /\ uploads w' = uploads w ++ [doc']
    /\ get_path [VStr "tag"; VStr "entities"; VStr "TODAY"; VStr "theme"] doc'
       = Ok (VDict th')
    /\ dict_get "primary" th' = Some color
    /\ dict_get "accent" th' = Some color
    /\ (forall k, k <> "primary" -> k <> "accent" ->
                  dict_get k th' = dict_get k th)
    /\ getitem doc' "lastLocalSyncModelChange" = Ok (VInt ms)
    /\ (forall k, k <> "tag" -> k <> "lastLocalSyncModelChange" ->
                  getitem doc' k = getitem (remote w) k).
Proof.
  intros Hth Hms.
  set (ks := ["tag"; "entities"; "TODAY"; "theme"]).
  set (th1 := dict_set "primary" color th).
  set (th2 := dict_set "accent" color th1).
  set (c1 := set_path ks (VDict th1) (remote w)).
  set (c2 := set_path ks (VDict th2) c1).
  assert (E1 : mutate (VStr <$> ks) (setitem "primary" color) (remote w)
               = (Ok tt, c1)).
  { by apply (mutate_set ks _ _ (VDict th)). }
  assert (G1 : get_path (VStr <$> ks) c1 = Ok (VDict th1)).
  { by apply (get_set_same ks _ _ (VDict th)). }
  assert (E2 : mutate (VStr <$> ks) (setitem "accent" color) c1 = (Ok tt, c2)).
  { by apply (mutate_set ks _ _ (VDict th1)). }
  assert (G2 : get_path (VStr <$> ks) c2 = Ok (VDict th2)).
  { by apply (get_set_same ks _ _ (VDict th1)). }
  assert (D2 : exists d2, c2 = VDict d2).
  { apply set_path_dict, set_path_dict.
    apply get_path_cons_inv in Hth as (d & _ & -> & _). eauto. }
  destruct D2 as (d2 & D2).
  exists th2. eexists. eexists. split.
  - unfold SupProd.set_color.
    rewrite (bind_Ok SupProd.contents _ w w (remote w) eq_refl).
    assert (Hloc : (mutate [VStr "tag"; VStr "entities"; VStr "TODAY";
                            VStr "theme"] (setitem "primary" color) ;;
                    mutate [VStr "tag"; VStr "entities"; VStr "TODAY";
                            VStr "theme"] (setitem "accent" color)) (remote w)
                   = (Ok tt, VDict d2)).
    { rewrite <- D2. by rewrite (bind_Ok _ _ _ _ _ E1). }
    rewrite (bind_Ok _ _ _ _ _ (on_local_Ok _ _ _ w Hloc)).
    apply (update_contents_dict d2 w ms Hms).
  - cbn [remote uploads]. split; [done|]. split; [done|].
    rewrite get_path_stamp by done. rewrite <- D2.
    split; [exact G2|].
    split; [unfold th2, th1;
            by rewrite dict_get_set_ne, dict_get_set_eq|].
    split; [apply dict_get_set_eq|]. split.
    + intros k Hp Ha. unfold th2, th1. by rewrite !dict_get_set_ne.
    + split; [by rewrite getitem_dict, dict_get_set_eq|].
      intros k Hk1 Hk2. rewrite getitem_dict, dict_get_set_ne by done.
      rewrite <- getitem_dict, <- D2. unfold c2, c1, ks.
      by rewrite !getitem_set_other.
Qed.

Lemma set_color_sets_theme_witness :
  let doc := VDict [("tag",
                     VDict [("entities",
                             VDict [("TODAY",
                                     VDict [("taskIds", VList []);
                                            ("theme",
                                             VDict [("primary", VStr "#fff");
                                                    ("isAutoContrast",
                                                     VBool true)])])])]);
                    ("task", VDict [("ids", VList [])])] in
  exists (th' : dict) (doc' : value) (w' : world),
    SupProd.set_color (VStr "#29a1aa") (sample_world doc) = (Ok tt, w')
    /\ remote w' = doc'
    /\ uploads w' = [] ++ [doc']
    /\ get_path [VStr "tag"; VStr "entities"; VStr "TODAY"; VStr "theme"] doc'
       = Ok (VDict th')
    /\ dict_get "primary" th' = Some (VStr "#29a1aa")
    /\ dict_get "accent" th' = Some (VStr "#29a1aa")
    /\ (forall k, k <> "primary" -> k <> "accent" ->
                  dict_get k th'
                  = dict_get k [("primary", VStr "#fff");
                                ("isAutoContrast", VBool true)])
    /\ getitem doc' "lastLocalSyncModelChange" = Ok (VInt 1700000000250)
    /\ (forall k, k <> "tag" -> k <> "lastLocalSyncModelChange" ->
                  getitem doc' k = getitem doc k).
Proof.
  intros doc.
  apply (set_color_sets_theme (sample_world doc) (VStr "#29a1aa")
           [("primary", VStr "#fff"); ("isAutoContrast", VBool true)]
           1700000000250); reflexivity.
Defined.

(** X2: When the TODAY tag or its theme cannot be reached, [set_color] raises
    the error of the failed lookup and the world stays as it was. *)
Theorem set_color_unreachable_theme (w : world) (color : value) (e : exn) :
  get_path [VStr "tag"; VStr "entities"; VStr "TODAY"; VStr "theme"] (remote w)
  = Raise e ->
  SupProd.set_color color w = (Raise e, w).
Proof.
  intros Hth. unfold SupProd.set_color.
  rewrite (bind_Ok SupProd.contents _ w w (remote w) eq_refl).
  unfold bind at 1. unfold on_local, bind, mutate.
  by rewrite (with_path_get_raise _ _ e _ Hth).
Qed.

Lemma set_color_unreachable_theme_witness :
  SupProd.set_color (VStr "#29a1aa") (sample_world sample_doc)
  = (Raise KeyError, sample_world sample_doc).
Proof.
  apply (set_color_unreachable_theme (sample_world sample_doc)).
  reflexivity.
Defined.

(** ** Uploads *)

Lemma quiet_ret {A : Type} (a : A) : quiet (ret a : ST world A).
Proof. by intros w r w' [= <- <-]. Qed.

Lemma quiet_lift {A : Type} (x : res A) : quiet (lift x : ST world A).
Proof. by intros w r w' [= <- <-]. Qed.

Lemma quiet_bind {A B : Type} (m : ST world A) (k : A -> ST world B) :
  quiet m -> (forall a, quiet (k a)) -> quiet (bind m k).
Proof.
  intros Hm Hk w r w'. unfold bind.
  destruct (m w) as [[a|e] w1] eqn:E.
  - intros Hrun. destruct (Hm w _ w1 E) as [<- <-]. exact (Hk a w1 r w' Hrun).
  - intros [= <- <-]. exact (Hm w _ w1 E).
Qed.

Lemma quiet_try_except {A : Type} (m h : ST world A) (e : exn) :
  quiet m -> quiet h -> quiet (try_except m e h).
Proof.
  intros Hm Hh w r w'. unfold try_except.
  destruct (m w) as [[a|e'] w1] eqn:E.
  - intros [= <- <-]. exact (Hm w _ w1 E).
  - destruct (exn_eqb e' e).
    + intros Hrun. destruct (Hm w _ w1 E) as [<- <-]. exact (Hh w1 r w' Hrun).
    + intros [= <- <-]. exact (Hm w _ w1 E).
Qed.

Lemma quiet_contents : quiet SupProd.contents.
Proof. by intros w r w' [= <- <-]. Qed.

Lemma quiet_time_time : quiet time_time.
Proof. by intros w r w' [= <- <-]. Qed.

Lemma quiet_on_local (c : value) (body : ST value unit) :
  quiet (on_local c body).
Proof.
  intros w r w'. unfold on_local.
  destruct (body c) as [[[]|e] c']; by intros [= <- <-].
Qed.

Lemma quiet_map_st {A B : Type} (f : A -> ST world B) (l : list A) :
  (forall a, quiet (f a)) -> quiet (map_st f l).
Proof.
  intros Hf. induction l as [|x l IH]; [apply quiet_ret|].
  cbn [map_st]. apply quiet_bind; [apply Hf|intros y].
  apply quiet_bind; [exact IH|intros ys]. apply quiet_ret.
Qed.

Lemma quiet_attachment `{FloatRepr} (a : Attachment.t) :
  quiet (Attachment.attachment a).
Proof.
  unfold Attachment.attachment.
  apply quiet_bind; [apply quiet_time_time|intros now]. apply quiet_ret.
Qed.

Lemma quiet_new_task_id : quiet SupProd.new_task_id.
Proof.
  unfold SupProd.new_task_id.
  apply quiet_bind; [apply quiet_contents|intros c].
  apply quiet_bind; [apply quiet_lift|intros ids].
  destruct (new_task_id_loop _ _ _); apply quiet_lift.
Qed.

Lemma quiet_all_tasks : quiet SupProd.all_tasks.
Proof.
  unfold SupProd.all_tasks.
  repeat (apply quiet_bind; [first [apply quiet_contents|apply quiet_lift]|
                             intros ?]).
  apply quiet_lift.
Qed.

Lemma quiet_tasks : quiet SupProd.tasks.
Proof.
  unfold SupProd.tasks.
  apply quiet_bind; [apply quiet_all_tasks|intros xs]. apply quiet_lift.
Qed.

Lemma quiet_default_project_id : quiet SupProd.default_project_id.
Proof.
  unfold SupProd.default_project_id.
  apply quiet_try_except; [|apply quiet_ret].
  apply quiet_bind; [apply quiet_contents|intros c].
  apply quiet_bind; [apply quiet_lift|intros v]. apply quiet_ret.
Qed.

Lemma quiet_get_task_by_title (title : string) :
  quiet (SupProd.get_task_by_title title).
Proof.
  unfold SupProd.get_task_by_title.
  apply quiet_bind; [apply quiet_tasks|intros xs].
  apply quiet_bind; [apply quiet_lift|intros cs]. apply quiet_ret.
Qed.

Lemma writes_once_quiet {A : Type} (m : ST world A) : quiet m -> writes_once m.
Proof. intros Hm w r w' Hrun. left. exact (Hm w r w' Hrun). Qed.

Lemma writes_once_bind {A B : Type} (m : ST world A) (k : A -> ST world B) :
  quiet m -> (forall a, writes_once (k a)) -> writes_once (bind m k).
Proof.
  intros Hm Hk w r w'. unfold bind.
  destruct (m w) as [[a|e] w1] eqn:E.
  - intros Hrun. destruct (Hm w _ w1 E) as [Hr Hu].
    unfold wrote_at_most_once. rewrite <- Hr, <- Hu.
    exact (Hk a w1 r w' Hrun).
  - intros [= <- <-]. left. exact (Hm w _ w1 E).
Qed.

Lemma writes_once_update_contents (contents : value) :
  writes_once (SupProd.update_contents contents).
Proof.
  intros w r w'. unfold SupProd.update_contents, bind, time_time, lift.
  destruct (int_of_float _) as [ms|e]; [|intros [= <- <-]; by left].
  destruct (setitem _ _ contents) as [c|e]; [|intros [= <- <-]; by left].
  unfold files_upload. intros [= <- <-]. right. by exists tt.
Qed.

(** X3: [create_task], [cleanup_manual] and [set_color] upload at most once in a
    call, what they upload is the remote document afterwards, and a call
    that raises has uploaded nothing and left the remote document as it
    was. *)
Theorem uploads_at_most_once `{FloatRepr} :
  (forall (task_title : string) (project_id : value)
          (is_today is_unique : bool) (time_estimate : value)
          (attachments : list Attachment.t) (w : world) (r : res unit)
          (w' : world),
      SupProd.create_task task_title project_id is_today is_unique
        time_estimate attachments w = (r, w') ->
      wrote_at_most_once w r w')
  /\ (forall (w : world) (r : res unit) (w' : world),
         SupProd.cleanup_manual w = (r, w') -> wrote_at_most_once w r w')
  /\ (forall (color : value) (w : world) (r : res unit) (w' : world),
         SupProd.set_color color w = (r, w') -> wrote_at_most_once w r w').
Proof.
  split; [|split].
  - intros task_title project_id is_today is_unique time_estimate attachments.
    change (writes_once (SupProd.create_task task_title project_id is_today
                           is_unique time_estimate attachments)).
    unfold SupProd.create_task.
    apply writes_once_bind.
    { destruct (truthy project_id);
        [apply quiet_ret|apply quiet_default_project_id]. }
    intros r. apply writes_once_bind.
    { destruct is_unique; [|apply quiet_ret].
      apply quiet_bind; [apply quiet_get_task_by_title|intros x].
      apply quiet_ret. }
    intros [|]; [apply writes_once_quiet, quiet_ret|].
    apply writes_once_bind; [apply quiet_new_task_id|intros task_id].
    apply writes_once_bind; [apply quiet_contents|intros c].
    apply writes_once_bind; [apply quiet_on_local|intros c1].
    apply writes_once_bind;
      [apply quiet_map_st; intros a; apply quiet_attachment|intros stored].
    apply writes_once_bind; [apply quiet_on_local|intros c2].
    apply writes_once_update_contents.
  - change (writes_once SupProd.cleanup_manual). unfold SupProd.cleanup_manual.
    apply writes_once_bind; [apply quiet_contents|intros c].
    apply writes_once_bind; [apply quiet_on_local|intros c1].
    apply writes_once_update_contents.
  - intros color. change (writes_once (SupProd.set_color color)).
    unfold SupProd.set_color.
    apply writes_once_bind; [apply quiet_contents|intros c].
    apply writes_once_bind; [apply quiet_on_local|intros c1].
    apply writes_once_update_contents.
Qed.

Lemma uploads_at_most_once_witness :
  wrote_at_most_once (A := unit) (sample_world (filed_doc ["1"; "2"; "kf3Qx"]))
    (Raise ValueError) (sample_world (filed_doc ["1"; "2"; "kf3Qx"]))
  /\ (exists w', wrote_at_most_once (A := unit) (sample_world sample_doc)
                   (Ok tt) w')
  /\ wrote_at_most_once (A := unit) (sample_world sample_doc)
       (Raise KeyError) (sample_world sample_doc).
Proof.
  destruct (@uploads_at_most_once sample_repr) as (H1 & H2 & H3).
  split; [|split].
  - apply H2. reflexivity.
  - eexists. apply (H1 "Buy bread" VNone true false (VInt 0) []).
    vm_compute. reflexivity.
  - apply (H3 (VStr "#fff")). reflexivity.
Defined.

(** ** Listing tasks *)

Lemma all_tasks_unfold (w : world) (ids : list value) :
  get_path [VStr "task"; VStr "ids"] (remote w) = Ok (VList ids) ->
  SupProd.all_tasks w
  = (res_map (fun x => let? r := task_record (remote w) x in
                       Ok (Task.New r)) ids, w).
Proof.
  intros E. unfold SupProd.all_tasks, SupProd.contents, files_download, bind.
  unfold lift; simpl. unfold task_record.
  destruct (remote w) as [| | | | | |top]; try discriminate.
  rewrite get_path_cons_dict in E. rewrite !get_path_cons_dict.
  rewrite getitem_dict.
  destruct (dict_get "task" top) as [tc|]; [|discriminate].
  destruct tc as [| | | | | |tc]; try discriminate.
  rewrite get_path_cons_dict in E. rewrite !get_path_cons_dict.
  rewrite !getitem_dict.
  destruct (dict_get "ids" tc) as [l|]; [|discriminate].
  injection E as ->. simpl. f_equal.
  apply res_map_ext. intros x. by destruct (dict_get "entities" tc).
Qed.

Lemma res_map_records (doc : value) (ids recs : list value) :
  Forall2 (fun x r => task_record doc x = Ok r) ids recs ->
  res_map (fun x => let? r := task_record doc x in Ok (Task.New r)) ids
  = Ok (Task.New <$> recs).
Proof.
  induction 1 as [|x r ids recs Hr _ IH]; [done|].
  cbn [res_map]. rewrite Hr, IH. reflexivity.
Qed.

Lemma res_filter_total {A : Type} (p : A -> res bool) (f : A -> bool)
  (l : list A) :
  Forall (fun x => p x = Ok (f x)) l ->
  res_filter p l = Ok (List.filter f l).
Proof.
  induction 1 as [|x l Hx _ IH]; [done|].
  cbn [res_filter List.filter]. rewrite Hx, IH. cbn [res_bind].
  by destruct (f x).
Qed.

Lemma filter_fmap_New (f : value -> bool) (recs : list value) :
  List.filter (fun x => f (Task._task_details x)) (Task.New <$> recs)
  = Task.New <$> List.filter f recs.
Proof.
  induction recs as [|r recs IH]; [done|]. cbn [fmap list_fmap List.filter].
  cbn [Task._task_details]. fold (fmap (M := list) Task.New recs).
  rewrite IH. by destruct (f r).
Qed.

Lemma tasks_of_records (w : world) (ids recs : list value) :
  get_path [VStr "task"; VStr "ids"] (remote w) = Ok (VList ids) ->
  Forall2 (fun x r => task_record (remote w) x = Ok r) ids recs ->
  Forall (fun r => exists d, getitem r "isDone" = Ok d) recs ->
  SupProd.tasks w = (Ok (Task.New <$> List.filter is_open recs), w).
Proof.
  intros Hids Hrecs Hdone. rewrite (tasks_unfold w ids Hids).
  rewrite (res_map_records _ _ _ Hrecs). cbn [res_bind].
  rewrite (res_filter_total _ (fun x => is_open (Task._task_details x))).
  - by rewrite filter_fmap_New.
  - apply Forall_fmap. eapply Forall_impl; [exact Hdone|].
    intros r (d & Hd). unfold Task.done, is_open. cbn. by rewrite Hd.
Qed.

(** X4: [all_tasks] gives one view per task id, in the order of the ids, done or
    not; [tasks] gives those of them that are not done, in the same order. *)
Theorem tasks_are_open_all_tasks (w : world) (ids recs : list value) :
  get_path [VStr "task"; VStr "ids"] (remote w) = Ok (VList ids) ->
  Forall2 (fun x r => task_record (remote w) x = Ok r) ids recs ->
  Forall (fun r => exists d, getitem r "isDone" = Ok d) recs ->
  SupProd.all_tasks w = (Ok (Task.New <$> recs), w)
  /\ SupProd.tasks w = (Ok (Task.New <$> List.filter is_open recs), w).
Proof.
  intros Hids Hrecs Hdone. split.
  - by rewrite (all_tasks_unfold w ids Hids), (res_map_records _ _ _ Hrecs).
  - by apply (tasks_of_records w ids recs).
Qed.

Lemma tasks_are_open_all_tasks_witness :
  SupProd.all_tasks (sample_world sample_doc)
  = (Ok (Task.New <$> sample_tasks.*2), sample_world sample_doc)
  /\ SupProd.tasks (sample_world sample_doc)
     = (Ok (Task.New <$> List.filter is_open (sample_tasks.*2)),
        sample_world sample_doc).
Proof.
  apply (tasks_are_open_all_tasks (sample_world sample_doc)
           [VStr "1"; VStr "2"; VStr "4"]).
  - reflexivity.
  - repeat constructor.
  - repeat constructor; eexists; reflexivity.
Defined.

(** X5: A task id without a record makes every listing fail with [KeyError],
    whatever the tasks before and after it are. *)
Theorem listing_fails_on_dangling_id (w : world) (pre post : list value)
  (s : string) (ents : dict) (title : string) :
  get_path [VStr "task"; VStr "ids"] (remote w)
  = Ok (VList (pre ++ VStr s :: post)) ->
  Forall (fun x => exists r, task_record (remote w) x = Ok r) pre ->
  get_path [VStr "task"; VStr "entities"] (remote w) = Ok (VDict ents) ->
  dict_get s ents = None ->
  SupProd.all_tasks w = (Raise KeyError, w)
  /\ SupProd.tasks w = (Raise KeyError, w)
  /\ SupProd.get_task_by_title title w = (Raise KeyError, w).
Proof.
  intros Hids Hpre Hents Hs.
  assert (Hmap : res_map (fun x => let? r := task_record (remote w) x in
                                   Ok (Task.New r)) (pre ++ VStr s :: post)
                 = Raise KeyError).
  { rewrite res_map_app.
    assert (exists xs, res_map (fun x => let? r := task_record (remote w) x in
                                         Ok (Task.New r)) pre = Ok xs)
      as (xs & ->).
    { clear -Hpre. induction Hpre as [|x pre (r & Hr) _ (xs & IH)].
      - by exists [].
      - exists (Task.New r :: xs). cbn [res_map]. by rewrite Hr, IH. }
    cbn [res_bind res_map]. unfold task_record at 1. rewrite Hents.
    cbn [res_bind subscript]. by rewrite Hs. }
  assert (Htasks : SupProd.tasks w = (Raise KeyError, w)).
  { by rewrite (tasks_unfold w _ Hids), Hmap. }
  split; [|split].
  - by rewrite (all_tasks_unfold w _ Hids), Hmap.
  - exact Htasks.
  - unfold SupProd.get_task_by_title, bind. by rewrite Htasks.
Qed.

Lemma listing_fails_on_dangling_id_witness :
  let w := sample_world
             (VDict [("task",
                      VDict [("ids", VList [VStr "1"; VStr "7"; VStr "2"]);
                             ("entities", VDict sample_tasks)])]) in
  SupProd.all_tasks w = (Raise KeyError, w)
  /\ SupProd.tasks w = (Raise KeyError, w)
  /\ SupProd.get_task_by_title "Buy milk" w = (Raise KeyError, w).
Proof.
  intros w.
  apply (listing_fails_on_dangling_id w [VStr "1"] [VStr "2"] "7" sample_tasks);
    try reflexivity.
  constructor; [|constructor]. eexists. reflexivity.
Defined.

Lemma res_filter_refine (p : Task.t -> res bool) (f g : value -> bool)
  (recs : list value) :
  Forall (fun r => f r = true -> p (Task.New r) = Ok (g r)) recs ->
  res_filter p (Task.New <$> List.filter f recs)
  = Ok (Task.New <$> List.filter (fun r => f r && g r) recs).
Proof.
  induction 1 as [|r recs Hr _ IH]; [done|].
  cbn [List.filter]. destruct (f r) eqn:Ef; cbn [andb]; [|exact IH].
  rewrite fmap_cons. cbn [res_filter]. rewrite (Hr eq_refl), IH.
  cbn [res_bind]. by destruct (g r).
Qed.

(** X6: [get_task_by_title] returns the first task, in the order of the ids,
    that is not done and whose stored title is the title asked for once
    stripped; it returns nothing when there is none. *)
Theorem get_task_by_title_first (w : world) (title : string)
  (ids recs : list value) :
  get_path [VStr "task"; VStr "ids"] (remote w) = Ok (VList ids) ->
  Forall2 (fun x r => task_record (remote w) x = Ok r) ids recs ->
  Forall (fun r => exists d, getitem r "isDone" = Ok d) recs ->
  Forall (fun r => is_open r = true ->
                   exists t, getitem r "title" = Ok (VStr t)) recs ->
  SupProd.get_task_by_title title w
  = (Ok (Task.New <$> head (List.filter
                              (fun r => is_open r && titled title r) recs)),
     w).
Proof.
  intros Hids Hrecs Hdone Htitles.
  unfold SupProd.get_task_by_title, bind.
  rewrite (tasks_of_records w ids recs Hids Hrecs Hdone). unfold lift.
  rewrite (res_filter_refine _ is_open (titled title)).
  - unfold ret. by destruct (List.filter _ recs).
  - eapply Forall_impl; [exact Htitles|]. intros r Hr Hopen.
    destruct (Hr Hopen) as (t & Ht). unfold Task.title, titled. cbn.
    by rewrite Ht.
Qed.

Lemma get_task_by_title_first_witness :
  SupProd.get_task_by_title "Call Bob" (sample_world sample_doc)
  = (Ok (Task.New <$> head (List.filter
                              (fun r => is_open r && titled "Call Bob" r)
                              (sample_tasks.*2))),
     sample_world sample_doc).
Proof.
  apply (get_task_by_title_first (sample_world sample_doc) "Call Bob"
           [VStr "1"; VStr "2"; VStr "4"]).
  - reflexivity.
  - repeat constructor.
  - repeat constructor; eexists; reflexivity.
  - repeat constructor; intros _; eexists; reflexivity.
Defined.

Lemma tasks_with_tag_of_records (w : world) (tag : string)
  (ids recs : list value) :
  get_path [VStr "task"; VStr "ids"] (remote w) = Ok (VList ids) ->
  Forall2 (fun x r => task_record (remote w) x = Ok r) ids recs ->
  Forall (fun r => exists d, getitem r "isDone" = Ok d) recs ->
  Forall (fun r => is_open r = true ->
                   exists ts, getitem r "tagIds" = Ok (VList ts)) recs ->
  SupProd.get_tasks_with_tag tag w
  = (Ok (Task.New <$> List.filter (fun r => is_open r && has_tag tag r) recs),
     w).
Proof.
  intros Hids Hrecs Hdone Htags.
  unfold SupProd.get_tasks_with_tag, bind.
  rewrite (tasks_of_records w ids recs Hids Hrecs Hdone). unfold lift.
  rewrite (res_filter_refine _ is_open (has_tag tag)); [done|].
  eapply Forall_impl; [exact Htags|]. intros r Hr Hopen.
  destruct (Hr Hopen) as (ts & Hts). unfold Task.tags, has_tag. cbn.
  by rewrite Hts.
Qed.

(** X7: [get_tasks_with_tag] gives the tasks that are not done and whose tag
    ids contain the tag, in the order of the ids; [todays_tasks] is that for
    the tag ["TODAY"]. *)
Theorem get_tasks_with_tag_spec (w : world) (tag : string)
  (ids recs : list value) :
  get_path [VStr "task"; VStr "ids"] (remote w) = Ok (VList ids) ->
  Forall2 (fun x r => task_record (remote w) x = Ok r) ids recs ->
  Forall (fun r => exists d, getitem r "isDone" = Ok d) recs ->
  Forall (fun r => is_open r = true ->
                   exists ts, getitem r "tagIds" = Ok (VList ts)) recs ->
  SupProd.get_tasks_with_tag tag w
  = (Ok (Task.New <$> List.filter (fun r => is_open r && has_tag tag r) recs),
     w)
  /\ SupProd.todays_tasks w
     = (Ok (Task.New <$> List.filter
                           (fun r => is_open r && has_tag "TODAY" r) recs),
        w).
Proof.
  intros Hids Hrecs Hdone Htags.
  split; by apply (tasks_with_tag_of_records w _ ids recs).
Qed.

Lemma get_tasks_with_tag_spec_witness :
  SupProd.get_tasks_with_tag "TODAY" (sample_world sample_doc)
  = (Ok (Task.New <$> List.filter
                        (fun r => is_open r && has_tag "TODAY" r)
                        (sample_tasks.*2)),
     sample_world sample_doc)
  /\ SupProd.todays_tasks (sample_world sample_doc)
     = (Ok (Task.New <$> List.filter
                           (fun r => is_open r && has_tag "TODAY" r)
                           (sample_tasks.*2)),
        sample_world sample_doc).
Proof.
  apply (get_tasks_with_tag_spec (sample_world sample_doc) "TODAY"
           [VStr "1"; VStr "2"; VStr "4"]).
  - reflexivity.
  - repeat constructor.
  - repeat constructor; eexists; reflexivity.
  - repeat constructor; intros _; eexists; reflexivity.
Defined.

Lemma project_tasks_of_records (w : world) (self : Project.t)
  (ids recs : list value) :
  get_path [VStr "task"; VStr "ids"] (remote w) = Ok (VList ids) ->
  Forall2 (fun x r => task_record (remote w) x = Ok r) ids recs ->
  Forall (fun r => exists d, getitem r "isDone" = Ok d) recs ->
  Forall (fun r => exists p, getitem r "projectId" = Ok p) recs ->
  ProjectMethods.tasks self w
  = (Ok (Task.New <$> List.filter
                        (fun r => is_open r
                                  && in_project (Project.id self) r) recs),
     w).
Proof.
  intros Hids Hrecs Hdone Hproj.
  unfold ProjectMethods.tasks, bind.
  rewrite (tasks_of_records w ids recs Hids Hrecs Hdone). unfold lift.
  rewrite (res_filter_refine _ is_open (in_project (Project.id self)));
    [done|].
  eapply Forall_impl; [exact Hproj|]. intros r (p & Hp) _.
  unfold Task.project_id, in_project. cbn. by rewrite Hp.
Qed.

(** X8: The tasks of a project are the tasks that are not done and whose
    [projectId] equals the id of the project, in the order of the ids;
    [all_tasks] of the project has the done ones as well. *)
Theorem project_tasks_spec (w : world) (self : Project.t)
  (ids recs : list value) :
  get_path [VStr "task"; VStr "ids"] (remote w) = Ok (VList ids) ->
  Forall2 (fun x r => task_record (remote w) x = Ok r) ids recs ->
  Forall (fun r => exists d, getitem r "isDone" = Ok d) recs ->
  Forall (fun r => exists p, getitem r "projectId" = Ok p) recs ->
  ProjectMethods.tasks self w
  = (Ok (Task.New <$> List.filter
                        (fun r => is_open r
                                  && in_project (Project.id self) r) recs),
     w)
  /\ ProjectMethods.all_tasks self w
     = (Ok (Task.New <$> List.filter (in_project (Project.id self)) recs), w).
Proof.
  intros Hids Hrecs Hdone Hproj. split.
  - by apply (project_tasks_of_records w self ids recs).
  - unfold ProjectMethods.all_tasks, bind.
    rewrite (all_tasks_unfold w ids Hids), (res_map_records _ _ _ Hrecs).
    unfold lift.
    rewrite (res_filter_total _ (fun x => in_project (Project.id self)
                                            (Task._task_details x))).
    + by rewrite filter_fmap_New.
    + apply Forall_fmap. eapply Forall_impl; [exact Hproj|].
      intros r (p & Hp). unfold Task.project_id, in_project. cbn.
      by rewrite Hp.
Qed.

Lemma project_tasks_spec_witness :
  let self := Project.New (VStr "P1") (VDict [("title", VStr "Work")]) in
  ProjectMethods.tasks self (sample_world sample_doc)
  = (Ok (Task.New <$> List.filter
                        (fun r => is_open r && in_project (VStr "P1") r)
                        (sample_tasks.*2)),
     sample_world sample_doc)
  /\ ProjectMethods.all_tasks self (sample_world sample_doc)
     = (Ok (Task.New <$> List.filter (in_project (VStr "P1"))
                           (sample_tasks.*2)),
        sample_world sample_doc).
Proof.
  intros self.
  apply (project_tasks_spec (sample_world sample_doc) self
           [VStr "1"; VStr "2"; VStr "4"]).
  - reflexivity.
  - repeat constructor.
  - repeat constructor; eexists; reflexivity.
  - repeat constructor; eexists; reflexivity.
Defined.

(** ** The command line *)

Lemma in_world_quiet {A : Type} (m : ST world A) (c : console) (r : res A) :
  m (con_world c) = (r, con_world c) -> in_world m c = (r, c).
Proof. intros E. unfold in_world. rewrite E. by destruct c. Qed.

Lemma print_titles_spec (rs : list value) (ts : list string) :
  Forall2 (fun r t => getitem r "title" = Ok (VStr t)) rs ts ->
  forall c : console,
    Main.print_titles (Task.New <$> rs) c
    = (Ok tt, {| con_world := con_world c;
                 stdout := stdout c ++ (strip <$> ts) |}).
Proof.
  induction 1 as [|r t rs ts Hr _ IH]; intros c.
  - cbn. rewrite app_nil_r. by destruct c.
  - rewrite !fmap_cons. cbn [Main.print_titles].
    unfold bind at 1. unfold lift at 1, Task.title. cbn [Task._task_details].
    rewrite Hr. cbn [res_bind]. unfold bind at 1, print at 1.
    rewrite IH. cbn [con_world stdout]. by rewrite <- app_assoc.
Qed.

(** X9: The command [list] without a project prints the stripped titles of the
    tasks that are not done, the last task id first; with [--today] only
    those tagged ["TODAY"].  It changes nothing in the world. *)
Theorem list_prints_newest_first (c : console) (a : Main.args)
  (ids recs : list value) (ts : list string) :
  Main.project_title a = None \/ Main.project_title a = Some "" ->
  get_path [VStr "task"; VStr "ids"] (remote (con_world c)) = Ok (VList ids) ->
  Forall2 (fun x r => task_record (remote (con_world c)) x = Ok r) ids recs ->
  Forall (fun r => exists d, getitem r "isDone" = Ok d) recs ->
  Forall (fun r => is_open r = true ->
                   exists ts, getitem r "tagIds" = Ok (VList ts)) recs ->
  Forall2 (fun r t => getitem r "title" = Ok (VStr t))
    (List.filter (fun r => is_open r
                           && (if Main.today a then has_tag "TODAY" r
                               else true)) recs) ts ->
  Main.list_f a c
  = (Ok tt, {| con_world := con_world c;
               stdout := stdout c ++ reverse (strip <$> ts) |}).
Proof.
  intros Hproj Hids Hrecs Hdone Htags Htitles.
  set (shown := List.filter (fun r => is_open r
                                      && (if Main.today a
                                          then has_tag "TODAY" r
                                          else true)) recs) in *.
  assert (Hsel : (if Main.today a then SupProd.todays_tasks
                  else SupProd.tasks) (con_world c)
                 = (Ok (Task.New <$> shown), con_world c)).
  { unfold shown. destruct (Main.today a).
    - by apply (tasks_with_tag_of_records (con_world c) "TODAY" ids recs).
    - rewrite (tasks_of_records _ ids recs Hids Hrecs Hdone).
      do 3 f_equal. clear. induction recs as [|r recs IH]; [done|].
      cbn [List.filter]. rewrite andb_true_r, IH. done. }
  assert (Hlist : Main.get_list_tasks a (con_world c)
                  = (Ok (Task.New <$> reverse shown), con_world c)).
  { unfold Main.get_list_tasks.
    destruct Hproj as [-> | ->]; cbn [negb String.eqb];
      rewrite (bind_Ok _ _ _ _ _ Hsel); unfold ret;
      by rewrite fmap_reverse. }
  unfold Main.list_f.
  rewrite (bind_Ok _ _ _ _ _ (in_world_quiet _ c _ Hlist)).
  rewrite (print_titles_spec (reverse shown) (reverse ts)).
  - by rewrite fmap_reverse.
  - by apply Forall2_reverse.
Qed.

Lemma list_prints_newest_first_witness :
  let c := {| con_world := sample_world sample_doc; stdout := [] |} in
  Main.list_f {| Main.project_title := None; Main.today := false |} c
  = (Ok tt, {| con_world := sample_world sample_doc;
               stdout := [] ++ reverse (strip <$> ["Buy milk"; " Call Bob "]) |})
  /\ Main.list_f {| Main.project_title := Some ""; Main.today := true |} c
     = (Ok tt, {| con_world := sample_world sample_doc;
                  stdout := [] ++ reverse (strip <$> ["Buy milk"]) |}).
Proof.
  intros c. split.
  - apply (list_prints_newest_first c _ [VStr "1"; VStr "2"; VStr "4"]
             (sample_tasks.*2)).
    + by left.
    + reflexivity.
    + repeat constructor.
    + repeat constructor; eexists; reflexivity.
    + repeat constructor; intros _; eexists; reflexivity.
    + repeat constructor.
  - apply (list_prints_newest_first c _ [VStr "1"; VStr "2"; VStr "4"]
             (sample_tasks.*2)).
    + by right.
    + reflexivity.
    + repeat constructor.
    + repeat constructor; eexists; reflexivity.
    + repeat constructor; intros _; eexists; reflexivity.
    + repeat constructor.
Defined.

(** X10: Asked for the tasks of today of a project, the command line finds the
    project and then fails: a project has [tasks] but no [todays_tasks].
    Both [list] and [urls] raise [AttributeError] and print nothing. *)
Theorem project_today_is_attribute_error `{ValueStr} (c : console)
  (name : string) (p : Project.t) :
  name <> "" ->
  SupProd.get_project_by_name name true (con_world c) = (Ok p, con_world c) ->
  Main.list_f {| Main.project_title := Some name; Main.today := true |} c
  = (Raise AttributeError, c)
  /\ Main.urls_list_f {| Main.project_title := Some name; Main.today := true |}
       c = (Raise AttributeError, c).
Proof.
  intros Hname Hp.
  assert (Hlist : Main.get_list_tasks
                    {| Main.project_title := Some name; Main.today := true |}
                    (con_world c) = (Raise AttributeError, con_world c)).
  { unfold Main.get_list_tasks. cbn [Main.project_title Main.today].
    destruct (String.eqb_spec name ""); [done|]. cbn [negb].
    by rewrite (bind_Ok _ _ _ _ _ Hp). }
  split.
  - unfold Main.list_f, bind. by rewrite (in_world_quiet _ c _ Hlist).
  - unfold Main.urls_list_f, bind. by rewrite (in_world_quiet _ c _ Hlist).
Qed.

Lemma project_today_is_attribute_error_witness :
  let c := {| con_world := sample_world sample_doc; stdout := [] |} in
  Main.list_f {| Main.project_title := Some "work"; Main.today := true |} c
  = (Raise AttributeError, c)
  /\ @Main.urls_list_f sample_str
       {| Main.project_title := Some "work"; Main.today := true |} c
     = (Raise AttributeError, c).
Proof.
  intros c.
  apply (@project_today_is_attribute_error sample_str c "work"
           (Project.New (VStr "P1")
              (VDict [("title", VStr "Work");
                      ("taskIds", VList [VStr "1"; VStr "2"])]))).
  - discriminate.
  - reflexivity.
Defined.

(** X11: The command [list] with a project prints the stripped titles of the
    tasks of that project that are not done, the last task id first. *)
Theorem list_prints_project_tasks (c : console) (name : string)
  (p : Project.t) (ids recs : list value) (ts : list string) :
  name <> "" ->
  SupProd.get_project_by_name name true (con_world c) = (Ok p, con_world c) ->
  get_path [VStr "task"; VStr "ids"] (remote (con_world c)) = Ok (VList ids) ->
  Forall2 (fun x r => task_record (remote (con_world c)) x = Ok r) ids recs ->
  Forall (fun r => exists d, getitem r "isDone" = Ok d) recs ->
  Forall (fun r => exists q, getitem r "projectId" = Ok q) recs ->
  Forall2 (fun r t => getitem r "title" = Ok (VStr t))
    (List.filter (fun r => is_open r && in_project (Project.id p) r) recs)
    ts ->
  Main.list_f {| Main.project_title := Some name; Main.today := false |} c
  = (Ok tt, {| con_world := con_world c;
               stdout := stdout c ++ reverse (strip <$> ts) |}).
Proof.
  intros Hname Hp Hids Hrecs Hdone Hproj Htitles.
  set (shown := List.filter (fun r => is_open r
                                      && in_project (Project.id p) r) recs)
    in *.
  assert (Hlist : Main.get_list_tasks
                    {| Main.project_title := Some name; Main.today := false |}
                    (con_world c)
                  = (Ok (Task.New <$> reverse shown), con_world c)).
  { unfold Main.get_list_tasks. cbn [Main.project_title Main.today].
    destruct (String.eqb_spec name ""); [done|]. cbn [negb].
    rewrite (bind_Ok _ _ _ _ _ Hp).
    rewrite (bind_Ok _ _ _ _ _
               (project_tasks_of_records (con_world c) p ids recs Hids Hrecs
                  Hdone Hproj)). unfold ret. by rewrite fmap_reverse. }
  unfold Main.list_f.
  rewrite (bind_Ok _ _ _ _ _ (in_world_quiet _ c _ Hlist)).
  rewrite (print_titles_spec (reverse shown) (reverse ts)).
  - by rewrite fmap_reverse.
  - by apply Forall2_reverse.
Qed.

Lemma list_prints_project_tasks_witness :
  let c := {| con_world := sample_world sample_doc; stdout := ["$ list"] |} in
  Main.list_f {| Main.project_title := Some "WORK"; Main.today := false |} c
  = (Ok tt, {| con_world := sample_world sample_doc;
               stdout := ["$ list"]
                         ++ reverse (strip <$> ["Buy milk"; " Call Bob "]) |}).
Proof.
  intros c.
  apply (list_prints_project_tasks c "WORK"
           (Project.New (VStr "P1")
              (VDict [("title", VStr "Work");
                      ("taskIds", VList [VStr "1"; VStr "2"])]))
           [VStr "1"; VStr "2"; VStr "4"] (sample_tasks.*2)).
  - discriminate.
  - reflexivity.
  - reflexivity.
  - repeat constructor.
  - repeat constructor; eexists; reflexivity.
  - repeat constructor; eexists; reflexivity.
  - repeat constructor.
Defined.

Lemma print_links_spec `{ValueStr} (r : value) (t : string)
  (stored : list value) :
  getitem r "title" = Ok (VStr t) ->
  Forall readable_attachment stored ->
  forall c : console,
    Main.print_links (Task.New r) stored c
    = (Ok tt, {| con_world := con_world c;
                 stdout := stdout c
                           ++ (link_line (strip t) <$> link_paths stored) |}).
Proof.
  intros Ht. induction 1 as [|a stored (p & ti & ty & Hp & Hti & Hty) _ IH];
    intros c.
  - cbn. rewrite app_nil_r. by destruct c.
  - cbn [Main.print_links]. unfold bind at 1. unfold lift at 1.
    unfold Attachment.from_attachment. rewrite Hp, Hti, Hty. cbn [res_bind].
    cbn [Attachment.attachment_type Attachment.path].
    unfold link_paths. cbn [omap list_omap]. rewrite Hty, Hp.
    fold (link_paths stored).
    destruct (py_eq ty (VStr "LINK")).
    + unfold bind at 1. unfold bind at 1. unfold lift at 1, Task.title.
      cbn [Task._task_details]. rewrite Ht. cbn [res_bind].
      unfold print at 1. rewrite IH. cbn [con_world stdout].
      rewrite fmap_cons. by rewrite <- app_assoc.
    + unfold bind at 1. unfold ret at 1. by rewrite IH.
Qed.

Lemma print_urls_spec `{ValueStr} (rs : list value)
  (rows : list (string * list value)) :
  Forall2 (fun r row =>
             getitem r "title" = Ok (VStr row.1)
             /\ getitem r "attachments" = Ok (VList row.2)
             /\ Forall readable_attachment row.2) rs rows ->
  forall c : console,
    Main.print_urls (Task.New <$> rs) c
    = (Ok tt,
       {| con_world := con_world c;
          stdout := stdout c
                    ++ concat ((fun row => link_line (strip row.1)
                                             <$> link_paths row.2) <$> rows) |}).
Proof.
  induction 1 as [|r row rs rows (Ht & Ha & Hall) _ IH]; intros c.
  - cbn. rewrite app_nil_r. by destruct c.
  - rewrite !fmap_cons. cbn [Main.print_urls concat].
    unfold bind at 1. unfold lift at 1, TaskMethods.attachments.
    cbn [Task._task_details]. rewrite Ha. cbn [res_bind iter].
    unfold bind at 1. rewrite (print_links_spec r row.1 row.2 Ht Hall).
    rewrite IH. cbn [con_world stdout]. by rewrite <- app_assoc.
Qed.

(** X12: The command [urls] without a project prints, for the tasks that are not
    done, the last task id first, one line per stored attachment of type
    ["LINK"], in the order of the attachments: the path, a tab and the
    stripped title of the task.  Attachments of another type are passed
    over. *)
Theorem urls_prints_links `{ValueStr} (c : console) (ids recs : list value)
  (rows : list (string * list value)) :
  get_path [VStr "task"; VStr "ids"] (remote (con_world c)) = Ok (VList ids) ->
  Forall2 (fun x r => task_record (remote (con_world c)) x = Ok r) ids recs ->
  Forall (fun r => exists d, getitem r "isDone" = Ok d) recs ->
  Forall2 (fun r row =>
             getitem r "title" = Ok (VStr row.1)
             /\ getitem r "attachments" = Ok (VList row.2)
             /\ Forall readable_attachment row.2)
    (List.filter is_open recs) rows ->
  Main.urls_list_f {| Main.project_title := None; Main.today := false |} c
  = (Ok tt,
     {| con_world := con_world c;
        stdout := stdout c
                  ++ concat ((fun row => link_line (strip row.1)
                                           <$> link_paths row.2)
                               <$> reverse rows) |}).
Proof.
  intros Hids Hrecs Hdone Hrows.
  assert (Hlist : Main.get_list_tasks
                    {| Main.project_title := None; Main.today := false |}
                    (con_world c)
                  = (Ok (Task.New <$> reverse (List.filter is_open recs)),
                     con_world c)).
  { unfold Main.get_list_tasks. cbn [Main.project_title Main.today].
    rewrite (bind_Ok _ _ _ _ _ (tasks_of_records _ ids recs Hids Hrecs Hdone)).
    unfold ret. by rewrite fmap_reverse. }
  unfold Main.urls_list_f.
  rewrite (bind_Ok _ _ _ _ _ (in_world_quiet _ c _ Hlist)).
  apply print_urls_spec. by apply Forall2_reverse.
Qed.

Lemma urls_prints_links_witness :
  let c := {| con_world := sample_world linked_doc; stdout := [] |} in
  @Main.urls_list_f sample_str
    {| Main.project_title := None; Main.today := false |} c
  = (Ok tt,
     {| con_world := sample_world linked_doc;
        stdout := [] ++ ["http://z" +:+ String "009"%char "Call Bob";
                         "http://x" +:+ String "009"%char "Read paper";
                         "http://y" +:+ String "009"%char "Read paper"] |}).
Proof.
  intros c.
  apply (@urls_prints_links sample_str c [VStr "1"; VStr "2"]
           (linked_tasks.*2)
           [("Read paper ",
             [VDict [("type", VStr "LINK"); ("path", VStr "http://x");
                     ("title", VStr "x"); ("id", VStr "1.5")];
              VDict [("type", VStr "FILE"); ("path", VStr "/tmp/a");
                     ("title", VStr "a"); ("id", VStr "2.5")];
              VDict [("type", VStr "LINK"); ("path", VStr "http://y");
                     ("title", VStr "y"); ("id", VStr "3.5")]]);
            ("Call Bob",
             [VDict [("type", VStr "LINK"); ("path", VStr "http://z");
                     ("title", VStr "z"); ("id", VStr "4.5")]])]).
  - reflexivity.
  - repeat constructor.
  - repeat constructor; eexists; reflexivity.
  - repeat constructor; eexists _, _, _; repeat split; reflexivity.
Defined.

(** ** Generated ids are numbers *)

Lemma digit_not_int_space a : is_Some (digit a) -> int_space a = false.
Proof.
  unfold digit, int_space. intros [d Hd].
  destruct (48 <=? code a)%N eqn:E1; [|discriminate].
  destruct (code a <=? 57)%N eqn:E2; [|discriminate].
  apply N.leb_le in E1, E2.
  repeat match goal with
         | |- context [(?x <=? ?y)%N] =>
             destruct (N.leb_spec x y); try lia
         | |- context [(?x =? ?y)%N] =>
             destruct (N.eqb_spec x y); try lia
         end; done.
Qed.

Lemma all_digits_int_rstrip s : all_digits s = true -> int_rstrip s = s.
Proof.
  induction s as [|a s IH]; [done|]. cbn [all_digits]. intros Hs.
  apply andb_true_iff in Hs as [Ha Hs]. apply bool_decide_eq_true in Ha.
  cbn [int_rstrip]. rewrite (IH Hs), (digit_not_int_space a Ha).
  by destruct s.
Qed.

Lemma all_digits_int_strip s :
  all_digits s = true -> int_lstrip (int_rstrip s) = s.
Proof.
  intros Hs. rewrite (all_digits_int_rstrip s Hs).
  destruct s as [|a s]; [done|]. cbn [all_digits] in Hs.
  apply andb_true_iff in Hs as [Ha _]. apply bool_decide_eq_true in Ha.
  cbn [int_lstrip]. by rewrite (digit_not_int_space a Ha).
Qed.

Lemma digit_pretty_N_char (d : N) :
  (d < 10)%N -> digit (pretty_N_char d) = Some (Z.of_N d).
Proof.
  intros Hd.
  assert (d = 0 \/ d = 1 \/ d = 2 \/ d = 3 \/ d = 4 \/ d = 5 \/ d = 6 \/ d = 7
          \/ d = 8 \/ d = 9)%N as Hcases by lia.
  repeat destruct Hcases as [->|Hcases]; try reflexivity.
  by subst.
Qed.

(** The digits that [pretty_N_go] puts before [s] are read back by
    [int_digits] as the number they print, and there are no more of them
    than the number needs. *)
Lemma int_digits_pretty_N_go (x : N) :
  forall s : string,
    all_digits s = true ->
    all_digits (pretty_N_go x s) = true
    /\ exists k : nat,
        (forall acc : Z,
            int_digits acc (pretty_N_go x s)
            = int_digits (acc * 10 ^ Z.of_nat k + Z.of_N x) s)
        /\ count_digits (pretty_N_go x s) = (N.of_nat k + count_digits s)%N
        /\ (x = 0%N -> k = O)
        /\ ((0 < x)%N -> 10 ^ Z.of_nat k <= 10 * Z.of_N x).
Proof.
  induction (N.lt_wf_0 x) as [x _ IH]; intros s Hs.
  assert (x = 0 \/ 0 < x)%N as [->|Hx] by lia.
  - rewrite pretty_N_go_0. split; [done|]. exists O.
    split; [|split; [|split]]; [|done|done|lia].
    intros acc. f_equal. simpl. lia.
  - rewrite pretty_N_go_step by done.
    assert (Hd : (x `mod` 10 < 10)%N) by (apply N.mod_lt; lia).
    pose proof (digit_pretty_N_char _ Hd) as Hdigit.
    destruct (IH (x `div` 10)%N (N.div_lt x 10 Hx eq_refl)
                (String (pretty_N_char (x `mod` 10)) s))
      as (Hall & k & Hk & Hcount & Hzero & Hlow).
    { cbn [all_digits]. rewrite Hdigit, Hs. done. }
    pose proof (N.div_mod x 10) as Hdm.
    assert (Hx10 : Z.of_N x
                   = 10 * Z.of_N (x `div` 10) + Z.of_N (x `mod` 10)) by lia.
    split; [done|]. exists (S k).
    rewrite Nat2Z.inj_succ, Z.pow_succ_r by lia.
    split; [|split; [|split]].
    + intros acc. rewrite Hk. cbn [int_digits]. rewrite Hdigit. f_equal. lia.
    + rewrite Hcount. cbn [count_digits]. rewrite Hdigit. lia.
    + lia.
    + intros _. assert (x `div` 10 = 0 \/ 0 < x `div` 10)%N as [E|E] by lia.
      * rewrite (Hzero E). simpl. lia.
      * specialize (Hlow E).
        assert (Hm : 0 <= Z.of_N (x `mod` 10)) by apply N2Z.is_nonneg.
        clear -Hlow Hx10 Hm.
        generalize dependent (10 ^ Z.of_nat k).
        generalize dependent (Z.of_N (x `mod` 10)).
        generalize dependent (Z.of_N (x `div` 10)).
        generalize dependent (Z.of_N x). intros. lia.
Qed.

Lemma int_of_str_digits (s : string) (v : Z) :
  all_digits s = true -> s <> "" -> int_digits 0 s = Some v ->
  (count_digits s <= int_max_str_digits)%N ->
  int_of_str s = Ok v.
Proof.
  intros Hs Hne Hv Hcount. unfold int_of_str.
  rewrite (all_digits_int_strip s Hs).
  destruct s as [|a r]; [done|]. pose proof Hs as Hs'.
  cbn [all_digits] in Hs.
  apply andb_true_iff in Hs as [Ha _]. apply bool_decide_eq_true in Ha.
  destruct Ha as [d Hd].
  assert (Hm : Ascii.eqb a "-" = false).
  { destruct (Ascii.eqb_spec a "-") as [->|]; [|done]. discriminate. }
  assert (Hp : Ascii.eqb a "+" = false).
  { destruct (Ascii.eqb_spec a "+") as [->|]; [|done]. discriminate. }
  rewrite Hm, Hp. unfold int_body. rewrite Hd.
  cbn [int_digits] in Hv. rewrite Hd in Hv.
  replace (10 * 0 + d) with d in Hv by lia. rewrite Hv.
  by rewrite (proj2 (N.leb_le _ _) Hcount).
Qed.

Lemma int_of_str_pretty_pos (p : positive) :
  Z.pos p < 10 ^ 4300 ->
  all_digits (pretty (N.pos p)) = true
  /\ pretty (N.pos p) <> ""
  /\ int_digits 0 (pretty (N.pos p)) = Some (Z.pos p)
  /\ (count_digits (pretty (N.pos p)) <= int_max_str_digits)%N.
Proof.
  intros Hbound. unfold pretty, pretty_N.
  destruct (decide (N.pos p = 0%N)); [lia|].
  destruct (int_digits_pretty_N_go (N.pos p) "" eq_refl)
    as (Hall & k & Hk & Hcount & _ & Hlow).
  split; [done|].
  assert (Hval : int_digits 0 (pretty_N_go (N.pos p) "") = Some (Z.pos p)).
  { rewrite Hk. cbn [int_digits]. f_equal; lia. }
  split; [|split; [done|]].
  - intros Hempty. rewrite Hempty in Hval. discriminate.
  - rewrite Hcount. cbn [count_digits]. unfold int_max_str_digits.
    assert (Hk' : Z.of_nat k < 4301); [|lia].
    apply (Z.pow_lt_mono_r_iff 10); [lia|lia|].
    specialize (Hlow eq_refl).
    change (10 ^ 4301) with (10 ^ Z.succ 4300).
    rewrite Z.pow_succ_r by lia.
    set (B := 10 ^ 4300) in *. set (K := 10 ^ Z.of_nat k) in *.
    change (Z.of_N (N.pos p)) with (Z.pos p) in Hlow. lia.
Qed.

(** [int(str(n)) == n] for a positive [n] of at most 4300 digits: the text
    of the number is read back as that number. *)
Lemma int_of_str_pretty (n : Z) :
  0 < n < 10 ^ 4300 -> int_of_str (pretty n) = Ok n.
Proof.
  intros [Hpos Hbound]. destruct n as [|p|p]; [lia| |lia].
  destruct (int_of_str_pretty_pos p Hbound) as (Hall & Hne & Hv & Hcount).
  by apply int_of_str_digits.
Qed.

(** X13: an id that [new_task_id] hands out passes the test [int(x)] by
    which [cleanup_manual] tells the tasks made by this client: it is the
    decimal text of a number from 1 on, and [int] reads that number back.
    The list of ids is short enough for the number it leads to to stay
    within the digits that [int] converts. *)
Theorem new_task_id_is_numeric (w : world) (ids : list value) :
  get_path [VStr "task"; VStr "ids"] (remote w) = Ok (VList ids) ->
  1 + Z.of_nat (length ids) < 10 ^ 4300 ->
  exists (s : string) (n : Z),
    SupProd.new_task_id w = (Ok s, w)
    /\ py_int (VStr s) = Ok n /\ s = pretty n /\ 1 <= n.
Proof.
  intros Hids Hlen. rewrite (new_task_id_eq w _ Hids). simpl scan_bound.
  destruct (new_task_id_loop_list ids (S (length ids)) 1)
    as (n & Hn & -> & _); [lia|].
  exists (pretty n), n. split; [done|]. split; [|split; [done|lia]].
  cbn [py_int]. apply int_of_str_pretty.
  set (B := 10 ^ 4300) in *. lia.
Qed.

Lemma new_task_id_is_numeric_witness :
  exists (s : string) (n : Z),
    SupProd.new_task_id (sample_world sample_doc)
    = (Ok s, sample_world sample_doc)
    /\ py_int (VStr s) = Ok n /\ s = pretty n /\ 1 <= n.
Proof.
  apply (new_task_id_is_numeric (sample_world sample_doc)
           [VStr "1"; VStr "2"; VStr "4"]).
  - reflexivity.
  - vm_compute. reflexivity.
Defined.

(** ** create_task, step by step *)

Lemma get_path_cons_getitem (k : string) (q : list value) (c c' : value) :
  getitem c' k = getitem c k ->
  get_path (VStr k :: q) c' = get_path (VStr k :: q) c.
Proof. intros E. cbn [get_path]. unfold getitem in E. by rewrite E. Qed.

Lemma subscript_dict_set_other (k : string) (v x : value) (d : dict) :
  x <> VStr k ->
  subscript (VDict (dict_set k v d)) x = subscript (VDict d) x.
Proof.
  intros Hx. destruct x as [| | | |s| |]; try done.
  cbn [subscript]. rewrite dict_get_set_ne; [done|]. congruence.
Qed.

(** One creating call of [create_task], with all that later calls need to
    know about the world it leaves. *)
Lemma create_task_step `{FloatRepr} (w : world) (task_title : string)
  (project_id : value) (is_today is_unique : bool) (time_estimate : value)
  (attachments : list Attachment.t) (r : value)
  (ids : list value) (ents : dict) (ptids ttids : list value) (ms : Z) :
  (truthy project_id = true /\ r = project_id
   \/ truthy project_id = false
      /\ SupProd.default_project_id w = (Ok r, w)) ->
  (is_unique = true ->
   forallb (listable_task (remote w)) ids = true
   /\ existsb (open_task_titled (remote w) task_title) ids = false) ->
  get_path [VStr "task"; VStr "ids"] (remote w) = Ok (VList ids) ->
  get_path [VStr "task"; VStr "entities"] (remote w) = Ok (VDict ents) ->
  resolved_project (remote w) r ptids ->
  (is_today || is_none r = true ->
   get_path [VStr "tag"; VStr "entities"; VStr "TODAY"; VStr "taskIds"]
     (remote w) = Ok (VList ttids)) ->
  int_of_float (float_mul (clock w (length attachments + ticks w)%nat) f1000)
  = Ok ms ->
  exists (n : Z) (rec doc' : value),
    SupProd.create_task task_title project_id is_today is_unique
      time_estimate attachments w
    = (Ok tt, {| remote := doc'; uploads := uploads w ++ [doc'];
                 clock := clock w;
                 ticks := S (length attachments + ticks w) |})
    /\ 1 <= n
    /\ (VStr (pretty n) ∉ ids)
    /\ get_path [VStr "task"; VStr "ids"] doc'
       = Ok (VList (ids ++ [VStr (pretty n)]))
    /\ get_path [VStr "task"; VStr "entities"] doc'
       = Ok (VDict (dict_set (pretty n) rec ents))
    /\ getitem rec "title" = Ok (VStr task_title)
    /\ getitem rec "isDone" = Ok (VBool false)
    /\ getitem rec "projectId" = Ok r
    /\ getitem rec "tagIds"
       = Ok (VList (if is_today || is_none r then [VStr "TODAY"] else []))
    /\ match r with
       | VStr p =>
           get_path [VStr "project"; VStr "entities"; VStr p; VStr "taskIds"]
             doc' = Ok (VList (ptids ++ [VStr (pretty n)]))
       | _ =>
           get_path [VStr "project"] doc' = get_path [VStr "project"] (remote w)
       end
    /\ (if is_today || is_none r
        then get_path [VStr "tag"; VStr "entities"; VStr "TODAY";
                       VStr "taskIds"] doc'
             = Ok (VList (ttids ++ [VStr (pretty n)]))
        else get_path [VStr "tag"] doc' = get_path [VStr "tag"] (remote w))
    /\ (forall k, k <> "task" -> k <> "project" -> k <> "tag" ->
                  k <> "lastLocalSyncModelChange" ->
                  getitem doc' k = getitem (remote w) k)
    /\ exists stored : list value,
        getitem rec "attachments" = Ok (VList stored)
        /\ Forall2 (fun a s =>
                      exists i,
                        s = VDict [("type", Attachment.attachment_type a);
                                   ("path", Attachment.path a);
                                   ("title", Attachment.title a);
                                   ("id", VStr i)])
             attachments stored.
Proof.
  intros Hres Huniq Hids Hents Hproj Htag Hms.
  assert (Hres' : (if truthy project_id then ret project_id
                   else SupProd.default_project_id) w = (Ok r, w)).
  { destruct Hres as [[-> ->]|[-> ->]]; done. }
  assert (Huniq' : is_unique = true ->
                   SupProd.get_task_by_title task_title w = (Ok None, w)).
  { intros Hu. destruct (Huniq Hu) as [Hall Hex].
    destruct (get_task_by_title_spec w task_title ids Hids Hall)
      as (x & -> & Hsome).
    rewrite Hex in Hsome. apply bool_decide_eq_false in Hsome.
    destruct x; [|done]. destruct Hsome. eauto. }
  destruct (new_task_id_list w ids Hids) as (n & Hn & Hnid & Hfresh & _).
  destruct (create_task_uploads w task_title project_id is_today is_unique
              time_estimate attachments r (pretty n) ids ents ptids ttids ms
              Hres' Huniq' Hnid Hids Hents Hproj Htag Hms)
    as (stored & doc' & Hstored & Hdoc' & Hrun).
  destruct (created_doc_reads (remote w) task_title r (is_today || is_none r)
              (pretty n) time_estimate stored ids ents ptids ttids ms
              Hids Hents Hproj Htag)
    as (R1 & (rec & R2 & Rt & _ & Rd & Rp & _ & Ra & Rg) & R3 & R4 & _ & R6).
  rewrite <- Hdoc' in *.
  exists n, rec, doc'. split; [exact Hrun|].
  do 11 (split; [done|]). by exists stored.
Qed.

(** The statement of [create_task] for a task that exists: nothing
    happens. *)
Lemma create_task_finds `{FloatRepr} (w : world) (task_title : string)
  (project_id : value) (is_today : bool) (time_estimate : value)
  (attachments : list Attachment.t) (ids : list value) :
  truthy project_id = true \/ config_readable (remote w) = true ->
  get_path [VStr "task"; VStr "ids"] (remote w) = Ok (VList ids) ->
  forallb (listable_task (remote w)) ids = true ->
  existsb (open_task_titled (remote w) task_title) ids = true ->
  SupProd.create_task task_title project_id is_today true time_estimate
    attachments w = (Ok tt, w).
Proof.
  intros Hres Hids Hall Hex.
  destruct (resolve_project w project_id Hres) as (r & Hr & _).
  destruct (get_task_by_title_spec w task_title ids Hids Hall)
    as (x & Hx & Hsome).
  unfold SupProd.create_task. rewrite (bind_Ok _ _ _ _ _ Hr).
  unfold bind at 1. unfold bind at 1. rewrite Hx. unfold ret at 1.
  by rewrite Hsome, Hex.
Qed.

Lemma task_record_after (doc doc' x : value) (nid : string) (rec : value)
  (ents : dict) :
  get_path [VStr "task"; VStr "entities"] doc = Ok (VDict ents) ->
  get_path [VStr "task"; VStr "entities"] doc'
  = Ok (VDict (dict_set nid rec ents)) ->
  (x <> VStr nid -> task_record doc' x = task_record doc x)
  /\ task_record doc' (VStr nid) = Ok rec.
Proof.
  intros He He'. unfold task_record. rewrite He, He'. cbn [res_bind]. split.
  - intros Hx. by apply subscript_dict_set_other.
  - cbn [subscript]. by rewrite dict_get_set_eq.
Qed.

(** X14: Asked twice, with [is_unique], for a task with the same title that has
    no blanks around it, [create_task] creates it once: the first call
    uploads, the second finds the task and leaves the world alone. *)
Theorem create_task_unique_twice `{FloatRepr} (w : world)
  (task_title : string) (project_id : value) (is_today : bool)
  (time_estimate : value) (attachments : list Attachment.t) (r : value)
  (ids : list value) (ents : dict) (ptids ttids : list value) (ms : Z) :
  strip task_title = task_title ->
  (truthy project_id = true /\ r = project_id
   \/ truthy project_id = false
      /\ SupProd.default_project_id w = (Ok r, w)) ->
  forallb (listable_task (remote w)) ids = true ->
  existsb (open_task_titled (remote w) task_title) ids = false ->
  get_path [VStr "task"; VStr "ids"] (remote w) = Ok (VList ids) ->
  get_path [VStr "task"; VStr "entities"] (remote w) = Ok (VDict ents) ->
  resolved_project (remote w) r ptids ->
  (is_today || is_none r = true ->
   get_path [VStr "tag"; VStr "entities"; VStr "TODAY"; VStr "taskIds"]
     (remote w) = Ok (VList ttids)) ->
  int_of_float (float_mul (clock w (length attachments + ticks w)%nat) f1000)
  = Ok ms ->
  exists w' : world,
    SupProd.create_task task_title project_id is_today true time_estimate
      attachments w = (Ok tt, w')
    /\ uploads w' = uploads w ++ [remote w']
    /\ forall (is_today' : bool) (time_estimate' : value)
              (attachments' : list Attachment.t),
        SupProd.create_task task_title project_id is_today' true
          time_estimate' attachments' w' = (Ok tt, w').
Proof.
  intros Hstrip Hres Hall Hnone Hids Hents Hproj Htag Hms.
  destruct (create_task_step w task_title project_id is_today true
              time_estimate attachments r ids ents ptids ttids ms
              Hres (fun _ => conj Hall Hnone) Hids Hents Hproj Htag Hms)
    as (n & rec & doc' & Hrun & _ & Hfresh & Rids & Rents & Rt & Rd & _ & _
        & _ & _ & Rframe & _).
  eexists. split; [exact Hrun|]. split; [done|].
  intros is_today' time_estimate' attachments'.
  destruct (task_record_after (remote w) doc' (VStr (pretty n)) (pretty n) rec
              ents Hents Rents) as [_ Hnew].
  apply (create_task_finds _ task_title project_id is_today' time_estimate'
           attachments' (ids ++ [VStr (pretty n)])); cbn [remote].
  - destruct Hres as [[Ht _]|[_ Hdef]]; [by left|right].
    unfold config_readable, default_project_path.
    rewrite (get_path_cons_getitem "globalConfig" _ (remote w) doc')
      by (by apply Rframe).
    rewrite default_project_id_eq in Hdef. unfold default_project_path in Hdef.
    destruct (get_path _ (remote w)) as [v|[]]; try done; discriminate.
  - exact Rids.
  - rewrite forallb_app. apply andb_true_iff. split.
    + apply forallb_forall. intros x Hx.
      assert (Hne : x <> VStr (pretty n)).
      { intros ->. apply Hfresh. by apply list_elem_of_In. }
      destruct (task_record_after (remote w) doc' x (pretty n) rec ents
                  Hents Rents) as [Hold _].
      unfold listable_task. rewrite (Hold Hne).
      rewrite forallb_forall in Hall. exact (Hall x Hx).
    + cbn [forallb]. unfold listable_task. rewrite Hnew, Rd, Rt. done.
  - rewrite existsb_app. apply orb_true_iff. right.
    cbn [existsb]. unfold open_task_titled, Task.title.
    rewrite Hnew, Rd. cbn [Task._task_details]. rewrite Rt. cbn.
    rewrite Hstrip, String.eqb_refl. done.
Qed.

Lemma create_task_unique_twice_witness :
  exists w' : world,
    @SupProd.create_task sample_repr "Buy bread" VNone true true (VInt 0) []
      (sample_world sample_doc) = (Ok tt, w')
    /\ uploads w' = [] ++ [remote w']
    /\ forall (is_today' : bool) (time_estimate' : value)
              (attachments' : list Attachment.t),
        @SupProd.create_task sample_repr "Buy bread" VNone is_today' true
          time_estimate' attachments' w' = (Ok tt, w').
Proof.
  apply (@create_task_unique_twice sample_repr (sample_world sample_doc)
           "Buy bread" VNone true (VInt 0) [] (VStr "P1")
           [VStr "1"; VStr "2"; VStr "4"] sample_tasks
           [VStr "1"; VStr "2"] [VStr "1"] 1700000000250);
    try reflexivity.
  right. split; reflexivity.
Defined.

(** X15: [create_task] keeps the ids of the document consistent: when they are
    pairwise different and are exactly the keys that have a record, this
    is so again after a creating call, with one id more. *)
Theorem create_task_keeps_ids_consistent `{FloatRepr} (w : world)
  (task_title : string) (project_id : value) (is_today is_unique : bool)
  (time_estimate : value) (attachments : list Attachment.t) (r : value)
  (ids : list value) (ents : dict) (ptids ttids : list value) (ms : Z) :
  ids_consistent ids ents ->
  (truthy project_id = true /\ r = project_id
   \/ truthy project_id = false
      /\ SupProd.default_project_id w = (Ok r, w)) ->
  (is_unique = true ->
   forallb (listable_task (remote w)) ids = true
   /\ existsb (open_task_titled (remote w) task_title) ids = false) ->
  get_path [VStr "task"; VStr "ids"] (remote w) = Ok (VList ids) ->
  get_path [VStr "task"; VStr "entities"] (remote w) = Ok (VDict ents) ->
  resolved_project (remote w) r ptids ->
  (is_today || is_none r = true ->
   get_path [VStr "tag"; VStr "entities"; VStr "TODAY"; VStr "taskIds"]
     (remote w) = Ok (VList ttids)) ->
  int_of_float (float_mul (clock w (length attachments + ticks w)%nat) f1000)
  = Ok ms ->
  exists (w' : world) (ids' : list value) (ents' : dict),
    SupProd.create_task task_title project_id is_today is_unique
      time_estimate attachments w = (Ok tt, w')
    /\ get_path [VStr "task"; VStr "ids"] (remote w') = Ok (VList ids')
    /\ get_path [VStr "task"; VStr "entities"] (remote w') = Ok (VDict ents')
    /\ ids_consistent ids' ents'
    /\ length ids' = S (length ids).
Proof.
  intros [Hnd Hkeys] Hres Huniq Hids Hents Hproj Htag Hms.
  destruct (create_task_step w task_title project_id is_today is_unique
              time_estimate attachments r ids ents ptids ttids ms
              Hres Huniq Hids Hents Hproj Htag Hms)
    as (n & rec & doc' & Hrun & _ & Hfresh & Rids & Rents & _).
  eexists _, _, _. split; [exact Hrun|]. cbn [remote].
  split; [exact Rids|]. split; [exact Rents|]. split; [split|].
  - apply NoDup_app. split; [done|]. split; [|apply NoDup_singleton].
    intros x Hx ->%list_elem_of_singleton. done.
  - intros x. rewrite elem_of_app, list_elem_of_singleton, Hkeys. split.
    + intros [(s & -> & Hs)| ->].
      * exists s. split; [done|].
        destruct (decide (s = pretty n)) as [->|Hne].
        -- by rewrite dict_get_set_eq.
        -- by rewrite dict_get_set_ne.
      * exists (pretty n). by rewrite dict_get_set_eq.
    + intros (s & -> & Hs).
      destruct (decide (s = pretty n)) as [->|Hne]; [by right|left].
      exists s. split; [done|]. by rewrite dict_get_set_ne in Hs.
  - rewrite length_app. cbn. lia.
Qed.

Lemma create_task_keeps_ids_consistent_witness :
  exists (w' : world) (ids' : list value) (ents' : dict),
    @SupProd.create_task sample_repr "Buy bread" VNone true false (VInt 0) []
      (sample_world sample_doc) = (Ok tt, w')
    /\ get_path [VStr "task"; VStr "ids"] (remote w') = Ok (VList ids')
    /\ get_path [VStr "task"; VStr "entities"] (remote w') = Ok (VDict ents')
    /\ ids_consistent ids' ents'
    /\ length ids' = 4%nat.
Proof.
  apply (@create_task_keeps_ids_consistent sample_repr
           (sample_world sample_doc) "Buy bread" VNone true false (VInt 0) []
           (VStr "P1") [VStr "1"; VStr "2"; VStr "4"] sample_tasks
           [VStr "1"; VStr "2"] [VStr "1"] 1700000000250);
    try reflexivity; try discriminate.
  - split.
    + repeat (apply NoDup_cons; split;
              [rewrite ?not_elem_of_cons; repeat split;
               try discriminate; apply not_elem_of_nil|]).
      apply NoDup_nil_2.
    + intros x. split.
      * intros Hx. repeat (apply elem_of_cons in Hx as [->|Hx]);
          [eexists; split; [reflexivity|vm_compute; eauto]..|].
        by apply elem_of_nil in Hx.
      * intros (s & -> & Hs). unfold sample_tasks in Hs.
        repeat (cbn [dict_get] in Hs;
                match type of Hs with
                | context [String.eqb ?a ?b] =>
                    destruct (String.eqb_spec a b) as [<-|_]
                end;
                [rewrite !elem_of_cons; auto 6|]).
        cbn in Hs. by destruct Hs.
  - right. split; reflexivity.
Defined.

(** ** create_tasks *)

(** X16: [create_tasks] creates one task for each title, in order: as many
    uploads as titles, as many new ids, pairwise different and none of
    them an old one, appended to the task ids, to the [TODAY] tag and to the
    default project; the new records carry the titles and the default
    project; the records of the old tasks are left as they were. *)
Theorem create_tasks_one_per_title `{FloatRepr} (titles : list string) :
  forall (w : world) (r : value) (ids : list value) (ents : dict)
         (ptids ttids : list value),
  SupProd.default_project_id w = (Ok r, w) ->
  get_path [VStr "task"; VStr "ids"] (remote w) = Ok (VList ids) ->
  get_path [VStr "task"; VStr "entities"] (remote w) = Ok (VDict ents) ->
  resolved_project (remote w) r ptids ->
  get_path [VStr "tag"; VStr "entities"; VStr "TODAY"; VStr "taskIds"]
    (remote w) = Ok (VList ttids) ->
  (forall t : nat,
      exists ms, int_of_float (float_mul (clock w t) f1000) = Ok ms) ->
  exists (w' : world) (nids : list string),
    SupProd.create_tasks titles w = (Ok tt, w')
    /\ length (uploads w') = (length (uploads w) + length titles)%nat
    /\ NoDup nids
    /\ Forall (fun s => VStr s ∉ ids) nids
    /\ get_path [VStr "task"; VStr "ids"] (remote w')
       = Ok (VList (ids ++ (VStr <$> nids)))
    /\ Forall2 (fun s title =>
                  exists rec, task_record (remote w') (VStr s) = Ok rec
                              /\ getitem rec "title" = Ok (VStr title)
                              /\ getitem rec "isDone" = Ok (VBool false)
                              /\ getitem rec "projectId" = Ok r
                              /\ getitem rec "tagIds"
                                 = Ok (VList [VStr "TODAY"]))
               nids titles
    /\ (forall x, x ∈ ids ->
                  task_record (remote w') x = task_record (remote w) x)
    /\ get_path [VStr "tag"; VStr "entities"; VStr "TODAY"; VStr "taskIds"]
         (remote w') = Ok (VList (ttids ++ (VStr <$> nids)))
    /\ resolved_project (remote w') r (ptids ++ (VStr <$> nids))
    /\ SupProd.default_project_id w' = (Ok r, w')
    /\ clock w' = clock w.
Proof.
  induction titles as [|title titles IH];
    intros w r ids ents ptids ttids Hdef Hids Hents Hproj Htag Hclock.
  - exists w, []. cbn [SupProd.create_tasks fmap list_fmap length].
    rewrite !app_nil_r, Nat.add_0_r.
    repeat split; try done; constructor.
  - destruct (Hclock (length (@nil Attachment.t) + ticks w)%nat) as [ms Hms].
    destruct (create_task_step w title VNone true false (VInt 0) [] r ids
                ents ptids ttids ms (or_intror (conj eq_refl Hdef))
                (fun E => False_ind _ (Bool.diff_false_true E))
                Hids Hents Hproj (fun _ => Htag) Hms)
      as (n & rec & doc' & Hrun & _ & Hfresh & Rids & Rents & Rt & Rd & Rp
          & Rg & Rproj & Rtag & Rframe & _).
    cbn [orb] in Rg, Rtag.
    set (w1 := {| remote := doc'; uploads := uploads w ++ [doc'];
                  clock := clock w;
                  ticks := S (length (@nil Attachment.t) + ticks w) |}) in *.
    assert (Hdef1 : SupProd.default_project_id w1 = (Ok r, w1)).
    { rewrite default_project_id_eq in *. unfold default_project_path in *.
      cbn [remote w1].
      rewrite (get_path_cons_getitem "globalConfig" _ (remote w) doc')
        by (by apply Rframe).
      destruct (get_path _ (remote w)) as [v|[]]; congruence. }
    assert (Hproj1 : resolved_project (remote w1) r
                       (ptids ++ [VStr (pretty n)])).
    { destruct r; try done. }
    destruct (IH w1 r (ids ++ [VStr (pretty n)])
                (dict_set (pretty n) rec ents)
                (ptids ++ [VStr (pretty n)]) (ttids ++ [VStr (pretty n)])
                Hdef1 Rids Rents Hproj1 Rtag Hclock)
      as (w' & nids & Hrun' & Hup & Hnd & Hnew & Rids' & Hrecs & Hold
          & Rtag' & Rproj' & Hdef' & Hclock').
    destruct (task_record_after (remote w) doc' (VStr (pretty n)) (pretty n)
                rec ents Hents Rents) as [_ Hrec].
    exists w', (pretty n :: nids).
    cbn [SupProd.create_tasks fmap list_fmap length].
    rewrite <- !app_assoc in *. cbn [app] in *.
    split; [by rewrite (bind_Ok _ _ _ _ _ Hrun)|].
    split; [rewrite Hup; cbn [uploads w1]; rewrite length_app; cbn; lia|].
    split.
    { apply NoDup_cons. split; [|done]. intros Hin.
      rewrite Forall_forall in Hnew. apply (Hnew _ Hin).
      apply elem_of_app. right. by apply list_elem_of_singleton. }
    split.
    { constructor; [done|]. eapply Forall_impl; [exact Hnew|].
      intros s Hs Hin. apply Hs, elem_of_app. by left. }
    split; [done|]. split.
    { constructor; [|done]. exists rec.
      rewrite Hold by (apply elem_of_app; right;
                       by apply list_elem_of_singleton).
      done. }
    split.
    { intros x Hx. rewrite Hold by (apply elem_of_app; by left).
      destruct (task_record_after (remote w) doc' x (pretty n) rec ents
                  Hents Rents) as [Hsame _].
      apply Hsame. by intros ->. }
    done.
Qed.

Lemma create_tasks_one_per_title_witness :
  exists (w' : world) (nids : list string),
    @SupProd.create_tasks sample_repr ["Buy bread"; "Buy bread"]
      (sample_world sample_doc) = (Ok tt, w')
    /\ length (uploads w') = 2%nat
    /\ NoDup nids
    /\ Forall (fun s => VStr s ∉ [VStr "1"; VStr "2"; VStr "4"]) nids
    /\ get_path [VStr "task"; VStr "ids"] (remote w')
       = Ok (VList ([VStr "1"; VStr "2"; VStr "4"] ++ (VStr <$> nids)))
    /\ Forall2 (fun s title =>
                  exists rec, task_record (remote w') (VStr s) = Ok rec
                              /\ getitem rec "title" = Ok (VStr title)
                              /\ getitem rec "isDone" = Ok (VBool false)
                              /\ getitem rec "projectId" = Ok (VStr "P1")
                              /\ getitem rec "tagIds"
                                 = Ok (VList [VStr "TODAY"]))
               nids ["Buy bread"; "Buy bread"]
    /\ (forall x, x ∈ [VStr "1"; VStr "2"; VStr "4"] ->
                  task_record (remote w') x
                  = task_record (remote (sample_world sample_doc)) x)
    /\ get_path [VStr "tag"; VStr "entities"; VStr "TODAY"; VStr "taskIds"]
         (remote w') = Ok (VList ([VStr "1"] ++ (VStr <$> nids)))
    /\ resolved_project (remote w') (VStr "P1")
         ([VStr "1"; VStr "2"] ++ (VStr <$> nids))
    /\ SupProd.default_project_id w' = (Ok (VStr "P1"), w')
    /\ clock w' = sample_clock.
Proof.
  apply (@create_tasks_one_per_title sample_repr ["Buy bread"; "Buy bread"]
           (sample_world sample_doc) (VStr "P1")
           [VStr "1"; VStr "2"; VStr "4"] sample_tasks
           [VStr "1"; VStr "2"] [VStr "1"]);
    try reflexivity.
  intros t. cbn [clock sample_world]. unfold sample_clock.
  eexists. vm_compute. reflexivity.
Defined.

(** ** cleanup_manual, in general *)

(** [int] is stricter about blanks than [str.strip]: a unit separator
    before the digits is dropped by [strip], and makes [int] refuse the
    text. *)
Example int_rejects_separator_padding :
  strip (String "031" "1") = "1"
  /\ int_of_str (String "031" "1") = Raise ValueError
  /\ int_of_str (String "009" "1 ") = Ok 1.
Proof. repeat split; reflexivity. Qed.

Lemma filed_set_ents c ids ents dg tg ents' :
  filed c ids ents dg tg ->
  filed (set_path ["task"; "entities"] (VDict ents') c) ids ents' dg tg.
Proof.
  intros (H1 & H2 & H3 & H4). repeat split.
  - by rewrite get_set_second.
  - by apply (get_set_same ["task"; "entities"] _ c (VDict ents)).
  - by rewrite get_set_other.
  - by rewrite get_set_other.
Qed.

Lemma filed_set_ids c ids ents dg tg ids' :
  filed c ids ents dg tg ->
  filed (set_path ["task"; "ids"] (VList ids') c) ids' ents dg tg.
Proof.
  intros (H1 & H2 & H3 & H4). repeat split.
  - by apply (get_set_same ["task"; "ids"] _ c (VList ids)).
  - by rewrite get_set_second.
  - by rewrite get_set_other.
  - by rewrite get_set_other.
Qed.

Lemma filed_set_default c ids ents dg tg dg' :
  filed c ids ents dg tg ->
  filed (set_path ["project"; "entities"; "DEFAULT"; "taskIds"] (VList dg') c)
    ids ents dg' tg.
Proof.
  intros (H1 & H2 & H3 & H4). repeat split.
  - by rewrite get_set_other.
  - by rewrite get_set_other.
  - by apply (get_set_same ["project"; "entities"; "DEFAULT"; "taskIds"] _ c
                (VList dg)).
  - by rewrite get_set_other.
Qed.

Lemma filed_set_today c ids ents dg tg tg' :
  filed c ids ents dg tg ->
  filed (set_path ["tag"; "entities"; "TODAY"; "taskIds"] (VList tg') c)
    ids ents dg tg'.
Proof.
  intros (H1 & H2 & H3 & H4). repeat split.
  - by rewrite get_set_other.
  - by rewrite get_set_other.
  - by rewrite get_set_other.
  - by apply (get_set_same ["tag"; "entities"; "TODAY"; "taskIds"] _ c
                (VList tg)).
Qed.

(** One round of the loop on a task that can be removed. *)
Lemma cleanup_body_step (c : value) (s : string) (n : Z)
  (ids : list value) (ents : dict) (dg tg ids' dg' tg' : list value) :
  filed c ids ents dg tg ->
  int_of_str s = Ok n ->
  is_Some (dict_get s ents) ->
  remove_first (VStr s) ids = Some ids' ->
  remove_first (VStr s) dg = Some dg' ->
  remove_first (VStr s) tg = Some tg' ->
  exists c',
    SupProd.cleanup_body (VStr s) c = (Ok tt, c')
    /\ filed c' ids' (dict_del s ents) dg' tg'.
Proof.
  intros Hc Hint [v Hv] Hids Hdg Htg.
  pose proof (filed_set_ents _ _ _ _ _ (dict_del s ents) Hc) as Hc1.
  pose proof (filed_set_ids _ _ _ _ _ ids' Hc1) as Hc2.
  pose proof (filed_set_default _ _ _ _ _ dg' Hc2) as Hc3.
  pose proof (filed_set_today _ _ _ _ _ tg' Hc3) as Hc4.
  eexists. split; [|exact Hc4].
  unfold SupProd.cleanup_body, try_except.
  rewrite (bind_Ok _ _ c c n) by (unfold lift; cbn [py_int]; by rewrite Hint).
  destruct Hc as (_ & H2 & _), Hc1 as (H1 & _), Hc2 as (_ & _ & H3 & _),
    Hc3 as (_ & _ & _ & H4).
  assert (Hpop : pop (VStr s) (VDict ents) = Ok (VDict (dict_del s ents))).
  { cbn [pop]. by rewrite Hv. }
  assert (Hr1 : remove (VStr s) (VList ids) = Ok (VList ids')).
  { cbn [remove]. by rewrite Hids. }
  assert (Hr2 : remove (VStr s) (VList dg) = Ok (VList dg')).
  { cbn [remove]. by rewrite Hdg. }
  assert (Hr3 : remove (VStr s) (VList tg) = Ok (VList tg')).
  { cbn [remove]. by rewrite Htg. }
  rewrite (bind_Ok _ _ _ _ tt
             (mutate_set ["task"; "entities"] _ _ _ _ H2 Hpop)).
  rewrite (bind_Ok _ _ _ _ tt (mutate_set ["task"; "ids"] _ _ _ _ H1 Hr1)).
  rewrite (bind_Ok _ _ _ _ tt
             (mutate_set ["project"; "entities"; "DEFAULT"; "taskIds"]
                _ _ _ _ H3 Hr2)).
  pose proof (mutate_set ["tag"; "entities"; "TODAY"; "taskIds"] _ _ _ _
                H4 Hr3) as E.
  cbn [fmap list_fmap] in E. by rewrite E.
Qed.

Lemma remove_first_middle (s : string) (kept rest : list value) :
  (VStr s ∉ kept) ->
  remove_first (VStr s) (kept ++ VStr s :: rest) = Some (kept ++ rest).
Proof.
  induction kept as [|y kept IH]; intros Hnin; cbn [app remove_first].
  - by rewrite (proj2 (py_eq_str_r (VStr s) s) eq_refl).
  - apply not_elem_of_cons in Hnin as [Hne Hnin].
    destruct (py_eq y (VStr s)) eqn:E.
    + apply py_eq_str_r in E. congruence.
    + by rewrite (IH Hnin).
Qed.

Lemma remove_first_elem (s : string) (l : list value) :
  VStr s ∈ l ->
  exists l', remove_first (VStr s) l = Some l'
             /\ forall y, y ∈ l -> y <> VStr s -> y ∈ l'.
Proof.
  induction l as [|z l IH]; intros Hin; [by apply elem_of_nil in Hin|].
  cbn [remove_first]. destruct (py_eq z (VStr s)) eqn:E.
  - apply py_eq_str_r in E as ->. exists l. split; [done|].
    intros y Hy Hne. apply elem_of_cons in Hy as [->|Hy]; done.
  - apply elem_of_cons in Hin as [<-|Hin].
    { by rewrite (proj2 (py_eq_str_r (VStr s) s) eq_refl) in E. }
    destruct (IH Hin) as (l' & -> & Hl'). exists (z :: l'). split; [done|].
    intros y Hy Hne. apply elem_of_cons in Hy as [->|Hy].
    + by left.
    + right. by apply Hl'.
Qed.

Lemma dict_get_del_ne (k k' : string) (d : dict) :
  k <> k' -> dict_get k' (dict_del k d) = dict_get k' d.
Proof.
  intros Hne. induction d as [|[k0 v0] d IH]; [done|].
  cbn [dict_del dict_get].
  destruct (String.eqb_spec k k0) as [->|Hk].
  - rewrite IH. destruct (String.eqb_spec k' k0); congruence.
  - cbn [dict_get]. by rewrite IH.
Qed.

Lemma alternate_elem {A : Type} (l : list A) :
  forall (b : bool) (x : A), x ∈ alternate b l -> x ∈ l.
Proof.
  induction l as [|y l IH]; intros b x; cbn [alternate]; [done|].
  destruct b.
  - intros [->|Hx]%elem_of_cons; [by left|right; by apply (IH false)].
  - intros Hx. right. by apply (IH true).
Qed.

Lemma list_pair_ind {A : Type} (P : list A -> Prop) :
  P [] -> (forall x, P [x]) -> (forall x y l, P l -> P (x :: y :: l)) ->
  forall l, P l.
Proof.
  intros H0 H1 H2 l.
  assert (H : P l /\ forall x, P (x :: l)); [|by destruct H].
  induction l as [|y l [IHl IHc]]; [by split|].
  split; [apply IHc|]. intros x. by apply H2.
Qed.

(** The loop is over once its position is past the end of the list. *)
Lemma for_live_past (fuel i : nat) (p : list value)
  (body : value -> ST value unit) (c : value) (l : list value) :
  get_path p c = Ok (VList l) ->
  (length l <= i)%nat ->
  for_live fuel i p body c = (Ok tt, c).
Proof.
  intros Hl Hi. destruct fuel as [|fuel]; [done|]. cbn [for_live].
  by rewrite Hl, lookup_ge_None_2.
Qed.

Lemma removable_later (ents : dict) (dg tg dg' tg' : list value) (s : string)
  (xs : list value) :
  (VStr s ∉ xs) ->
  (forall y, y ∈ dg -> y <> VStr s -> y ∈ dg') ->
  (forall y, y ∈ tg -> y <> VStr s -> y ∈ tg') ->
  Forall (removable ents dg tg) xs ->
  Forall (removable (dict_del s ents) dg' tg') xs.
Proof.
  intros Hnin Hdg Htg Hall. apply Forall_forall. intros x Hx.
  rewrite Forall_forall in Hall.
  destruct (Hall x Hx) as ((s' & n & -> & Hint & Hrec) & Hd & Ht).
  assert (Hne : VStr s' <> VStr s) by (by intros E; rewrite E in Hx).
  split; [|split; [by apply Hdg|by apply Htg]].
  exists s', n. split; [done|]. split; [done|].
  rewrite dict_get_del_ne; [done|]. congruence.
Qed.

(** The loop of [cleanup_manual] from position [length kept] on: of the
    ids that are still ahead, it removes the first, the third, ... and
    leaves the second, the fourth, ... where they are. *)
Lemma cleanup_loop_run (rest : list value) :
  forall (kept : list value) (ents : dict) (dg tg : list value) (c : value)
         (fuel : nat),
    filed c (kept ++ rest) ents dg tg ->
    NoDup (kept ++ rest) ->
    Forall (removable ents dg tg) (alternate true rest) ->
    (length rest <= fuel)%nat ->
    exists c',
      for_live fuel (length kept) [VStr "task"; VStr "ids"]
        SupProd.cleanup_body c = (Ok tt, c')
      /\ filed c' (kept ++ alternate false rest)
           (pop_each (alternate true rest) ents)
           (remove_each (alternate true rest) dg)
           (remove_each (alternate true rest) tg).
Proof.
  induction rest as [|x|x y rest IH] using list_pair_ind;
    intros kept ents dg tg c fuel Hc Hnd Hall Hfuel.
  - exists c. split; [|exact Hc].
    apply (for_live_past _ _ _ _ _ (kept ++ [])); [apply Hc|].
    rewrite app_nil_r. lia.
  - destruct fuel as [|fuel]; [cbn in Hfuel; lia|].
    cbn [alternate] in *. apply Forall_cons in Hall as [Hx _].
    destruct Hx as ((s & n & -> & Hint & Hrec) & Hd & Ht).
    apply NoDup_app in Hnd as (_ & Hnin & _).
    assert (Hk : VStr s ∉ kept).
    { intros Hin. apply (Hnin _ Hin). by left. }
    destruct (remove_first_elem s dg Hd) as (dg' & Edg & _).
    destruct (remove_first_elem s tg Ht) as (tg' & Etg & _).
    destruct (cleanup_body_step c s n _ ents dg tg (kept ++ []) dg' tg' Hc
                Hint Hrec (remove_first_middle s kept [] Hk) Edg Etg)
      as (c1 & Hrun & Hc1).
    exists c1. cbn [for_live]. rewrite (proj1 Hc), list_lookup_middle by done.
    rewrite Hrun. cbn [pop_each remove_each]. rewrite Edg, Etg.
    split; [|exact Hc1].
    apply (for_live_past _ _ _ _ _ (kept ++ [])); [apply Hc1|].
    rewrite app_nil_r. lia.
  - destruct fuel as [|fuel]; [cbn in Hfuel; lia|].
    cbn [alternate] in *. apply Forall_cons in Hall as [Hx Hall].
    destruct Hx as ((s & n & -> & Hint & Hrec) & Hd & Ht).
    pose proof Hnd as Hnd0.
    apply NoDup_app in Hnd as (Hndk & Hnin & Hndr).
    assert (Hk : VStr s ∉ kept).
    { intros Hin. apply (Hnin _ Hin). by left. }
    apply NoDup_cons in Hndr as [Hxr Hndr].
    destruct (remove_first_elem s dg Hd) as (dg' & Edg & Hdg').
    destruct (remove_first_elem s tg Ht) as (tg' & Etg & Htg').
    destruct (cleanup_body_step c s n _ ents dg tg (kept ++ y :: rest) dg' tg'
                Hc Hint Hrec (remove_first_middle s kept (y :: rest) Hk)
                Edg Etg)
      as (c1 & Hrun & Hc1).
    destruct (IH (kept ++ [y]) (dict_del s ents) dg' tg' c1 fuel)
      as (c' & Hloop & Hc').
    + by rewrite <- app_assoc.
    + rewrite <- app_assoc. cbn [app]. apply NoDup_app.
      split; [done|]. split; [|done].
      intros z Hz Hin. apply (Hnin z Hz). by right.
    + apply (removable_later ents dg tg); try done.
      intros Hin. apply Hxr. right. by apply (alternate_elem _ true).
    + cbn [length] in Hfuel. lia.
    + exists c'. cbn [for_live].
      rewrite (proj1 Hc), list_lookup_middle by done. rewrite Hrun.
      cbn [pop_each remove_each]. rewrite Edg, Etg.
      rewrite length_app in Hloop. cbn [length] in Hloop.
      rewrite Nat.add_1_r in Hloop. split; [exact Hloop|].
      by rewrite <- app_assoc in Hc'.
Qed.

(** X17: What [cleanup_manual] does to a document whose task ids are pairwise
    different: it looks at the first, the third, the fifth ... id only.
    When each of these is a number with a record, filed under ["DEFAULT"]
    and ["TODAY"], it removes them from all four places and uploads the
    result; the tasks at the second, the fourth ... place stay, numbered or
    not. *)
Theorem cleanup_manual_every_second (w : world) (ids : list value)
  (ents : dict) (dtids ttids : list value) (ms : Z) :
  filed (remote w) ids ents dtids ttids ->
  NoDup ids ->
  Forall (removable ents dtids ttids) (alternate true ids) ->
  int_of_float (float_mul (clock w (ticks w)) f1000) = Ok ms ->
  exists w' : world,
    SupProd.cleanup_manual w = (Ok tt, w')
    /\ uploads w' = uploads w ++ [remote w']
    /\ filed (remote w') (alternate false ids)
         (pop_each (alternate true ids) ents)
         (remove_each (alternate true ids) dtids)
         (remove_each (alternate true ids) ttids).
Proof.
  intros Hc Hnd Hall Hms.
  destruct (cleanup_loop_run ids [] ents dtids ttids (remote w) (length ids)
              Hc Hnd Hall (le_n _)) as (c' & Hloop & Hc').
  cbn [length app] in Hloop, Hc'.
  assert (Hd : exists d, c' = VDict d).
  { destruct Hc' as (H1 & _).
    apply get_path_cons_inv in H1 as (d & _ & -> & _). eauto. }
  destruct Hd as [d ->].
  eexists. split; [|split].
  - unfold SupProd.cleanup_manual.
    rewrite (bind_Ok SupProd.contents _ w w (remote w) eq_refl).
    rewrite (bind_Ok _ _ w w (VDict d)).
    + by apply update_contents_dict.
    + apply on_local_Ok. unfold for_in. by rewrite (proj1 Hc).
  - done.
  - cbn [remote]. destruct Hc' as (H1 & H2 & H3 & H4).
    repeat split; by rewrite get_path_stamp.
Qed.

Lemma cleanup_manual_every_second_witness :
  exists w' : world,
    SupProd.cleanup_manual (sample_world (filed_doc ["1"; "2"; "3"; "kf3Qx"]))
    = (Ok tt, w')
    /\ uploads w' = [] ++ [remote w']
    /\ filed (remote w') [VStr "2"; VStr "kf3Qx"]
         [("2", VDict [("title", VStr "2"); ("isDone", VBool false)]);
          ("kf3Qx", VDict [("title", VStr "kf3Qx"); ("isDone", VBool false)])]
         [VStr "2"; VStr "kf3Qx"] [VStr "2"; VStr "kf3Qx"].
Proof.
  destruct (cleanup_manual_every_second
              (sample_world (filed_doc ["1"; "2"; "3"; "kf3Qx"]))
              (VStr <$> ["1"; "2"; "3"; "kf3Qx"])
              ((fun i => (i, VDict [("title", VStr i);
                                    ("isDone", VBool false)]))
                 <$> ["1"; "2"; "3"; "kf3Qx"])
              (VStr <$> ["1"; "2"; "3"; "kf3Qx"])
              (VStr <$> ["1"; "2"; "3"; "kf3Qx"]) 1700000000250)
    as (w' & Hrun & Hup & Hfiled).
  - repeat split.
  - repeat (apply NoDup_cons; split;
            [rewrite ?not_elem_of_cons; repeat split;
             try discriminate; apply not_elem_of_nil|]).
    apply NoDup_nil_2.
  - cbn [alternate fmap list_fmap].
    repeat (apply Forall_cons; split; [|try apply Forall_nil_2]);
      (split;
       [eexists _, _; split; [reflexivity|];
        split; [vm_compute; reflexivity|by eexists]
       |split; rewrite !elem_of_cons; auto 6]).
  - reflexivity.
  - exists w'. split; [exact Hrun|]. split; [exact Hup|]. exact Hfiled.
Defined.

Lemma alternate_length_even {A : Type} (l : list A) :
  Nat.even (length l) = true ->
  length (alternate false l) = length (alternate true l).
Proof.
  induction l as [|x|x y l IH] using list_pair_ind; [done|done|].
  intros Hev. cbn [alternate length]. f_equal. by apply IH.
Qed.

Lemma alternate_length_le {A : Type} (l : list A) :
  forall b : bool, (length (alternate b l) <= length l)%nat.
Proof.
  induction l as [|x l IH]; intros b; [done|]. cbn [alternate length].
  destruct b; [specialize (IH false)|specialize (IH true)];
    cbn [length]; lia.
Qed.

(** The loop of [cleanup_manual] over an even number of ids that are ahead:
    it removes the first, the third, ... of them and goes on behind
    them. *)
Lemma cleanup_loop_prefix (pre : list value) :
  Nat.even (length pre) = true ->
  forall (kept tail : list value) (ents : dict) (dg tg : list value)
         (c : value) (fuel : nat),
    filed c (kept ++ pre ++ tail) ents dg tg ->
    NoDup (kept ++ pre ++ tail) ->
    Forall (removable ents dg tg) (alternate true pre) ->
    exists c',
      for_live (length (alternate true pre) + fuel) (length kept)
        [VStr "task"; VStr "ids"] SupProd.cleanup_body c
      = for_live fuel (length kept + length (alternate true pre))
          [VStr "task"; VStr "ids"] SupProd.cleanup_body c'
      /\ filed c' (kept ++ alternate false pre ++ tail)
           (pop_each (alternate true pre) ents)
           (remove_each (alternate true pre) dg)
           (remove_each (alternate true pre) tg).
Proof.
  induction pre as [|x|x y pre IH] using list_pair_ind; [|done|];
    intros Hev kept tail ents dg tg c fuel Hc Hnd Hall.
  - exists c. cbn [alternate length app Nat.add]. by rewrite Nat.add_0_r.
  - cbn [alternate length] in *. apply Forall_cons in Hall as [Hx Hall].
    destruct Hx as ((s & n & -> & Hint & Hrec) & Hd & Ht).
    cbn [app] in Hc, Hnd.
    apply NoDup_app in Hnd as (Hndk & Hnin & Hndr).
    assert (Hk : VStr s ∉ kept).
    { intros Hin. apply (Hnin _ Hin). by left. }
    apply NoDup_cons in Hndr as [Hxr Hndr].
    destruct (remove_first_elem s dg Hd) as (dg' & Edg & Hdg').
    destruct (remove_first_elem s tg Ht) as (tg' & Etg & Htg').
    destruct (cleanup_body_step c s n _ ents dg tg
                (kept ++ y :: pre ++ tail) dg' tg' Hc Hint Hrec
                (remove_first_middle s kept (y :: pre ++ tail) Hk) Edg Etg)
      as (c1 & Hrun & Hc1).
    destruct (IH Hev (kept ++ [y]) tail (dict_del s ents) dg' tg' c1 fuel)
      as (c' & Hloop & Hc').
    + by rewrite <- app_assoc.
    + rewrite <- app_assoc. cbn [app]. apply NoDup_app.
      split; [done|]. split; [|done].
      intros z Hz Hin. apply (Hnin z Hz). by right.
    + apply (removable_later ents dg tg); try done.
      intros Hin. apply Hxr. right. apply elem_of_app. left.
      by apply (alternate_elem _ true).
    + exists c'. cbn [Nat.add for_live].
      rewrite (proj1 Hc), list_lookup_middle by done. rewrite Hrun.
      cbn [pop_each remove_each]. rewrite Edg, Etg.
      rewrite length_app in Hloop. cbn [length] in Hloop.
      rewrite Nat.add_1_r in Hloop. rewrite Nat.add_succ_r.
      split; [exact Hloop|].
      rewrite <- app_assoc in Hc'. exact Hc'.
Qed.

(** X18: The loop of [cleanup_manual] stops at the first id it looks at that
    [int] rejects.  The ids it looks at are the first, the third, ...; when
    the ones before the rejected id can be removed, the call raises
    [ValueError], nothing is uploaded and the remote document is as it was:
    the removals made so far are lost. *)
Theorem cleanup_manual_stops_at_manual_id (w : world) (pre post : list value)
  (s : string) (ents : dict) (dtids ttids : list value) :
  filed (remote w) (pre ++ VStr s :: post) ents dtids ttids ->
  NoDup (pre ++ VStr s :: post) ->
  Nat.even (length pre) = true ->
  Forall (removable ents dtids ttids) (alternate true pre) ->
  int_of_str s = Raise ValueError ->
  SupProd.cleanup_manual w = (Raise ValueError, w).
Proof.
  intros Hc Hnd Hev Hall Hint.
  pose proof (alternate_length_le pre true) as Hle.
  destruct (cleanup_loop_prefix pre Hev [] (VStr s :: post) ents dtids ttids
              (remote w)
              (length (pre ++ VStr s :: post) - length (alternate true pre))
              Hc Hnd Hall) as (c' & Hloop & Hc').
  cbn [length app Nat.add] in Hloop, Hc'.
  rewrite length_app in Hloop. cbn [length] in Hloop.
  replace (length (alternate true pre)
           + (length pre + S (length post) - length (alternate true pre)))%nat
    with (length (pre ++ VStr s :: post)) in Hloop
    by (rewrite length_app; cbn [length]; lia).
  replace (length pre + S (length post) - length (alternate true pre))%nat
    with (S (length pre + length post - length (alternate true pre)))
    in Hloop by lia.
  cbn [for_live] in Hloop. rewrite (proj1 Hc') in Hloop.
  rewrite <- (alternate_length_even pre Hev) in Hloop.
  rewrite list_lookup_middle in Hloop by done.
  assert (Hbody : SupProd.cleanup_body (VStr s) c' = (Raise ValueError, c')).
  { unfold SupProd.cleanup_body, try_except, bind, lift. cbn [py_int].
    by rewrite Hint. }
  rewrite Hbody in Hloop.
  unfold SupProd.cleanup_manual.
  rewrite (bind_Ok SupProd.contents _ w w (remote w) eq_refl).
  unfold bind at 1. unfold on_local, for_in.
  by rewrite (proj1 Hc), Hloop.
Qed.

Lemma cleanup_manual_stops_at_manual_id_witness :
  SupProd.cleanup_manual (sample_world (filed_doc ["1"; "2"; "kf3Qx"; "3"]))
  = (Raise ValueError, sample_world (filed_doc ["1"; "2"; "kf3Qx"; "3"]))
  /\ SupProd.cleanup_manual
       (sample_world (filed_doc [String "031" "1"; "2"]))
     = (Raise ValueError, sample_world (filed_doc [String "031" "1"; "2"])).
Proof.
  split.
  - apply (cleanup_manual_stops_at_manual_id
             (sample_world (filed_doc ["1"; "2"; "kf3Qx"; "3"]))
             [VStr "1"; VStr "2"] [VStr "3"] "kf3Qx"
             ((fun i => (i, VDict [("title", VStr i);
                                   ("isDone", VBool false)]))
                <$> ["1"; "2"; "kf3Qx"; "3"])
             (VStr <$> ["1"; "2"; "kf3Qx"; "3"])
             (VStr <$> ["1"; "2"; "kf3Qx"; "3"])).
    + repeat split.
    + repeat (apply NoDup_cons; split;
              [rewrite ?not_elem_of_cons; repeat split;
               try discriminate; apply not_elem_of_nil|]).
      apply NoDup_nil_2.
    + reflexivity.
    + cbn [alternate fmap list_fmap].
      repeat (apply Forall_cons; split; [|try apply Forall_nil_2]);
        (split;
         [eexists _, _; split; [reflexivity|];
          split; [vm_compute; reflexivity|by eexists]
         |split; rewrite !elem_of_cons; auto 6]).
    + reflexivity.
  - apply (cleanup_manual_stops_at_manual_id
             (sample_world (filed_doc [String "031" "1"; "2"]))
             [] [VStr "2"] (String "031" "1")
             ((fun i => (i, VDict [("title", VStr i);
                                   ("isDone", VBool false)]))
                <$> [String "031" "1"; "2"])
             (VStr <$> [String "031" "1"; "2"])
             (VStr <$> [String "031" "1"; "2"])).
    + repeat split.
    + repeat (apply NoDup_cons; split;
              [rewrite ?not_elem_of_cons; repeat split;
               try discriminate; apply not_elem_of_nil|]).
      apply NoDup_nil_2.
    + reflexivity.
    + constructor.
    + reflexivity.
Defined.

Lemma with_path_method_raise (ks : list string) (m : value -> res value)
  (e : exn) :
  forall c x,
    get_path (VStr <$> ks) c = Ok x -> m x = Raise e ->
    with_path (VStr <$> ks) m c = Raise e.
Proof.
  induction ks as [|k ks IH]; intros c x Hget Hm.
  - simpl in *. congruence.
  - rewrite fmap_cons in *.
    apply get_path_cons_inv in Hget as (d & y & -> & Hd & Hget).
    cbn [with_path subscript]. rewrite Hd. cbn [res_bind].
    by rewrite (IH y x Hget Hm).
Qed.

Lemma remove_first_absent (s : string) (l : list value) :
  (VStr s ∉ l) -> remove_first (VStr s) l = None.
Proof.
  induction l as [|y l IH]; [done|].
  intros [Hne Hnin]%not_elem_of_cons. cbn [remove_first].
  destruct (py_eq y (VStr s)) eqn:E.
  - apply py_eq_str_r in E. congruence.
  - by rewrite (IH Hnin).
Qed.

(** X19: [cleanup_manual] is for numbered tasks of the project ["DEFAULT"]
    only.  When the first task is numbered and has a record, but there is
    no project ["DEFAULT"], the call raises [KeyError]; when the project is
    there and the task is not in its list, it raises [ValueError].  In both
    cases nothing is uploaded and the remote document stays as it was. *)
Theorem cleanup_manual_needs_default (w : world) (s : string) (n : Z)
  (rest : list value) (ents : dict) :
  get_path [VStr "task"; VStr "ids"] (remote w) = Ok (VList (VStr s :: rest)) ->
  int_of_str s = Ok n ->
  get_path [VStr "task"; VStr "entities"] (remote w) = Ok (VDict ents) ->
  is_Some (dict_get s ents) ->
  (get_path [VStr "project"; VStr "entities"; VStr "DEFAULT"; VStr "taskIds"]
     (remote w) = Raise KeyError ->
   SupProd.cleanup_manual w = (Raise KeyError, w))
  /\ (forall l : list value,
         get_path [VStr "project"; VStr "entities"; VStr "DEFAULT";
                   VStr "taskIds"] (remote w) = Ok (VList l) ->
         (VStr s ∉ l) ->
         SupProd.cleanup_manual w = (Raise ValueError, w)).
Proof.
  intros Hids Hint Hents [v Hv].
  set (c1 := set_path ["task"; "entities"] (VDict (dict_del s ents))
               (remote w)).
  set (c2 := set_path ["task"; "ids"] (VList rest) c1).
  assert (G1 : get_path [VStr "task"; VStr "ids"] c1
               = Ok (VList (VStr s :: rest))).
  { unfold c1. by rewrite get_set_second. }
  assert (E1 : mutate [VStr "task"; VStr "entities"] (pop (VStr s)) (remote w)
               = (Ok tt, c1)).
  { apply (mutate_set ["task"; "entities"] _ _ (VDict ents)); [done|].
    cbn [pop]. by rewrite Hv. }
  assert (E2 : mutate [VStr "task"; VStr "ids"] (remove (VStr s)) c1
               = (Ok tt, c2)).
  { apply (mutate_set ["task"; "ids"] _ _ (VList (VStr s :: rest))); [done|].
    cbn [remove remove_first].
    by rewrite (proj2 (py_eq_str_r (VStr s) s) eq_refl). }
  assert (G2 : get_path [VStr "project"; VStr "entities"; VStr "DEFAULT";
                         VStr "taskIds"] c2
               = get_path [VStr "project"; VStr "entities"; VStr "DEFAULT";
                           VStr "taskIds"] (remote w)).
  { unfold c2, c1. by rewrite !get_set_other. }
  assert (Hrun : forall e : exn,
             e <> AttributeError ->
             with_path [VStr "project"; VStr "entities"; VStr "DEFAULT";
                        VStr "taskIds"] (remove (VStr s)) c2 = Raise e ->
             SupProd.cleanup_manual w = (Raise e, w)).
  { intros e He Hfail. unfold SupProd.cleanup_manual.
    rewrite (bind_Ok SupProd.contents _ w w (remote w) eq_refl).
    unfold bind at 1. unfold on_local, for_in. rewrite Hids.
    cbn [length for_live]. rewrite Hids. cbn [lookup list_lookup].
    unfold SupProd.cleanup_body, try_except.
    rewrite (bind_Ok _ _ (remote w) (remote w) n)
      by (unfold lift; cbn [py_int]; by rewrite Hint).
    rewrite (bind_Ok _ _ _ _ tt E1), (bind_Ok _ _ _ _ tt E2).
    unfold bind at 1. unfold mutate at 1. rewrite Hfail.
    by destruct e. }
  split.
  - intros Hno. apply Hrun; [done|]. apply with_path_get_raise.
    by rewrite G2.
  - intros l Hl Hnin. apply Hrun; [done|].
    apply (with_path_method_raise
             ["project"; "entities"; "DEFAULT"; "taskIds"] _ _ _ (VList l)).
    + cbn [fmap list_fmap]. by rewrite G2.
    + cbn [remove]. by rewrite remove_first_absent.
Qed.

Lemma cleanup_manual_needs_default_witness :
  SupProd.cleanup_manual (sample_world sample_doc)
  = (Raise KeyError, sample_world sample_doc)
  /\ SupProd.cleanup_manual
       (sample_world
          (set_path ["project"; "entities"; "DEFAULT"; "taskIds"]
             (VList [VStr "2"]) (filed_doc ["1"; "2"])))
     = (Raise ValueError,
        sample_world
          (set_path ["project"; "entities"; "DEFAULT"; "taskIds"]
             (VList [VStr "2"]) (filed_doc ["1"; "2"]))).
Proof.
  split.
  - apply (cleanup_manual_needs_default (sample_world sample_doc) "1" 1
             [VStr "2"; VStr "4"] sample_tasks); try reflexivity.
    by eexists.
  - refine (proj2 (cleanup_manual_needs_default
                     (sample_world
                        (set_path ["project"; "entities"; "DEFAULT"; "taskIds"]
                           (VList [VStr "2"]) (filed_doc ["1"; "2"])))
                     "1" 1 [VStr "2"]
                     [("1", VDict [("title", VStr "1");
                                   ("isDone", VBool false)]);
                      ("2", VDict [("title", VStr "2");
                                   ("isDone", VBool false)])]
                     eq_refl eq_refl eq_refl _) [VStr "2"] eq_refl _).
    + by eexists.
    + rewrite not_elem_of_cons. split; [discriminate|apply not_elem_of_nil].
Defined.

(** ** Project.create_task *)

Lemma records_after (doc doc' : value) (nid : string) (rec : value)
  (ents : dict) (ids recs : list value) :
  get_path [VStr "task"; VStr "entities"] doc = Ok (VDict ents) ->
  get_path [VStr "task"; VStr "entities"] doc'
  = Ok (VDict (dict_set nid rec ents)) ->
  (VStr nid ∉ ids) ->
  Forall2 (fun x r => task_record doc x = Ok r) ids recs ->
  Forall2 (fun x r => task_record doc' x = Ok r) (ids ++ [VStr nid])
    (recs ++ [rec]).
Proof.
  intros He He' Hnin Hrecs. apply Forall2_app.
  - induction Hrecs as [|x r ids recs Hx _ IH]; [constructor|].
    apply not_elem_of_cons in Hnin as [Hne Hnin].
    constructor; [|by apply IH].
    destruct (task_record_after doc doc' x nid rec ents He He') as [-> _];
      done.
  - constructor; [|constructor].
    by destruct (task_record_after doc doc' (VStr nid) nid rec ents He He').
Qed.

(** X20: A task created through a project is a task of that project: after
    [create_task] of the project, its [tasks] are the ones it had, then the
    new task, with the title given, stripped.  The configured default
    project plays no part. *)
Theorem project_create_task_listed `{FloatRepr} (w : world)
  (self : Project.t) (p : string) (task_title : string) (is_today : bool)
  (time_estimate : value) (attachments : list Attachment.t)
  (ids recs : list value) (ents : dict) (ptids ttids : list value) (ms : Z) :
  Project.id self = VStr p ->
  p <> "" ->
  get_path [VStr "task"; VStr "ids"] (remote w) = Ok (VList ids) ->
  get_path [VStr "task"; VStr "entities"] (remote w) = Ok (VDict ents) ->
  Forall2 (fun x r => task_record (remote w) x = Ok r) ids recs ->
  Forall (fun r => exists d, getitem r "isDone" = Ok d) recs ->
  Forall (fun r => exists q, getitem r "projectId" = Ok q) recs ->
  get_path [VStr "project"; VStr "entities"; VStr p; VStr "taskIds"] (remote w)
  = Ok (VList ptids) ->
  (is_today = true ->
   get_path [VStr "tag"; VStr "entities"; VStr "TODAY"; VStr "taskIds"]
     (remote w) = Ok (VList ttids)) ->
  int_of_float (float_mul (clock w (length attachments + ticks w)%nat) f1000)
  = Ok ms ->
  exists (old : list Task.t) (new : Task.t) (w' : world),
    ProjectMethods.tasks self w = (Ok old, w)
    /\ ProjectMethods.create_task self task_title is_today false
         time_estimate attachments w = (Ok tt, w')
    /\ ProjectMethods.tasks self w' = (Ok (old ++ [new]), w')
    /\ Task.title new = Ok (strip task_title)
    /\ Task.project_id new = Ok (VStr p).
Proof.
  intros Hid Hp Hids Hents Hrecs Hdone Hproj Hptids Htag Hms.
  destruct self as [pid details]. cbn [Project.id Project._project_id] in Hid.
  subst pid.
  assert (Htruthy : truthy (VStr p) = true).
  { cbn [truthy]. by destruct (String.eqb_spec p ""). }
  destruct (create_task_step w task_title (VStr p) is_today false
              time_estimate attachments (VStr p) ids ents ptids ttids ms
              (or_introl (conj Htruthy eq_refl))
              (fun E => False_ind _ (Bool.diff_false_true E))
              Hids Hents Hptids
              (fun E => Htag (eq_trans (eq_sym (orb_false_r _)) E)) Hms)
    as (n & rec & doc' & Hrun & _ & Hfresh & Rids & Rents & Rt & Rd & Rp & _).
  eexists _, (Task.New rec), _. split; [|split; [|split; [|split]]].
  - by apply (project_tasks_of_records w _ ids recs).
  - exact Hrun.
  - rewrite (project_tasks_of_records _ _ (ids ++ [VStr (pretty n)])
               (recs ++ [rec])).
    + rewrite List.filter_app, fmap_app. cbn [List.filter].
      unfold is_open at 2, in_project at 2. rewrite Rd, Rp.
      cbn [Project.id Project._project_id truthy negb andb].
      by rewrite (proj2 (py_eq_str_r (VStr p) p) eq_refl).
    + exact Rids.
    + by apply (records_after (remote w) doc' (pretty n) rec ents).
    + apply Forall_app. split; [done|]. constructor; [eauto|constructor].
    + apply Forall_app. split; [done|]. constructor; [eauto|constructor].
  - unfold Task.title. cbn [Task._task_details]. by rewrite Rt.
  - unfold Task.project_id. cbn [Task._task_details]. exact Rp.
Qed.

Lemma project_create_task_listed_witness :
  let self := Project.New (VStr "P0") (VDict [("title", VStr "Home")]) in
  exists (old : list Task.t) (new : Task.t) (w' : world),
    ProjectMethods.tasks self (sample_world sample_doc)
    = (Ok old, sample_world sample_doc)
    /\ @ProjectMethods.create_task sample_repr self " Water plants" false
         false (VInt 0) [] (sample_world sample_doc) = (Ok tt, w')
    /\ ProjectMethods.tasks self w' = (Ok (old ++ [new]), w')
    /\ Task.title new = Ok (strip " Water plants")
    /\ Task.project_id new = Ok (VStr "P0").
Proof.
  intros self.
  apply (@project_create_task_listed sample_repr (sample_world sample_doc)
           self "P0" " Water plants" false (VInt 0) []
           [VStr "1"; VStr "2"; VStr "4"] (sample_tasks.*2) sample_tasks
           [VStr "4"] [] 1700000000250);
    try reflexivity; try discriminate.
  - repeat constructor.
  - repeat constructor; eexists; reflexivity.
  - repeat constructor; eexists; reflexivity.
Defined.

(** ** get_project_by_name, by the exact title *)

Lemma find_project_exact_skip (doc : value) (name : string)
  (pre : list value) (rest : list Project.t) :
  Forall (differently_titled doc name) pre ->
  exists ps,
    res_map (fun x => let? r := project_record doc x in
                      Ok (Project.New x r)) pre = Ok ps
    /\ SupProd.find_project name false (ps ++ rest)
       = SupProd.find_project name false rest.
Proof.
  induction 1 as [|x pre (t & Ht & Hne) _ (ps & Hps & Hfind)].
  - by exists [].
  - unfold project_title in Ht.
    destruct (project_record doc x) as [r|] eqn:Er; [|discriminate].
    destruct (getitem r "title") as [[| | | |t'| |]|] eqn:Et; try discriminate.
    injection Ht as ->.
    exists (Project.New x r :: ps). split.
    + simpl. rewrite Er. simpl. by rewrite Hps.
    + simpl. unfold Project.title; simpl. rewrite Et. simpl.
      destruct (String.eqb_spec t name); [done|exact Hfind].
Qed.

(** X21: With [case_insensitive] off, [get_project_by_name] returns the first
    project whose title is the name letter for letter, and raises
    [ValueError] when every title differs from the name, be it by case
    only. *)
Theorem get_project_by_name_exact :
  (forall (w : world) (name : string) (pre post : list value) (x r : value),
      get_path [VStr "project"; VStr "ids"] (remote w)
      = Ok (VList (pre ++ x :: post)) ->
      Forall (differently_titled (remote w) name) pre ->
      project_record (remote w) x = Ok r ->
      getitem r "title" = Ok (VStr name) ->
      Forall (fun y => exists r', project_record (remote w) y = Ok r') post ->
      SupProd.get_project_by_name name false w = (Ok (Project.New x r), w))
  /\ (forall (w : world) (name : string) (ids : list value),
         get_path [VStr "project"; VStr "ids"] (remote w) = Ok (VList ids) ->
         Forall (differently_titled (remote w) name) ids ->
         SupProd.get_project_by_name name false w = (Raise ValueError, w)).
Proof.
  split.
  - intros w name pre post x r Hids Hpre Hr Ht Hpost.
    unfold SupProd.get_project_by_name, bind.
    rewrite (projects_unfold w _ Hids), res_map_app.
    assert (exists qs,
               res_map (fun y => let? r' := project_record (remote w) y in
                                 Ok (Project.New y r')) post = Ok qs)
      as (qs & Hqs).
    { clear -Hpost. induction Hpost as [|y post (r' & Hr') _ (qs & Hqs)].
      - by exists [].
      - exists (Project.New y r' :: qs). simpl. rewrite Hr'. simpl.
        by rewrite Hqs. }
    destruct (find_project_exact_skip (remote w) name pre
                (Project.New x r :: qs) Hpre) as (ps & Hps & Hfind).
    rewrite Hps. simpl. rewrite Hr. simpl. rewrite Hqs. simpl.
    unfold lift. rewrite Hfind. simpl. unfold Project.title; simpl.
    rewrite Ht. simpl. by rewrite String.eqb_refl.
  - intros w name ids Hids Hall.
    unfold SupProd.get_project_by_name, bind.
    rewrite (projects_unfold w _ Hids).
    destruct (find_project_exact_skip (remote w) name ids [] Hall)
      as (ps & Hps & Hfind).
    rewrite Hps. unfold lift. rewrite app_nil_r in Hfind. by rewrite Hfind.
Qed.

Lemma get_project_by_name_exact_witness :
  let w := sample_world sample_doc in
  SupProd.get_project_by_name "Work" false w
  = (Ok (Project.New (VStr "P1")
           (VDict [("title", VStr "Work");
                   ("taskIds", VList [VStr "1"; VStr "2"])])), w)
  /\ SupProd.get_project_by_name "work" false w = (Raise ValueError, w).
Proof.
  intros w. destruct get_project_by_name_exact as (H1 & H2). split.
  - apply (H1 w "Work" [VStr "P0"] []); try reflexivity; [|constructor].
    constructor; [|constructor]. exists "Home". split; [reflexivity|].
    discriminate.
  - apply (H2 w "work" [VStr "P0"; VStr "P1"]); [reflexivity|].
    constructor; [|constructor; [|constructor]].
    + exists "Home". split; [reflexivity|discriminate].
    + exists "Work". split; [reflexivity|discriminate].
Defined.

(** ** A configuration that cannot be read *)

(** X22: [default_project_id] catches [KeyError] and nothing else: when the way
    to the default project id goes through something that is no dictionary,
    the error of the lookup comes out of it, and out of every
    [create_task] that is given no project, with nothing uploaded. *)
Theorem default_project_id_unreadable `{FloatRepr} (w : world) (e : exn) :
  get_path default_project_path (remote w) = Raise e ->
  e <> KeyError ->
  SupProd.default_project_id w = (Raise e, w)
  /\ forall (task_title : string) (project_id : value)
            (is_today is_unique : bool) (time_estimate : value)
            (attachments : list Attachment.t),
      truthy project_id = false ->
      SupProd.create_task task_title project_id is_today is_unique
        time_estimate attachments w = (Raise e, w).
Proof.
  intros Hget He.
  assert (Hdef : SupProd.default_project_id w = (Raise e, w)).
  { rewrite default_project_id_eq, Hget. by destruct e. }
  split; [exact Hdef|].
  intros task_title project_id is_today is_unique time_estimate attachments
    Hfalse.
  unfold SupProd.create_task, bind at 1. by rewrite Hfalse, Hdef.
Qed.

Lemma default_project_id_unreadable_witness :
  let w := sample_world (sample_doc_with VNone) in
  SupProd.default_project_id w = (Raise TypeError, w)
  /\ forall (task_title : string) (project_id : value)
            (is_today is_unique : bool) (time_estimate : value)
            (attachments : list Attachment.t),
      truthy project_id = false ->
      @SupProd.create_task sample_repr task_title project_id is_today
        is_unique time_estimate attachments w = (Raise TypeError, w).
Proof.
  intros w.
  apply (@default_project_id_unreadable sample_repr w TypeError);
    [reflexivity|discriminate].
Defined.

(** ** Attachments, from create_task to the task *)

Lemma from_attachment_stored (attachments : list Attachment.t)
  (stored : list value) :
  Forall2 (fun a s =>
             exists i, s = VDict [("type", Attachment.attachment_type a);
                                  ("path", Attachment.path a);
                                  ("title", Attachment.title a);
                                  ("id", VStr i)])
    attachments stored ->
  res_map Attachment.from_attachment stored = Ok attachments.
Proof.
  induction 1 as [|a s atts stored (i & ->) _ IH]; [done|].
  cbn [res_map]. rewrite IH. by destruct a.
Qed.

(** X23: the attachments given to [create_task] are the attachments of the
    task it creates: the new record stores one entry for each, in their
    order, and reading the entries back with [Task.attachments] gives the
    attachments that were passed.  The clock is read once for each
    attachment and once for the time stamp. *)
Theorem create_task_stores_attachments `{FloatRepr} (w : world)
  (task_title : string) (project_id : value) (is_today is_unique : bool)
  (time_estimate : value) (attachments : list Attachment.t) (r : value)
  (ids : list value) (ents : dict) (ptids ttids : list value) (ms : Z) :
  (truthy project_id = true /\ r = project_id
   \/ truthy project_id = false
      /\ SupProd.default_project_id w = (Ok r, w)) ->
  (is_unique = true ->
   forallb (listable_task (remote w)) ids = true
   /\ existsb (open_task_titled (remote w) task_title) ids = false) ->
  get_path [VStr "task"; VStr "ids"] (remote w) = Ok (VList ids) ->
  get_path [VStr "task"; VStr "entities"] (remote w) = Ok (VDict ents) ->
  resolved_project (remote w) r ptids ->
  (is_today || is_none r = true ->
   get_path [VStr "tag"; VStr "entities"; VStr "TODAY"; VStr "taskIds"]
     (remote w) = Ok (VList ttids)) ->
  int_of_float (float_mul (clock w (length attachments + ticks w)%nat) f1000)
  = Ok ms ->
  exists (w' : world) (x rec : value) (stored : list value),
    SupProd.create_task task_title project_id is_today is_unique
      time_estimate attachments w = (Ok tt, w')
    /\ get_path [VStr "task"; VStr "ids"] (remote w') = Ok (VList (ids ++ [x]))
    /\ task_record (remote w') x = Ok rec
    /\ TaskMethods.attachments (Task.New rec) = Ok stored
    /\ length stored = length attachments
    /\ res_map Attachment.from_attachment stored = Ok attachments
    /\ ticks w' = S (length attachments + ticks w).
Proof.
  intros Hres Huniq Hids Hents Hproj Htag Hms.
  destruct (create_task_step w task_title project_id is_today is_unique
              time_estimate attachments r ids ents ptids ttids ms
              Hres Huniq Hids Hents Hproj Htag Hms)
    as (n & rec & doc' & Hrun & _ & _ & Rids & Rents & _ & _ & _ & _ & _ & _
        & _ & stored & Ra & Hstored).
  eexists _, (VStr (pretty n)), rec, stored. split; [exact Hrun|].
  cbn [remote ticks]. split; [exact Rids|]. split.
  { by destruct (task_record_after (remote w) doc' (VStr (pretty n))
                   (pretty n) rec ents Hents Rents). }
  split.
  { unfold TaskMethods.attachments. cbn [Task._task_details]. by rewrite Ra. }
  split; [symmetry; by eapply Forall2_length|].
  split; [by apply from_attachment_stored|done].
Qed.

Lemma create_task_stores_attachments_witness :
  let atts := [Attachment.New (VStr "http://x") (VStr "x") (VStr "LINK");
               Attachment.New (VStr "/tmp/a") (VStr "a") (VStr "FILE")] in
  exists (w' : world) (x rec : value) (stored : list value),
    @SupProd.create_task sample_repr "Read paper" VNone false false (VInt 0)
      atts (sample_world sample_doc) = (Ok tt, w')
    /\ get_path [VStr "task"; VStr "ids"] (remote w')
       = Ok (VList ([VStr "1"; VStr "2"; VStr "4"] ++ [x]))
    /\ task_record (remote w') x = Ok rec
    /\ TaskMethods.attachments (Task.New rec) = Ok stored
    /\ length stored = 2%nat
    /\ res_map Attachment.from_attachment stored = Ok atts
    /\ ticks w' = 3%nat.
Proof.
  intros atts.
  apply (@create_task_stores_attachments sample_repr (sample_world sample_doc)
           "Read paper" VNone false false (VInt 0) atts (VStr "P1")
           [VStr "1"; VStr "2"; VStr "4"] sample_tasks
           [VStr "1"; VStr "2"] [] 1700000000250);
    try reflexivity; try discriminate.
  right. split; reflexivity.
Defined.
